(** * terraform-provider-lidarr: notification adapters, lifecycle and look-ups

    A shallow embedding of the provider's notification variant adapters
    (custom script, gotify, email, subsonic), the custom format resource,
    the notifications list data source and the single-indexer data source,
    with the properties their specification states about them. *)

From Stdlib Require Import ZArith List String Ascii Bool Lia.
From Stdlib Require Import DecimalString DecimalFacts DecimalZ DecimalPos.
Import ListNotations.
Open Scope string_scope.
Open Scope list_scope.
Open Scope Z_scope.

(** ** Framework attribute values

    [types.Bool], [types.Int64], [types.String] and [types.Set] of the
    terraform-plugin-framework hold a value that is null, unknown or known.
    The Go zero value of each of them is the null state. *)
Inductive tfval (A : Type) : Type :=
| Null
| Unknown
| Known (a : A).
Arguments Null {A}.
Arguments Unknown {A}.
Arguments Known {A} a.

Definition types_Bool := tfval bool.
Definition types_Int64 := tfval Z.
Definition types_String := tfval string.
(** A set is kept as the list of its elements; the order is not observable
    through the framework. *)
Definition types_Set (A : Type) := tfval (list A).

Definition BoolValue (b : bool) : types_Bool := Known b.
Definition Int64Value (z : Z) : types_Int64 := Known z.
Definition StringValue (s : string) : types_String := Known s.

Definition ValueBool (v : types_Bool) : bool :=
  match v with Known b => b | _ => false end.
Definition ValueInt64 (v : types_Int64) : Z :=
  match v with Known z => z | _ => 0 end.
Definition ValueString (v : types_String) : string :=
  match v with Known s => s | _ => "" end.

(** [types.SetValueFrom(ctx, elemType, slice)]: the known set of the slice. *)
Definition SetValueFrom {A : Type} (l : list A) : types_Set A := Known l.
(** [v.Elements()] and [tfsdk.ValueAs(ctx, v, &slice)] on a set. *)
Definition Elements {A : Type} (v : types_Set A) : list A :=
  match v with Known l => l | _ => [] end.

(** Go's conversion [int32(x)] of a wider integer: wrap-around. *)
Definition int32 (z : Z) : Z := (z + 2 ^ 31) mod 2 ^ 32 - 2 ^ 31.

(** ** Diagnostics ([diag.Diagnostics]) *)
Inductive Severity := SeverityError | SeverityWarning.

(** The summaries are constants of the [helpers] / [tools] packages and of
    the framework's validators; they are kept by name. *)
Inductive Summary :=
| ClientError
| DataSourceError
| UnexpectedImportIdentifier
| UnexpectedResourceConfigureType
| UnexpectedDataSourceConfigureType
| InvalidAttributeValueMatch.

Record diag_Diagnostic := {
  severity : Severity;
  summary : Summary;
  detail : string
}.

Definition diag_Diagnostics := list diag_Diagnostic.

Definition Severity_eqb (a b : Severity) : bool :=
  match a, b with
  | SeverityError, SeverityError | SeverityWarning, SeverityWarning => true
  | _, _ => false
  end.

Definition Summary_eqb (a b : Summary) : bool :=
  match a, b with
  | ClientError, ClientError
  | DataSourceError, DataSourceError
  | UnexpectedImportIdentifier, UnexpectedImportIdentifier
  | UnexpectedResourceConfigureType, UnexpectedResourceConfigureType
  | UnexpectedDataSourceConfigureType, UnexpectedDataSourceConfigureType
  | InvalidAttributeValueMatch, InvalidAttributeValueMatch => true
  | _, _ => false
  end.

Definition Diagnostic_Equal (a b : diag_Diagnostic) : bool :=
  Severity_eqb (severity a) (severity b)
  && Summary_eqb (summary a) (summary b)
  && String.eqb (detail a) (detail b).

Definition Contains (ds : diag_Diagnostics) (d : diag_Diagnostic) : bool :=
  existsb (Diagnostic_Equal d) ds.

(** [diags.Append(in...)]: duplicates of a diagnostic already there are
    skipped. *)
Fixpoint Append (ds : diag_Diagnostics) (new : diag_Diagnostics) : diag_Diagnostics :=
  match new with
  | [] => ds
  | d :: rest => Append (if Contains ds d then ds else ds ++ [d]) rest
  end.

Definition AddError (ds : diag_Diagnostics) (s : Summary) (d : string) : diag_Diagnostics :=
  Append ds [{| severity := SeverityError; summary := s; detail := d |}].

Definition HasError (ds : diag_Diagnostics) : bool :=
  existsb (fun d => Severity_eqb (severity d) SeverityError) ds.

(** ** Remote errors

    A Go [error] returned by a client library: the text [err.Error()] gives,
    and the HTTP status behind it (0 when the failure is below HTTP). *)
Record GoError := {
  StatusCode : Z;
  ErrorText : string
}.

Definition is_not_found (e : GoError) : bool := StatusCode e =? 404.

Inductive result (T : Type) : Type :=
| Ok (t : T)
| Err (e : GoError).
Arguments Ok {T} t.
Arguments Err {T} e.

(** ** The generic notification record

    [Notification] is the superset record every notification variant is
    projected into.  Its declaration (notification_resource.go) is not among
    the sources; the record below has one attribute for every field the
    variant adapters name, with the type the adapters give it. *)

Module Notification.

(** Modelled from the spec: the declaration of the struct [Notification],
    restricted to the attributes the adapters under study use. *)
Record t := {
  Tags : (types_Set Z);
  Path : types_String;
  Arguments : types_String;
  Name : types_String;
  ID : types_Int64;
  OnGrab : types_Bool;
  OnReleaseImport : types_Bool;
  OnDownloadFailure : types_Bool;
  IncludeHealthWarnings : types_Bool;
  OnApplicationUpdate : types_Bool;
  OnHealthIssue : types_Bool;
  OnHealthRestored : types_Bool;
  OnImportFailure : types_Bool;
  OnRename : types_Bool;
  OnUpgrade : types_Bool;
  OnTrackRetag : types_Bool;
  Implementation : types_String;
  ConfigContract : types_String;
  Server : types_String;
  AppToken : types_String;
  Priority : types_Int64;
  OnAlbumDelete : types_Bool;
  OnArtistDelete : types_Bool;
  From : types_String;
  To : (types_Set string);
  Cc : (types_Set string);
  Bcc : (types_Set string);
  Port : types_Int64;
  Username : types_String;
  Password : types_String;
  RequireEncryption : types_Bool;
  Host : types_String;
  URLBase : types_String;
  UseSSL : types_Bool;
  Notify : types_Bool;
  UpdateLibrary : types_Bool
}.

(** The Go zero value: every attribute null. *)
Definition zero : t := {|
  Tags := Null;
  Path := Null;
  Arguments := Null;
  Name := Null;
  ID := Null;
  OnGrab := Null;
  OnReleaseImport := Null;
  OnDownloadFailure := Null;
  IncludeHealthWarnings := Null;
  OnApplicationUpdate := Null;
  OnHealthIssue := Null;
  OnHealthRestored := Null;
  OnImportFailure := Null;
  OnRename := Null;
  OnUpgrade := Null;
  OnTrackRetag := Null;
  Implementation := Null;
  ConfigContract := Null;
  Server := Null;
  AppToken := Null;
  Priority := Null;
  OnAlbumDelete := Null;
  OnArtistDelete := Null;
  From := Null;
  To := Null;
  Cc := Null;
  Bcc := Null;
  Port := Null;
  Username := Null;
  Password := Null;
  RequireEncryption := Null;
  Host := Null;
  URLBase := Null;
  UseSSL := Null;
  Notify := Null;
  UpdateLibrary := Null
|}.

End Notification.

(** ** Wire records

    The request and response bodies of the two client libraries the
    sources are written against: devopsarr/lidarr-go (optional fields behind
    [Get]/[Set] methods) and golift.io/starr (plain struct fields). *)

(** A wire field: a name and a dynamically typed value. *)
Inductive Dynamic :=
| DBool (b : bool)
| DInt (z : Z)
| DString (s : string)
| DInts (l : list Z)
| DStrings (l : list string).

Record Field := {
  FieldName : string;
  FieldValue : Dynamic
}.

(** [lidarr.NotificationResource] of lidarr-go. *)
Module lidarr_NotificationResource.

Record t := {
  Id : option Z;
  Name : option string;
  Fields : list Field;
  Implementation : option string;
  ConfigContract : option string;
  Tags : list Z;
  OnGrab : option bool;
  OnReleaseImport : option bool;
  OnUpgrade : option bool;
  OnRename : option bool;
  OnHealthIssue : option bool;
  OnTrackRetag : option bool;
  IncludeHealthWarnings : option bool
}.

(** [lidarr.NewNotificationResource()]: nothing set. *)
Definition NewNotificationResource : t := {|
  Id := None;
  Name := None;
  Fields := [];
  Implementation := None;
  ConfigContract := None;
  Tags := [];
  OnGrab := None;
  OnReleaseImport := None;
  OnUpgrade := None;
  OnRename := None;
  OnHealthIssue := None;
  OnTrackRetag := None;
  IncludeHealthWarnings := None
|}.

(** The getters return the zero value of an unset field. *)
Definition GetId (r : t) : Z := match Id r with Some z => z | None => 0 end.
Definition GetName (r : t) : string := match Name r with Some s => s | None => "" end.
Definition GetImplementation (r : t) : string :=
  match Implementation r with Some s => s | None => "" end.
Definition GetConfigContract (r : t) : string :=
  match ConfigContract r with Some s => s | None => "" end.
Definition GetOnGrab (r : t) : bool := match OnGrab r with Some b => b | None => false end.
Definition GetOnReleaseImport (r : t) : bool :=
  match OnReleaseImport r with Some b => b | None => false end.
Definition GetOnUpgrade (r : t) : bool := match OnUpgrade r with Some b => b | None => false end.
Definition GetOnRename (r : t) : bool := match OnRename r with Some b => b | None => false end.
Definition GetOnHealthIssue (r : t) : bool :=
  match OnHealthIssue r with Some b => b | None => false end.
Definition GetOnTrackRetag (r : t) : bool :=
  match OnTrackRetag r with Some b => b | None => false end.
Definition GetIncludeHealthWarnings (r : t) : bool :=
  match IncludeHealthWarnings r with Some b => b | None => false end.

End lidarr_NotificationResource.

(** [lidarr.CustomFormatSpecificationSchema] of lidarr-go. *)
Module lidarr_CustomFormatSpecificationSchema.

Record t := {
  Name : option string;
  Implementation : option string;
  Negate : option bool;
  Required : option bool;
  Fields : list Field
}.

End lidarr_CustomFormatSpecificationSchema.

(** [lidarr.CustomFormatResource] of lidarr-go. *)
Module lidarr_CustomFormatResource.

Record t := {
  Id : option Z;
  Name : option string;
  IncludeCustomFormatWhenRenaming : option bool;
  Specifications : list lidarr_CustomFormatSpecificationSchema.t
}.

Definition GetId (r : t) : Z := match Id r with Some z => z | None => 0 end.
Definition GetName (r : t) : string := match Name r with Some s => s | None => "" end.
Definition GetIncludeCustomFormatWhenRenaming (r : t) : bool :=
  match IncludeCustomFormatWhenRenaming r with Some b => b | None => false end.

End lidarr_CustomFormatResource.

(** [lidarr.NotificationInput] of golift.io/starr. *)
Module lidarr_NotificationInput.

Record t := {
  OnGrab : bool;
  OnImportFailure : bool;
  OnUpgrade : bool;
  OnDownloadFailure : bool;
  OnReleaseImport : bool;
  OnHealthIssue : bool;
  OnApplicationUpdate : bool;
  IncludeHealthWarnings : bool;
  ConfigContract : string;
  Implementation : string;
  ID : Z;
  Name : string;
  Tags : list Z;
  Fields : list Field
}.

End lidarr_NotificationInput.

(** [lidarr.NotificationOutput] of golift.io/starr. *)
Module lidarr_NotificationOutput.

Record t := {
  OnGrab : bool;
  OnImportFailure : bool;
  OnUpgrade : bool;
  OnDownloadFailure : bool;
  OnReleaseImport : bool;
  OnHealthIssue : bool;
  OnApplicationUpdate : bool;
  IncludeHealthWarnings : bool;
  ID : Z;
  Name : string;
  Tags : list Z;
  Fields : list Field
}.

End lidarr_NotificationOutput.

(** [lidarr.IndexerOutput] of golift.io/starr. *)
Module lidarr_IndexerOutput.

Record t := {
  ID : Z;
  Name : string
}.

End lidarr_IndexerOutput.

(** ** The custom format condition

    The attributes [CustomFormatResource.getSpecificationSchema] declares
    for one specification. *)
Module CustomFormatCondition.

Record t := {
  Negate : types_Bool;
  Required : types_Bool;
  Name : types_String;
  Implementation : types_String;
  Value : types_String;
  Min : types_Int64;
  Max : types_Int64
}.

End CustomFormatCondition.

(** ** Methods that are not among the sources

    The methods of the generic [Notification] record, of
    [CustomFormatCondition] and of the indexer data model are called by the
    code under study, and their files are not part of the sources.  They are
    parameters of the development.  A method with a pointer receiver returns
    the receiver after the call. *)
Class GenericMethods := {
  (** [(n *Notification) read(ctx)] *)
  Notification_read : Notification.t -> lidarr_NotificationResource.t;
  (** [(n *Notification) write(ctx, notification)] *)
  Notification_write : Notification.t -> lidarr_NotificationResource.t -> Notification.t;
  (** [(n *Notification) read(ctx, diags)], the variant that reports
      diagnostics *)
  Notification_read_diags :
    Notification.t -> diag_Diagnostics -> lidarr_NotificationResource.t * diag_Diagnostics;
  (** [(n *Notification) write(ctx, notification, diags)] *)
  Notification_write_diags :
    Notification.t -> lidarr_NotificationResource.t -> diag_Diagnostics ->
    Notification.t * diag_Diagnostics;
  (** [(n *Notification) write(ctx, notification)] over the starr output *)
  Notification_write_output : Notification.t -> lidarr_NotificationOutput.t -> Notification.t;
  (** [(n *Notification) readFields(ctx)] *)
  readFields : Notification.t -> list Field;
  (** [(n *Notification) writeFields(ctx, fields)] *)
  writeFields : Notification.t -> list Field -> Notification.t;
  (** [(c *CustomFormatCondition) read(ctx)] *)
  CustomFormatCondition_read : CustomFormatCondition.t -> lidarr_CustomFormatSpecificationSchema.t;
  (** [(c *CustomFormatCondition) write(ctx, spec)] *)
  CustomFormatCondition_write :
    CustomFormatCondition.t -> lidarr_CustomFormatSpecificationSchema.t -> CustomFormatCondition.t;
  (** The indexer data model [Indexer], its [Name] attribute and
      [(i *Indexer) write(ctx, indexer)] *)
  Indexer : Type;
  Indexer_Name : Indexer -> types_String;
  Indexer_write : Indexer -> lidarr_IndexerOutput.t -> Indexer
}.

(** Functions of packages outside the repository that are kept abstract:
    [fmt]'s verb [%q] (a quoted Go string literal) and the error constructor
    [tools.ErrDataNotFoundError(kind, field, search)]. *)
Class External := {
  Quote : string -> string;
  ErrDataNotFoundError : string -> string -> string -> GoError
}.

(** The Go type of a field of a data model struct. *)
Inductive FieldType := Field_Bool | Field_Int64 | Field_String | Field_Set.

(** ** NotificationCustomScript: the custom script notification data model *)
Module NotificationCustomScript.

Definition notificationCustomScriptResourceName : string := "notification_custom_script".
Definition notificationCustomScriptImplementation : string := "CustomScript".
Definition notificationCustomScriptConfigContract : string := "CustomScriptSettings".

(** [NotificationCustomScript] describes the notification data model. *)
Record t := {
  Tags : (types_Set Z);
  Arguments : types_String;
  Path : types_String;
  Name : types_String;
  ID : types_Int64;
  OnGrab : types_Bool;
  OnReleaseImport : types_Bool;
  OnUpgrade : types_Bool;
  OnRename : types_Bool;
  OnHealthIssue : types_Bool;
  OnHealthRestored : types_Bool;
  OnDownloadFailure : types_Bool;
  OnImportFailure : types_Bool;
  OnTrackRetag : types_Bool;
  IncludeHealthWarnings : types_Bool;
  OnApplicationUpdate : types_Bool
}.

Definition toNotification (n : t) : Notification.t := {|
  Notification.Tags := Tags n;
  Notification.Path := Path n;
  Notification.Arguments := Arguments n;
  Notification.Name := Name n;
  Notification.ID := ID n;
  Notification.OnGrab := OnGrab n;
  Notification.OnReleaseImport := OnReleaseImport n;
  Notification.OnDownloadFailure := OnDownloadFailure n;
  Notification.IncludeHealthWarnings := IncludeHealthWarnings n;
  Notification.OnApplicationUpdate := OnApplicationUpdate n;
  Notification.OnHealthIssue := OnHealthIssue n;
  Notification.OnHealthRestored := OnHealthRestored n;
  Notification.OnImportFailure := OnImportFailure n;
  Notification.OnRename := OnRename n;
  Notification.OnUpgrade := OnUpgrade n;
  Notification.OnTrackRetag := OnTrackRetag n;
  Notification.Implementation := StringValue notificationCustomScriptImplementation;
  Notification.ConfigContract := StringValue notificationCustomScriptConfigContract;
  (* not named in the composite literal: zero values *)
  Notification.Server := Null;
  Notification.AppToken := Null;
  Notification.Priority := Null;
  Notification.OnAlbumDelete := Null;
  Notification.OnArtistDelete := Null;
  Notification.From := Null;
  Notification.To := Null;
  Notification.Cc := Null;
  Notification.Bcc := Null;
  Notification.Port := Null;
  Notification.Username := Null;
  Notification.Password := Null;
  Notification.RequireEncryption := Null;
  Notification.Host := Null;
  Notification.URLBase := Null;
  Notification.UseSSL := Null;
  Notification.Notify := Null;
  Notification.UpdateLibrary := Null
|}.

(** The method assigns every field of its pointer receiver [n]; the result
    is the receiver after the assignments. *)
Definition fromNotification (n : t) (notification : Notification.t) : t := {|
  Tags := Notification.Tags notification;
  Path := Notification.Path notification;
  Arguments := Notification.Arguments notification;
  Name := Notification.Name notification;
  ID := Notification.ID notification;
  OnGrab := Notification.OnGrab notification;
  OnTrackRetag := Notification.OnTrackRetag notification;
  OnDownloadFailure := Notification.OnDownloadFailure notification;
  IncludeHealthWarnings := Notification.IncludeHealthWarnings notification;
  OnApplicationUpdate := Notification.OnApplicationUpdate notification;
  OnHealthIssue := Notification.OnHealthIssue notification;
  OnHealthRestored := Notification.OnHealthRestored notification;
  OnReleaseImport := Notification.OnReleaseImport notification;
  OnRename := Notification.OnRename notification;
  OnUpgrade := Notification.OnUpgrade notification;
  OnImportFailure := Notification.OnImportFailure notification
|}.

(** The [tfsdk] tags of the fields of the struct, with the type of each
    field, in the order of the struct. *)
Definition tfsdk_tags : list (string * FieldType) := [
  ("tags", Field_Set);
  ("arguments", Field_String);
  ("path", Field_String);
  ("name", Field_String);
  ("id", Field_Int64);
  ("on_grab", Field_Bool);
  ("on_release_import", Field_Bool);
  ("on_upgrade", Field_Bool);
  ("on_rename", Field_Bool);
  ("on_health_issue", Field_Bool);
  ("on_health_restored", Field_Bool);
  ("on_download_failure", Field_Bool);
  ("on_import_failure", Field_Bool);
  ("on_track_retag", Field_Bool);
  ("include_health_warnings", Field_Bool);
  ("on_application_update", Field_Bool)
].

Section Methods.
Context {GM : GenericMethods}.

Definition write (n : t) (notification : lidarr_NotificationResource.t) : t :=
  let genericNotification := toNotification n in
  let genericNotification := Notification_write genericNotification notification in
  fromNotification n genericNotification.

Definition read (n : t) : lidarr_NotificationResource.t :=
  Notification_read (toNotification n).

End Methods.

End NotificationCustomScript.

(** ** NotificationGotify: the gotify notification data model *)
Module NotificationGotify.

Definition notificationGotifyResourceName : string := "notification_gotify".
Definition notificationGotifyImplementation : string := "Gotify".
Definition notificationGotifyConfigContract : string := "GotifySettings".

(** [NotificationGotify] describes the notification data model. *)
Record t := {
  Tags : (types_Set Z);
  Server : types_String;
  Name : types_String;
  AppToken : types_String;
  Priority : types_Int64;
  ID : types_Int64;
  OnGrab : types_Bool;
  OnReleaseImport : types_Bool;
  OnAlbumDelete : types_Bool;
  OnArtistDelete : types_Bool;
  IncludeHealthWarnings : types_Bool;
  OnApplicationUpdate : types_Bool;
  OnHealthIssue : types_Bool;
  OnHealthRestored : types_Bool;
  OnDownloadFailure : types_Bool;
  OnUpgrade : types_Bool;
  OnImportFailure : types_Bool
}.

Definition toNotification (n : t) : Notification.t := {|
  Notification.Tags := Tags n;
  Notification.Server := Server n;
  Notification.AppToken := AppToken n;
  Notification.Priority := Priority n;
  Notification.Name := Name n;
  Notification.ID := ID n;
  Notification.OnGrab := OnGrab n;
  Notification.OnReleaseImport := OnReleaseImport n;
  Notification.OnAlbumDelete := OnAlbumDelete n;
  Notification.OnArtistDelete := OnArtistDelete n;
  Notification.IncludeHealthWarnings := IncludeHealthWarnings n;
  Notification.OnApplicationUpdate := OnApplicationUpdate n;
  Notification.OnHealthIssue := OnHealthIssue n;
  Notification.OnHealthRestored := OnHealthRestored n;
  Notification.OnDownloadFailure := OnDownloadFailure n;
  Notification.OnUpgrade := OnUpgrade n;
  Notification.OnImportFailure := OnImportFailure n;
  Notification.Implementation := StringValue notificationGotifyImplementation;
  Notification.ConfigContract := StringValue notificationGotifyConfigContract;
  (* not named in the composite literal: zero values *)
  Notification.Path := Null;
  Notification.Arguments := Null;
  Notification.OnRename := Null;
  Notification.OnTrackRetag := Null;
  Notification.From := Null;
  Notification.To := Null;
  Notification.Cc := Null;
  Notification.Bcc := Null;
  Notification.Port := Null;
  Notification.Username := Null;
  Notification.Password := Null;
  Notification.RequireEncryption := Null;
  Notification.Host := Null;
  Notification.URLBase := Null;
  Notification.UseSSL := Null;
  Notification.Notify := Null;
  Notification.UpdateLibrary := Null
|}.

(** The method assigns every field of its pointer receiver [n]; the result
    is the receiver after the assignments. *)
Definition fromNotification (n : t) (notification : Notification.t) : t := {|
  Tags := Notification.Tags notification;
  Server := Notification.Server notification;
  AppToken := Notification.AppToken notification;
  Priority := Notification.Priority notification;
  Name := Notification.Name notification;
  ID := Notification.ID notification;
  OnGrab := Notification.OnGrab notification;
  OnReleaseImport := Notification.OnReleaseImport notification;
  OnAlbumDelete := Notification.OnAlbumDelete notification;
  OnArtistDelete := Notification.OnArtistDelete notification;
  IncludeHealthWarnings := Notification.IncludeHealthWarnings notification;
  OnApplicationUpdate := Notification.OnApplicationUpdate notification;
  OnHealthIssue := Notification.OnHealthIssue notification;
  OnHealthRestored := Notification.OnHealthRestored notification;
  OnDownloadFailure := Notification.OnDownloadFailure notification;
  OnUpgrade := Notification.OnUpgrade notification;
  OnImportFailure := Notification.OnImportFailure notification
|}.

(** The [tfsdk] tags of the fields of the struct, with the type of each
    field, in the order of the struct. *)
Definition tfsdk_tags : list (string * FieldType) := [
  ("tags", Field_Set);
  ("server", Field_String);
  ("name", Field_String);
  ("app_token", Field_String);
  ("priority", Field_Int64);
  ("id", Field_Int64);
  ("on_grab", Field_Bool);
  ("on_release_import", Field_Bool);
  ("on_album_delete", Field_Bool);
  ("on_artist_delete", Field_Bool);
  ("include_health_warnings", Field_Bool);
  ("on_application_update", Field_Bool);
  ("on_health_issue", Field_Bool);
  ("on_health_restored", Field_Bool);
  ("on_download_failure", Field_Bool);
  ("on_upgrade", Field_Bool);
  ("on_import_failure", Field_Bool)
].

Section Methods.
Context {GM : GenericMethods}.

Definition write (n : t) (notification : lidarr_NotificationResource.t) (diags : diag_Diagnostics)
  : t * diag_Diagnostics :=
  let genericNotification := toNotification n in
  let '(genericNotification, diags) :=
    Notification_write_diags genericNotification notification diags in
  (fromNotification n genericNotification, diags).

Definition read (n : t) (diags : diag_Diagnostics) : lidarr_NotificationResource.t * diag_Diagnostics :=
  Notification_read_diags (toNotification n) diags.

End Methods.

End NotificationGotify.

(** ** NotificationEmail: the email notification data model *)
Module NotificationEmail.

Definition notificationEmailResourceName : string := "notification_email".
Definition notificationEmailImplementation : string := "Email".
Definition notificationEmailConfigContract : string := "EmailSettings".

(** [NotificationEmail] describes the notification data model. *)
Record t := {
  Tags : (types_Set Z);
  To : (types_Set string);
  Cc : (types_Set string);
  Bcc : (types_Set string);
  From : types_String;
  Server : types_String;
  Name : types_String;
  Username : types_String;
  Password : types_String;
  ID : types_Int64;
  Port : types_Int64;
  RequireEncryption : types_Bool;
  OnGrab : types_Bool;
  OnReleaseImport : types_Bool;
  IncludeHealthWarnings : types_Bool;
  OnApplicationUpdate : types_Bool;
  OnHealthIssue : types_Bool;
  OnDownloadFailure : types_Bool;
  OnUpgrade : types_Bool;
  OnImportFailure : types_Bool
}.

Definition toNotification (n : t) : Notification.t := {|
  Notification.Tags := Tags n;
  Notification.From := From n;
  Notification.To := To n;
  Notification.Cc := Cc n;
  Notification.Bcc := Bcc n;
  Notification.Server := Server n;
  Notification.Port := Port n;
  Notification.Username := Username n;
  Notification.Password := Password n;
  Notification.Name := Name n;
  Notification.ID := ID n;
  Notification.RequireEncryption := RequireEncryption n;
  Notification.OnGrab := OnGrab n;
  Notification.OnReleaseImport := OnReleaseImport n;
  Notification.IncludeHealthWarnings := IncludeHealthWarnings n;
  Notification.OnApplicationUpdate := OnApplicationUpdate n;
  Notification.OnHealthIssue := OnHealthIssue n;
  Notification.OnDownloadFailure := OnDownloadFailure n;
  Notification.OnUpgrade := OnUpgrade n;
  Notification.OnImportFailure := OnImportFailure n;
  (* not named in the composite literal: zero values *)
  Notification.Path := Null;
  Notification.Arguments := Null;
  Notification.OnHealthRestored := Null;
  Notification.OnRename := Null;
  Notification.OnTrackRetag := Null;
  Notification.Implementation := Null;
  Notification.ConfigContract := Null;
  Notification.AppToken := Null;
  Notification.Priority := Null;
  Notification.OnAlbumDelete := Null;
  Notification.OnArtistDelete := Null;
  Notification.Host := Null;
  Notification.URLBase := Null;
  Notification.UseSSL := Null;
  Notification.Notify := Null;
  Notification.UpdateLibrary := Null
|}.

(** The method assigns every field of its pointer receiver [n]; the result
    is the receiver after the assignments. *)
Definition fromNotification (n : t) (notification : Notification.t) : t := {|
  Tags := Notification.Tags notification;
  From := Notification.From notification;
  To := Notification.To notification;
  Cc := Notification.Cc notification;
  Bcc := Notification.Bcc notification;
  Server := Notification.Server notification;
  Port := Notification.Port notification;
  Username := Notification.Username notification;
  Password := Notification.Password notification;
  Name := Notification.Name notification;
  ID := Notification.ID notification;
  RequireEncryption := Notification.RequireEncryption notification;
  OnGrab := Notification.OnGrab notification;
  OnReleaseImport := Notification.OnReleaseImport notification;
  IncludeHealthWarnings := Notification.IncludeHealthWarnings notification;
  OnApplicationUpdate := Notification.OnApplicationUpdate notification;
  OnHealthIssue := Notification.OnHealthIssue notification;
  OnDownloadFailure := Notification.OnDownloadFailure notification;
  OnUpgrade := Notification.OnUpgrade notification;
  OnImportFailure := Notification.OnImportFailure notification
|}.

(** The [tfsdk] tags of the fields of the struct, with the type of each
    field, in the order of the struct. *)
Definition tfsdk_tags : list (string * FieldType) := [
  ("tags", Field_Set);
  ("to", Field_Set);
  ("cc", Field_Set);
  ("bcc", Field_Set);
  ("from", Field_String);
  ("server", Field_String);
  ("name", Field_String);
  ("username", Field_String);
  ("password", Field_String);
  ("id", Field_Int64);
  ("port", Field_Int64);
  ("require_encryption", Field_Bool);
  ("on_grab", Field_Bool);
  ("on_release_import", Field_Bool);
  ("include_health_warnings", Field_Bool);
  ("on_application_update", Field_Bool);
  ("on_health_issue", Field_Bool);
  ("on_download_failure", Field_Bool);
  ("on_upgrade", Field_Bool);
  ("on_import_failure", Field_Bool)
].

Section Methods.
Context {GM : GenericMethods}.

Definition write (n : t) (notification : lidarr_NotificationOutput.t) : t :=
  let genericNotification : Notification.t := {|
      Notification.OnGrab := BoolValue (lidarr_NotificationOutput.OnGrab notification);
      Notification.OnImportFailure := BoolValue (lidarr_NotificationOutput.OnImportFailure notification);
      Notification.OnUpgrade := BoolValue (lidarr_NotificationOutput.OnUpgrade notification);
      Notification.OnDownloadFailure := BoolValue (lidarr_NotificationOutput.OnDownloadFailure notification);
      Notification.OnReleaseImport := BoolValue (lidarr_NotificationOutput.OnReleaseImport notification);
      Notification.OnHealthIssue := BoolValue (lidarr_NotificationOutput.OnHealthIssue notification);
      Notification.OnApplicationUpdate := BoolValue (lidarr_NotificationOutput.OnApplicationUpdate notification);
      Notification.IncludeHealthWarnings := BoolValue (lidarr_NotificationOutput.IncludeHealthWarnings notification);
      Notification.ID := Int64Value (lidarr_NotificationOutput.ID notification);
      Notification.Name := StringValue (lidarr_NotificationOutput.Name notification);
      (* genericNotification.Tags, _ = types.SetValueFrom(ctx, types.Int64Type, notification.Tags) *)
      Notification.Tags := SetValueFrom (lidarr_NotificationOutput.Tags notification);
      (* not named in the composite literal: zero values *)
      Notification.Path := Null;
      Notification.Arguments := Null;
      Notification.OnHealthRestored := Null;
      Notification.OnRename := Null;
      Notification.OnTrackRetag := Null;
      Notification.Implementation := Null;
      Notification.ConfigContract := Null;
      Notification.Server := Null;
      Notification.AppToken := Null;
      Notification.Priority := Null;
      Notification.OnAlbumDelete := Null;
      Notification.OnArtistDelete := Null;
      Notification.From := Null;
      Notification.To := Null;
      Notification.Cc := Null;
      Notification.Bcc := Null;
      Notification.Port := Null;
      Notification.Username := Null;
      Notification.Password := Null;
      Notification.RequireEncryption := Null;
      Notification.Host := Null;
      Notification.URLBase := Null;
      Notification.UseSSL := Null;
      Notification.Notify := Null;
      Notification.UpdateLibrary := Null
    |} in
  let genericNotification := writeFields genericNotification (lidarr_NotificationOutput.Fields notification) in
  fromNotification n genericNotification.

Definition read (n : t) : lidarr_NotificationInput.t :=
  let tags := Elements (Tags n) in
  {|
    lidarr_NotificationInput.OnGrab := ValueBool (OnGrab n);
    lidarr_NotificationInput.OnImportFailure := ValueBool (OnImportFailure n);
    lidarr_NotificationInput.OnUpgrade := ValueBool (OnUpgrade n);
    lidarr_NotificationInput.OnDownloadFailure := ValueBool (OnDownloadFailure n);
    lidarr_NotificationInput.OnReleaseImport := ValueBool (OnReleaseImport n);
    lidarr_NotificationInput.OnHealthIssue := ValueBool (OnHealthIssue n);
    lidarr_NotificationInput.OnApplicationUpdate := ValueBool (OnApplicationUpdate n);
    lidarr_NotificationInput.IncludeHealthWarnings := ValueBool (IncludeHealthWarnings n);
    lidarr_NotificationInput.ConfigContract := notificationEmailConfigContract;
    lidarr_NotificationInput.Implementation := notificationEmailImplementation;
    lidarr_NotificationInput.ID := ValueInt64 (ID n);
    lidarr_NotificationInput.Name := ValueString (Name n);
    lidarr_NotificationInput.Tags := tags;
    lidarr_NotificationInput.Fields := readFields (toNotification n)
  |}.

End Methods.

End NotificationEmail.

(** ** NotificationSubsonic: the subsonic notification data model *)
Module NotificationSubsonic.

Definition notificationSubsonicResourceName : string := "notification_subsonic".
Definition notificationSubsonicImplementation : string := "Xbmc".
Definition notificationSubsonicConfigContract : string := "XbmcSettings".

(** [NotificationSubsonic] describes the notification data model. *)
Record t := {
  Tags : (types_Set Z);
  Host : types_String;
  Name : types_String;
  Username : types_String;
  Password : types_String;
  URLBase : types_String;
  Port : types_Int64;
  ID : types_Int64;
  OnGrab : types_Bool;
  UseSSL : types_Bool;
  Notify : types_Bool;
  UpdateLibrary : types_Bool;
  OnReleaseImport : types_Bool;
  OnTrackRetag : types_Bool;
  OnRename : types_Bool;
  IncludeHealthWarnings : types_Bool;
  OnHealthIssue : types_Bool;
  OnUpgrade : types_Bool
}.

Definition toNotification (n : t) : Notification.t := {|
  Notification.Tags := Tags n;
  Notification.Port := Port n;
  Notification.Host := Host n;
  Notification.URLBase := URLBase n;
  Notification.Password := Password n;
  Notification.Username := Username n;
  Notification.Name := Name n;
  Notification.ID := ID n;
  Notification.UseSSL := UseSSL n;
  Notification.Notify := Notify n;
  Notification.UpdateLibrary := UpdateLibrary n;
  Notification.OnGrab := OnGrab n;
  Notification.OnReleaseImport := OnReleaseImport n;
  Notification.OnRename := OnRename n;
  Notification.OnTrackRetag := OnTrackRetag n;
  Notification.IncludeHealthWarnings := IncludeHealthWarnings n;
  Notification.OnHealthIssue := OnHealthIssue n;
  Notification.OnUpgrade := OnUpgrade n;
  (* not named in the composite literal: zero values *)
  Notification.Path := Null;
  Notification.Arguments := Null;
  Notification.OnDownloadFailure := Null;
  Notification.OnApplicationUpdate := Null;
  Notification.OnHealthRestored := Null;
  Notification.OnImportFailure := Null;
  Notification.Implementation := Null;
  Notification.ConfigContract := Null;
  Notification.Server := Null;
  Notification.AppToken := Null;
  Notification.Priority := Null;
  Notification.OnAlbumDelete := Null;
  Notification.OnArtistDelete := Null;
  Notification.From := Null;
  Notification.To := Null;
  Notification.Cc := Null;
  Notification.Bcc := Null;
  Notification.RequireEncryption := Null
|}.

(** The method assigns every field of its pointer receiver [n]; the result
    is the receiver after the assignments. *)
Definition fromNotification (n : t) (notification : Notification.t) : t := {|
  Tags := Notification.Tags notification;
  Port := Notification.Port notification;
  URLBase := Notification.URLBase notification;
  Host := Notification.Host notification;
  Password := Notification.Password notification;
  Username := Notification.Username notification;
  Name := Notification.Name notification;
  ID := Notification.ID notification;
  UseSSL := Notification.UseSSL notification;
  Notify := Notification.Notify notification;
  UpdateLibrary := Notification.UpdateLibrary notification;
  OnGrab := Notification.OnGrab notification;
  OnReleaseImport := Notification.OnReleaseImport notification;
  OnTrackRetag := Notification.OnTrackRetag notification;
  IncludeHealthWarnings := Notification.IncludeHealthWarnings notification;
  OnHealthIssue := Notification.OnHealthIssue notification;
  OnRename := Notification.OnRename notification;
  OnUpgrade := Notification.OnUpgrade notification
|}.

(** The [tfsdk] tags of the fields of the struct, with the type of each
    field, in the order of the struct. *)
Definition tfsdk_tags : list (string * FieldType) := [
  ("tags", Field_Set);
  ("host", Field_String);
  ("name", Field_String);
  ("username", Field_String);
  ("password", Field_String);
  ("url_base", Field_String);
  ("port", Field_Int64);
  ("id", Field_Int64);
  ("on_grab", Field_Bool);
  ("use_ssl", Field_Bool);
  ("notify", Field_Bool);
  ("update_library", Field_Bool);
  ("on_release_import", Field_Bool);
  ("on_track_retag", Field_Bool);
  ("on_rename", Field_Bool);
  ("include_health_warnings", Field_Bool);
  ("on_health_issue", Field_Bool);
  ("on_upgrade", Field_Bool)
].

Section Methods.
Context {GM : GenericMethods}.

Definition write (n : t) (notification : lidarr_NotificationResource.t) : t :=
  let genericNotification : Notification.t := {|
      Notification.OnGrab := BoolValue (lidarr_NotificationResource.GetOnGrab notification);
      Notification.OnUpgrade := BoolValue (lidarr_NotificationResource.GetOnUpgrade notification);
      Notification.OnRename := BoolValue (lidarr_NotificationResource.GetOnRename notification);
      Notification.OnTrackRetag := BoolValue (lidarr_NotificationResource.GetOnTrackRetag notification);
      Notification.OnReleaseImport := BoolValue (lidarr_NotificationResource.GetOnReleaseImport notification);
      Notification.OnHealthIssue := BoolValue (lidarr_NotificationResource.GetOnHealthIssue notification);
      Notification.IncludeHealthWarnings := BoolValue (lidarr_NotificationResource.GetIncludeHealthWarnings notification);
      Notification.ID := Int64Value (lidarr_NotificationResource.GetId notification);
      Notification.Name := StringValue (lidarr_NotificationResource.GetName notification);
      (* genericNotification.Tags, _ = types.SetValueFrom(ctx, types.Int64Type, notification.Tags) *)
      Notification.Tags := SetValueFrom (lidarr_NotificationResource.Tags notification);
      (* not named in the composite literal: zero values *)
      Notification.Path := Null;
      Notification.Arguments := Null;
      Notification.OnDownloadFailure := Null;
      Notification.OnApplicationUpdate := Null;
      Notification.OnHealthRestored := Null;
      Notification.OnImportFailure := Null;
      Notification.Implementation := Null;
      Notification.ConfigContract := Null;
      Notification.Server := Null;
      Notification.AppToken := Null;
      Notification.Priority := Null;
      Notification.OnAlbumDelete := Null;
      Notification.OnArtistDelete := Null;
      Notification.From := Null;
      Notification.To := Null;
      Notification.Cc := Null;
      Notification.Bcc := Null;
      Notification.Port := Null;
      Notification.Username := Null;
      Notification.Password := Null;
      Notification.RequireEncryption := Null;
      Notification.Host := Null;
      Notification.URLBase := Null;
      Notification.UseSSL := Null;
      Notification.Notify := Null;
      Notification.UpdateLibrary := Null
    |} in
  let genericNotification := writeFields genericNotification (lidarr_NotificationResource.Fields notification) in
  fromNotification n genericNotification.

(** The setters are applied to a fresh [NewNotificationResource()]; a field
    no setter names stays unset. *)
Definition read (n : t) : lidarr_NotificationResource.t :=
  let tags := Elements (Tags n) in
  {|
    lidarr_NotificationResource.OnGrab := Some (ValueBool (OnGrab n));
    lidarr_NotificationResource.OnUpgrade := Some (ValueBool (OnUpgrade n));
    lidarr_NotificationResource.OnRename := Some (ValueBool (OnRename n));
    lidarr_NotificationResource.OnTrackRetag := Some (ValueBool (OnTrackRetag n));
    lidarr_NotificationResource.OnReleaseImport := Some (ValueBool (OnReleaseImport n));
    lidarr_NotificationResource.OnHealthIssue := Some (ValueBool (OnHealthIssue n));
    lidarr_NotificationResource.IncludeHealthWarnings := Some (ValueBool (IncludeHealthWarnings n));
    lidarr_NotificationResource.ConfigContract := Some notificationSubsonicConfigContract;
    lidarr_NotificationResource.Implementation := Some notificationSubsonicImplementation;
    lidarr_NotificationResource.Id := Some (int32 (ValueInt64 (ID n)));
    lidarr_NotificationResource.Name := Some (ValueString (Name n));
    lidarr_NotificationResource.Tags := tags;
    lidarr_NotificationResource.Fields := readFields (toNotification n)
  |}.

End Methods.

End NotificationSubsonic.

(** ** CustomFormat: the custom format data model *)
Module CustomFormat.

Definition customFormatResourceName : string := "custom_format".

Record t := {
  Specifications : types_Set CustomFormatCondition.t;
  Name : types_String;
  ID : types_Int64;
  IncludeCustomFormatWhenRenaming : types_Bool
}.

Definition zero_condition : CustomFormatCondition.t := {|
  CustomFormatCondition.Negate := Null;
  CustomFormatCondition.Required := Null;
  CustomFormatCondition.Name := Null;
  CustomFormatCondition.Implementation := Null;
  CustomFormatCondition.Value := Null;
  CustomFormatCondition.Min := Null;
  CustomFormatCondition.Max := Null
|}.

(** The Go zero value ([var state CustomFormat]). *)
Definition zero : t := {|
  Specifications := Null;
  Name := Null;
  ID := Null;
  IncludeCustomFormatWhenRenaming := Null
|}.

Section Methods.
Context {GM : GenericMethods}.

(** Every field of the receiver is assigned.  [Specifications] is first the
    empty set, then the set [tfsdk.ValueFrom] builds from the slice of
    conditions, each written from its zero value. *)
Definition write (c : t) (customFormat : lidarr_CustomFormatResource.t) : t :=
  let specs :=
    map (fun s => CustomFormatCondition_write zero_condition s)
        (lidarr_CustomFormatResource.Specifications customFormat) in
  {|
    ID := Int64Value (lidarr_CustomFormatResource.GetId customFormat);
    Name := StringValue (lidarr_CustomFormatResource.GetName customFormat);
    IncludeCustomFormatWhenRenaming :=
      BoolValue (lidarr_CustomFormatResource.GetIncludeCustomFormatWhenRenaming customFormat);
    Specifications := SetValueFrom specs
  |}.

Definition read (c : t) : lidarr_CustomFormatResource.t :=
  let specifications := Elements (Specifications c) in
  let specs := map (fun s => CustomFormatCondition_read s) specifications in
  {|
    lidarr_CustomFormatResource.Id := Some (int32 (ValueInt64 (ID c)));
    lidarr_CustomFormatResource.Name := Some (ValueString (Name c));
    lidarr_CustomFormatResource.IncludeCustomFormatWhenRenaming :=
      Some (ValueBool (IncludeCustomFormatWhenRenaming c));
    lidarr_CustomFormatResource.Specifications := specs
  |}.

End Methods.

End CustomFormat.

(** ** [strconv]: decimal text and integers *)
Module strconv.

Inductive NumError := ErrSyntax | ErrRange.

Definition minInt : Z := - 2 ^ 63.
Definition maxInt : Z := 2 ^ 63 - 1.
Definition maxUint64 : Z := 2 ^ 64 - 1.

(** The conversions [uint64(x)] and [int64(x)], with their wrap-around. *)
Definition uint64 (z : Z) : Z := z mod 2 ^ 64.
Definition int64 (z : Z) : Z := (z + 2 ^ 63) mod 2 ^ 64 - 2 ^ 63.

Definition is_digit (ch : ascii) : bool :=
  (48 <=? nat_of_ascii ch)%nat && (nat_of_ascii ch <=? 57)%nat.

(** The digit loop of the fast path of [Atoi]: [n = n*10 + int(ch - '0')], a
    syntax error at the first byte that is no digit. *)
Fixpoint digits (n : Z) (s : string) : option Z :=
  match s with
  | EmptyString => Some n
  | String ch rest =>
      if is_digit ch
      then digits (n * 10 + Z.of_nat (nat_of_ascii ch - 48)) rest
      else None
  end.

(** The loop of [ParseUint] at base 10 and bit size 64, byte by byte from
    the left: a byte that is no decimal digit is a syntax error (a letter is
    a digit of a larger base, an underscore is allowed for base 0 only); a
    value that leaves 64 bits is a range error, found at the digit that
    overflows, before the bytes after it are looked at. *)
Fixpoint ParseUint_loop (n : Z) (s : string) : Z * option NumError :=
  match s with
  | EmptyString => (n, None)
  | String c rest =>
      if is_digit c then
        let d := Z.of_nat (nat_of_ascii c - 48) in
        let cutoff := maxUint64 / 10 + 1 in
        let maxVal := maxUint64 in
        if cutoff <=? n then (maxVal, Some ErrRange)
        else
          let n := uint64 (n * 10) in
          let n1 := uint64 (n + d) in
          if (n1 <? n) || (maxVal <? n1) then (maxVal, Some ErrRange)
          else ParseUint_loop n1 rest
      else (0, Some ErrSyntax)
  end.

(** [ParseUint(s, 10, 0)]. *)
Definition ParseUint (s : string) : Z * option NumError :=
  match s with
  | EmptyString => (0, Some ErrSyntax)
  | _ => ParseUint_loop 0 s
  end.

(** [ParseInt(s, 10, 0)] on a 64-bit platform: the sign is picked off, the
    rest is parsed unsigned, and the range of [int64] is checked; a range
    error of [ParseUint] comes with the largest value and so is a range error
    here. *)
Definition ParseInt (s : string) : Z * option NumError :=
  match s with
  | EmptyString => (0, Some ErrSyntax)
  | String c0 rest =>
      let (neg, s') := if Ascii.eqb c0 "+" then (false, rest)
                       else if Ascii.eqb c0 "-" then (true, rest)
                       else (false, s) in
      let (un, err) := ParseUint s' in
      match err with
      | Some ErrSyntax => (0, Some ErrSyntax)
      | _ =>
          let cutoff := 2 ^ 63 in
          if negb neg && (cutoff <=? un) then (int64 (cutoff - 1), Some ErrRange)
          else if neg && (cutoff <? un) then (int64 (- int64 cutoff), Some ErrRange)
          else
            let n := int64 un in
            (if neg then int64 (- n) else n, None)
      end
  end.

(** [strconv.Atoi] on a 64-bit platform.  Text of 1 to 18 bytes takes the
    fast path: an optional sign, then the digit loop, whose value cannot
    leave [int].  Any other text goes through [ParseInt]. *)
Definition Atoi (s : string) : Z + NumError :=
  let sLen := String.length s in
  if (0 <? sLen)%nat && (sLen <? 19)%nat then
    match s with
    | EmptyString => inr ErrSyntax
    | String c0 rest =>
        let signed := Ascii.eqb c0 "-" || Ascii.eqb c0 "+" in
        let body := if signed then rest else s in
        if signed && (String.length body <? 1)%nat then inr ErrSyntax
        else
          match digits 0 body with
          | None => inr ErrSyntax
          | Some n => inl (if Ascii.eqb c0 "-" then - n else n)
          end
    end
  else
    let (i64, err) := ParseInt s in
    match err with
    | Some e => inr e
    | None => inl i64
    end.

(** [strconv.Itoa]: the decimal text of an integer. *)
Definition Itoa (i : Z) : string := NilZero.string_of_int (Z.to_int i).

End strconv.

(** ** [helpers]: the labels of client errors *)
Module helpers.

(** Modelled from the spec: the operation names [helpers.Create],
    [helpers.Read], [helpers.Update] and [helpers.Delete] (the package is not
    among the sources); a client error is labelled with one of
    create/read/update/delete. *)
Definition Create : string := "create".
Definition Read : string := "read".
Definition Update : string := "update".
Definition Delete : string := "delete".

(** Modelled from the spec: [helpers.ParseClientError(action, name, err)],
    the labelled failure that names the operation, the resource kind and the
    remote error text.  The wording is the one the resources that format the
    message themselves use ("Unable to read %s, got error: %s"). *)
Definition ParseClientError (action name : string) (err : GoError) : string :=
  ("Unable to " ++ action ++ " " ++ name ++ ", got error: " ++ ErrorText err)%string.

End helpers.

(** ** Requests and responses of the framework *)

(** What [Plan.Get], [State.Get] or [Config.Get] gives the provider: the
    target it fills and the diagnostics of the decoding. *)
Record Data (T : Type) := {
  Get_target : T;
  Get_diags : diag_Diagnostics
}.
Arguments Get_target {T} d.
Arguments Get_diags {T} d.

(** A response: the diagnostics and the state the framework keeps.  [None]
    is the removed (null) state. *)
Record Response (T : Type) := {
  Diagnostics : diag_Diagnostics;
  State : option T
}.
Arguments Diagnostics {T} r.
Arguments State {T} r.

Definition Diagnostics_Append {T} (resp : Response T) (ds : diag_Diagnostics) : Response T :=
  {| Diagnostics := Append (Diagnostics resp) ds; State := State resp |}.

Definition Diagnostics_AddError {T} (resp : Response T) (s : Summary) (d : string)
  : Response T :=
  {| Diagnostics := AddError (Diagnostics resp) s d; State := State resp |}.

(** [resp.State.Set(ctx, value)]; the encoding of a value of the schema's
    own struct reports nothing. *)
Definition State_Set {T} (resp : Response T) (v : T) : Response T :=
  Diagnostics_Append {| Diagnostics := Diagnostics resp; State := Some v |} [].

Definition State_RemoveResource {T} (resp : Response T) : Response T :=
  {| Diagnostics := Diagnostics resp; State := None |}.

(** ** Remote calls

    The operations of the two client libraries the code calls.  The
    lifecycle methods are programs over these calls: a program either returns
    or performs one call and continues with its result.  Logging
    ([tflog.Trace]) is left out. *)
Inductive ApiCall : Type :=
(* devopsarr/lidarr-go *)
| CreateNotification (body : lidarr_NotificationResource.t)
| GetNotificationById (id : Z)
| UpdateNotification (id : string) (body : lidarr_NotificationResource.t)
| UpdateNotificationInt32 (id : Z) (body : lidarr_NotificationResource.t)
| DeleteNotification (id : Z)
| ListNotification
| CreateCustomFormat (body : lidarr_CustomFormatResource.t)
| GetCustomFormatById (id : Z)
| UpdateCustomFormat (id : string) (body : lidarr_CustomFormatResource.t)
| DeleteCustomFormat (id : Z)
(* golift.io/starr *)
| AddNotificationContext (input : lidarr_NotificationInput.t)
| GetNotificationContext (id : Z)
| UpdateNotificationContext (input : lidarr_NotificationInput.t)
| DeleteNotificationContext (id : Z)
| GetNotificationsContext
| GetIndexersContext.

Definition Returns (c : ApiCall) : Type :=
  match c with
  | CreateNotification _ | GetNotificationById _
  | UpdateNotification _ _ | UpdateNotificationInt32 _ _ => result lidarr_NotificationResource.t
  | DeleteNotification _ => result unit
  | ListNotification => result (list lidarr_NotificationResource.t)
  | CreateCustomFormat _ | GetCustomFormatById _ | UpdateCustomFormat _ _ =>
      result lidarr_CustomFormatResource.t
  | DeleteCustomFormat _ => result unit
  | AddNotificationContext _ | GetNotificationContext _ | UpdateNotificationContext _ =>
      result lidarr_NotificationOutput.t
  | DeleteNotificationContext _ => result unit
  | GetNotificationsContext => result (list lidarr_NotificationOutput.t)
  | GetIndexersContext => result (list lidarr_IndexerOutput.t)
  end.

Inductive prog (A : Type) : Type :=
| Ret (a : A)
| Call (c : ApiCall) (k : Returns c -> prog A).
Arguments Ret {A} a.
Arguments Call {A} c k.

(** A remote server: how it answers each call in a state of its own. *)
Definition server (S : Type) := forall c : ApiCall, S -> Returns c * S.

(** Running a program against a server: the value, the server's state after
    it and the calls made, in order. *)
Fixpoint run {S A : Type} (srv : server S) (p : prog A) (s : S) : A * S * list ApiCall :=
  match p with
  | Ret a => (a, s, [])
  | Call c k =>
      let '(r, s1) := srv c s in
      let '(a, s2, calls) := run srv (k r) s1 in
      (a, s2, c :: calls)
  end.

Definition value_of {S A : Type} (out : A * S * list ApiCall) : A := fst (fst out).
Definition state_of {S A : Type} (out : A * S * list ApiCall) : S := snd (fst out).
Definition calls_of {S A : Type} (out : A * S * list ApiCall) : list ApiCall := snd out.

(** ** Schemas and their validation

    A schema is the list of a resource's attributes, in the order of the
    source.  The framework validates a configuration against it before any
    lifecycle method runs: each validator of an attribute is run on the
    attribute's configured value. *)
Module schema.

Inductive ElementType := Int64Type | StringType.

(** [int64validator.OneOf(values...)]. *)
Inductive Int64Validator :=
| OneOf (values : list Z).

Inductive AttributeKind :=
| BoolAttribute
| StringAttribute
| Int64Attribute (Validators : list Int64Validator) (UseStateForUnknown : bool)
| SetAttribute (elementType : ElementType).

Record Attribute := {
  Kind : AttributeKind;
  Required : bool;
  Optional : bool;
  Computed : bool;
  Sensitive : bool
}.

Definition Schema := list (string * Attribute).

(** One validator on one configured value.  [OneOf] does not check a null
    or unknown value; a known value that is none of [values] is reported
    as an error on the attribute. *)
Definition ValidateInt64 (v : Int64Validator) (path : string) (configValue : types_Int64)
  : diag_Diagnostics :=
  match v, configValue with
  | OneOf values, Known z =>
      if existsb (Z.eqb z) values then []
      else [{| severity := SeverityError;
               summary := InvalidAttributeValueMatch;
               detail := ("Attribute " ++ path ++ " value must be one of the allowed values, got: "
                          ++ strconv.Itoa z)%string |}]
  | OneOf _, _ => []
  end.

(** All validators of all integer attributes of a schema, on a
    configuration that is read through [get]. *)
Definition ValidateInt64Attributes {T : Type} (s : Schema)
  (get : T -> string -> option types_Int64) (config : T) : diag_Diagnostics :=
  flat_map
    (fun entry =>
       match Kind (snd entry), get config (fst entry) with
       | Int64Attribute validators _, Some v =>
           flat_map (fun val => ValidateInt64 val (fst entry) v) validators
       | _, _ => []
       end)
    s.

End schema.

(** An attribute of a schema, by its flags [Required], [Optional],
    [Computed] and [Sensitive] and its kind. *)
Definition schema_attribute (required optional computed sensitive : bool)
  (k : schema.AttributeKind) : schema.Attribute :=
  {| schema.Kind := k; schema.Required := required; schema.Optional := optional;
     schema.Computed := computed; schema.Sensitive := sensitive |}.

(** ** Configure and import: framework values *)

(** The client handle of golift.io/starr ([*lidarr.Lidarr]). *)
Inductive lidarr_Lidarr := lidarr_New (url apiKey : string).

(** [req.ProviderData], a Go [any]: nil, a [*lidarr.Lidarr] (a pointer, that
    may itself be nil), or a value of another type, with the name [%T]
    prints for it. *)
Inductive ProviderData :=
| ProviderData_nil
| ProviderData_Lidarr (client : option lidarr_Lidarr)
| ProviderData_other (typeName : string).

Record ConfigureResponse := {
  Configure_Diagnostics : diag_Diagnostics
}.

(** The raw state an import writes into: attribute paths and their
    values. *)
Definition RawState := list (string * Dynamic).

Definition SetAttribute (st : RawState) (path : string) (v : Dynamic) : RawState :=
  (path, v) :: filter (fun kv => negb (String.eqb (fst kv) path)) st.

Definition GetAttribute (st : RawState) (path : string) : option Dynamic :=
  option_map snd (find (fun kv => String.eqb (fst kv) path) st).

Record ImportStateResponse := {
  Import_Diagnostics : diag_Diagnostics;
  Import_State : RawState
}.

(** ** NotificationCustomScriptResource: the lifecycle of the resource *)
Module NotificationCustomScriptResource.

(** [Metadata]: the type name of the adapter under a provider. *)
Definition Metadata (req_ProviderTypeName : string) : string :=
  (req_ProviderTypeName ++ "_" ++ NotificationCustomScript.notificationCustomScriptResourceName)%string.

(** [Schema]: the attributes of the custom script notification. *)
Definition Schema : schema.Schema := [
  ("on_grab", schema_attribute true false false false schema.BoolAttribute);
  ("on_release_import", schema_attribute true false false false schema.BoolAttribute);
  ("on_upgrade", schema_attribute true false false false schema.BoolAttribute);
  ("on_rename", schema_attribute true false false false schema.BoolAttribute);
  ("on_download_failure", schema_attribute true false false false schema.BoolAttribute);
  ("on_import_failure", schema_attribute true false false false schema.BoolAttribute);
  ("on_track_retag", schema_attribute true false false false schema.BoolAttribute);
  ("on_health_issue", schema_attribute true false false false schema.BoolAttribute);
  ("on_health_restored", schema_attribute true false false false schema.BoolAttribute);
  ("on_application_update", schema_attribute true false false false schema.BoolAttribute);
  ("include_health_warnings", schema_attribute true false false false schema.BoolAttribute);
  ("name", schema_attribute true false false false schema.StringAttribute);
  ("tags", schema_attribute false true true false (schema.SetAttribute schema.Int64Type));
  ("id", schema_attribute false false true false (schema.Int64Attribute [] true));
  ("arguments", schema_attribute false true true false schema.StringAttribute);
  ("path", schema_attribute true false false false schema.StringAttribute)
].

Section Lifecycle.
Context {GM : GenericMethods}.

Definition Create (req_Plan : Data NotificationCustomScript.t) (resp : Response NotificationCustomScript.t)
  : prog (Response NotificationCustomScript.t) :=
  (* Retrieve values from plan *)
  let notification := Get_target req_Plan in
  let resp := Diagnostics_Append resp (Get_diags req_Plan) in
  if HasError (Diagnostics resp) then Ret resp else
  let request := NotificationCustomScript.read notification in
  Call (CreateNotification request) (fun r =>
    match r with
    | Err err =>
        Ret (Diagnostics_AddError resp ClientError
               (helpers.ParseClientError helpers.Create NotificationCustomScript.notificationCustomScriptResourceName err))
    | Ok response =>
        (* Generate resource state struct *)
        let notification := NotificationCustomScript.write notification response in
        Ret (State_Set resp notification)
    end).

Definition Read (req_State : Data NotificationCustomScript.t) (resp : Response NotificationCustomScript.t)
  : prog (Response NotificationCustomScript.t) :=
  (* Get current state *)
  let notification := Get_target req_State in
  let resp := Diagnostics_Append resp (Get_diags req_State) in
  if HasError (Diagnostics resp) then Ret resp else
  Call (GetNotificationById (int32 (ValueInt64 (NotificationCustomScript.ID notification)))) (fun r =>
    match r with
    | Err err =>
        Ret (Diagnostics_AddError resp ClientError
               (helpers.ParseClientError helpers.Read NotificationCustomScript.notificationCustomScriptResourceName err))
    | Ok response =>
        (* Map response body to resource schema attribute *)
        let notification := NotificationCustomScript.write notification response in
        Ret (State_Set resp notification)
    end).

Definition Update (req_Plan : Data NotificationCustomScript.t) (resp : Response NotificationCustomScript.t)
  : prog (Response NotificationCustomScript.t) :=
  (* Get plan values *)
  let notification := Get_target req_Plan in
  let resp := Diagnostics_Append resp (Get_diags req_Plan) in
  if HasError (Diagnostics resp) then Ret resp else
  let request := NotificationCustomScript.read notification in
  Call (UpdateNotification (strconv.Itoa (lidarr_NotificationResource.GetId request)) request) (fun r =>
    match r with
    | Err err =>
        Ret (Diagnostics_AddError resp ClientError
               (helpers.ParseClientError helpers.Update NotificationCustomScript.notificationCustomScriptResourceName err))
    | Ok response =>
        (* Generate resource state struct *)
        let notification := NotificationCustomScript.write notification response in
        Ret (State_Set resp notification)
    end).

Definition Delete (req_State : Data NotificationCustomScript.t) (resp : Response NotificationCustomScript.t)
  : prog (Response NotificationCustomScript.t) :=
  let notification := Get_target req_State in
  let resp := Diagnostics_Append resp (Get_diags req_State) in
  if HasError (Diagnostics resp) then Ret resp else
  Call (DeleteNotification (int32 (ValueInt64 (NotificationCustomScript.ID notification)))) (fun r =>
    match r with
    | Err err =>
        Ret (Diagnostics_AddError resp ClientError
               (helpers.ParseClientError helpers.Read NotificationCustomScript.notificationCustomScriptResourceName err))
    | Ok _ => Ret (State_RemoveResource resp)
    end).

End Lifecycle.

End NotificationCustomScriptResource.

(** ** NotificationGotifyResource: the lifecycle of the resource *)
Module NotificationGotifyResource.

(** [Metadata]: the type name of the adapter under a provider. *)
Definition Metadata (req_ProviderTypeName : string) : string :=
  (req_ProviderTypeName ++ "_" ++ NotificationGotify.notificationGotifyResourceName)%string.

Definition flag (required optional computed sensitive : bool) (k : schema.AttributeKind)
  : schema.Attribute :=
  {| schema.Kind := k; schema.Required := required; schema.Optional := optional;
     schema.Computed := computed; schema.Sensitive := sensitive |}.

(** [Schema]: the attributes of the gotify notification. *)
Definition Schema : schema.Schema := [
  ("on_grab", flag false true true false schema.BoolAttribute);
  ("on_import_failure", flag false true true false schema.BoolAttribute);
  ("on_upgrade", flag false true true false schema.BoolAttribute);
  ("on_download_failure", flag false true true false schema.BoolAttribute);
  ("on_release_import", flag false true true false schema.BoolAttribute);
  ("on_album_delete", flag false true true false schema.BoolAttribute);
  ("on_artist_delete", flag false true true false schema.BoolAttribute);
  ("on_health_issue", flag false true true false schema.BoolAttribute);
  ("on_health_restored", flag false true true false schema.BoolAttribute);
  ("on_application_update", flag false true true false schema.BoolAttribute);
  ("include_health_warnings", flag false true true false schema.BoolAttribute);
  ("name", flag true false false false schema.StringAttribute);
  ("tags", flag false true true false (schema.SetAttribute schema.Int64Type));
  ("id", flag false false true false (schema.Int64Attribute [] true));
  (* Field values *)
  ("priority", flag false true true false
     (schema.Int64Attribute [schema.OneOf [0; 2; 5; 8]] false));
  ("server", flag true false false false schema.StringAttribute);
  ("app_token", flag true false false true schema.StringAttribute)
].

(** The integer attributes of the data model, by their [tfsdk] tags. *)
Definition Int64_attribute (n : NotificationGotify.t) (name : string) : option types_Int64 :=
  if String.eqb name "priority" then Some (NotificationGotify.Priority n)
  else if String.eqb name "id" then Some (NotificationGotify.ID n)
  else None.

(** The validation of a declared configuration against [Schema], the step
    the framework runs before it plans or applies a change. *)
Definition ValidateConfig (config : NotificationGotify.t) : diag_Diagnostics :=
  schema.ValidateInt64Attributes Schema Int64_attribute config.

Section Lifecycle.
Context {GM : GenericMethods}.

Definition Create (req_Plan : Data NotificationGotify.t) (resp : Response NotificationGotify.t)
  : prog (Response NotificationGotify.t) :=
  (* Retrieve values from plan *)
  let notification := Get_target req_Plan in
  let resp := Diagnostics_Append resp (Get_diags req_Plan) in
  if HasError (Diagnostics resp) then Ret resp else
  let '(request, diags) := NotificationGotify.read notification (Diagnostics resp) in
  let resp := {| Diagnostics := diags; State := State resp |} in
  Call (CreateNotification request) (fun r =>
    match r with
    | Err err =>
        Ret (Diagnostics_AddError resp ClientError
               (helpers.ParseClientError helpers.Create
                  NotificationGotify.notificationGotifyResourceName err))
    | Ok response =>
        (* Generate resource state struct *)
        let '(notification, diags) :=
          NotificationGotify.write notification response (Diagnostics resp) in
        let resp := {| Diagnostics := diags; State := State resp |} in
        Ret (State_Set resp notification)
    end).

Definition Read (req_State : Data NotificationGotify.t) (resp : Response NotificationGotify.t)
  : prog (Response NotificationGotify.t) :=
  (* Get current state *)
  let notification := Get_target req_State in
  let resp := Diagnostics_Append resp (Get_diags req_State) in
  if HasError (Diagnostics resp) then Ret resp else
  Call (GetNotificationById (int32 (ValueInt64 (NotificationGotify.ID notification)))) (fun r =>
    match r with
    | Err err =>
        Ret (Diagnostics_AddError resp ClientError
               (helpers.ParseClientError helpers.Read
                  NotificationGotify.notificationGotifyResourceName err))
    | Ok response =>
        (* Map response body to resource schema attribute *)
        let '(notification, diags) :=
          NotificationGotify.write notification response (Diagnostics resp) in
        let resp := {| Diagnostics := diags; State := State resp |} in
        Ret (State_Set resp notification)
    end).

Definition Update (req_Plan : Data NotificationGotify.t) (resp : Response NotificationGotify.t)
  : prog (Response NotificationGotify.t) :=
  (* Get plan values *)
  let notification := Get_target req_Plan in
  let resp := Diagnostics_Append resp (Get_diags req_Plan) in
  if HasError (Diagnostics resp) then Ret resp else
  let '(request, diags) := NotificationGotify.read notification (Diagnostics resp) in
  let resp := {| Diagnostics := diags; State := State resp |} in
  Call (UpdateNotificationInt32 (lidarr_NotificationResource.GetId request) request) (fun r =>
    match r with
    | Err err =>
        Ret (Diagnostics_AddError resp ClientError
               (helpers.ParseClientError helpers.Update
                  NotificationGotify.notificationGotifyResourceName err))
    | Ok response =>
        (* Generate resource state struct *)
        let '(notification, diags) :=
          NotificationGotify.write notification response (Diagnostics resp) in
        let resp := {| Diagnostics := diags; State := State resp |} in
        Ret (State_Set resp notification)
    end).

(** [Delete] reads the attribute [id] of the state alone:
    [req_State_id] is what [req.State.GetAttribute(ctx, path.Root("id"), &ID)]
    gives, the integer and the diagnostics of the decoding. *)
Definition Delete (req_State_id : Z * diag_Diagnostics) (resp : Response NotificationGotify.t)
  : prog (Response NotificationGotify.t) :=
  let ID := fst req_State_id in
  let resp := Diagnostics_Append resp (snd req_State_id) in
  if HasError (Diagnostics resp) then Ret resp else
  Call (DeleteNotification (int32 ID)) (fun r =>
    match r with
    | Err err =>
        Ret (Diagnostics_AddError resp ClientError
               (helpers.ParseClientError helpers.Delete
                  NotificationGotify.notificationGotifyResourceName err))
    | Ok _ => Ret (State_RemoveResource resp)
    end).

End Lifecycle.

End NotificationGotifyResource.

(** ** NotificationSubsonicResource: the lifecycle of the resource *)
Module NotificationSubsonicResource.

(** [Metadata]: the type name of the adapter under a provider. *)
Definition Metadata (req_ProviderTypeName : string) : string :=
  (req_ProviderTypeName ++ "_" ++ NotificationSubsonic.notificationSubsonicResourceName)%string.

(** [Schema]: the attributes of the subsonic notification. *)
Definition Schema : schema.Schema := [
  ("on_grab", schema_attribute true false false false schema.BoolAttribute);
  ("on_upgrade", schema_attribute true false false false schema.BoolAttribute);
  ("on_rename", schema_attribute true false false false schema.BoolAttribute);
  ("on_track_retag", schema_attribute true false false false schema.BoolAttribute);
  ("on_release_import", schema_attribute true false false false schema.BoolAttribute);
  ("on_health_issue", schema_attribute true false false false schema.BoolAttribute);
  ("include_health_warnings", schema_attribute true false false false schema.BoolAttribute);
  ("name", schema_attribute true false false false schema.StringAttribute);
  ("tags", schema_attribute false true true false (schema.SetAttribute schema.Int64Type));
  ("id", schema_attribute false false true false (schema.Int64Attribute [] true));
  ("use_ssl", schema_attribute false true true false schema.BoolAttribute);
  ("notify", schema_attribute false true true false schema.BoolAttribute);
  ("update_library", schema_attribute false true true false schema.BoolAttribute);
  ("url_base", schema_attribute false true true false schema.StringAttribute);
  ("port", schema_attribute true false false false (schema.Int64Attribute [] false));
  ("host", schema_attribute true false false false schema.StringAttribute);
  ("username", schema_attribute false true true false schema.StringAttribute);
  ("password", schema_attribute false true true true schema.StringAttribute)
].

Section Lifecycle.
Context {GM : GenericMethods}.

Definition Create (req_Plan : Data NotificationSubsonic.t) (resp : Response NotificationSubsonic.t)
  : prog (Response NotificationSubsonic.t) :=
  (* Retrieve values from plan *)
  let notification := Get_target req_Plan in
  let resp := Diagnostics_Append resp (Get_diags req_Plan) in
  if HasError (Diagnostics resp) then Ret resp else
  let request := NotificationSubsonic.read notification in
  Call (CreateNotification request) (fun r =>
    match r with
    | Err err =>
        Ret (Diagnostics_AddError resp ClientError
               (helpers.ParseClientError helpers.Create NotificationSubsonic.notificationSubsonicResourceName err))
    | Ok response =>
        (* Generate resource state struct *)
        let notification := NotificationSubsonic.write notification response in
        Ret (State_Set resp notification)
    end).

Definition Read (req_State : Data NotificationSubsonic.t) (resp : Response NotificationSubsonic.t)
  : prog (Response NotificationSubsonic.t) :=
  (* Get current state *)
  let notification := Get_target req_State in
  let resp := Diagnostics_Append resp (Get_diags req_State) in
  if HasError (Diagnostics resp) then Ret resp else
  Call (GetNotificationById (int32 (ValueInt64 (NotificationSubsonic.ID notification)))) (fun r =>
    match r with
    | Err err =>
        Ret (Diagnostics_AddError resp ClientError
               (helpers.ParseClientError helpers.Read NotificationSubsonic.notificationSubsonicResourceName err))
    | Ok response =>
        (* Map response body to resource schema attribute *)
        let notification := NotificationSubsonic.write notification response in
        Ret (State_Set resp notification)
    end).

Definition Update (req_Plan : Data NotificationSubsonic.t) (resp : Response NotificationSubsonic.t)
  : prog (Response NotificationSubsonic.t) :=
  (* Get plan values *)
  let notification := Get_target req_Plan in
  let resp := Diagnostics_Append resp (Get_diags req_Plan) in
  if HasError (Diagnostics resp) then Ret resp else
  let request := NotificationSubsonic.read notification in
  Call (UpdateNotification (strconv.Itoa (lidarr_NotificationResource.GetId request)) request) (fun r =>
    match r with
    | Err err =>
        Ret (Diagnostics_AddError resp ClientError
               (helpers.ParseClientError helpers.Update NotificationSubsonic.notificationSubsonicResourceName err))
    | Ok response =>
        (* Generate resource state struct *)
        let notification := NotificationSubsonic.write notification response in
        Ret (State_Set resp notification)
    end).

Definition Delete (req_State : Data NotificationSubsonic.t) (resp : Response NotificationSubsonic.t)
  : prog (Response NotificationSubsonic.t) :=
  let notification := Get_target req_State in
  let resp := Diagnostics_Append resp (Get_diags req_State) in
  if HasError (Diagnostics resp) then Ret resp else
  Call (DeleteNotification (int32 (ValueInt64 (NotificationSubsonic.ID notification)))) (fun r =>
    match r with
    | Err err =>
        Ret (Diagnostics_AddError resp ClientError
               (helpers.ParseClientError helpers.Read NotificationSubsonic.notificationSubsonicResourceName err))
    | Ok _ => Ret (State_RemoveResource resp)
    end).

End Lifecycle.

End NotificationSubsonicResource.

(** ** NotificationEmailResource: the lifecycle of the resource *)
Module NotificationEmailResource.

(** [Metadata]: the type name of the adapter under a provider. *)
Definition Metadata (req_ProviderTypeName : string) : string :=
  (req_ProviderTypeName ++ "_" ++ NotificationEmail.notificationEmailResourceName)%string.

(** [Schema]: the attributes of the email notification. *)
Definition Schema : schema.Schema := [
  ("on_grab", schema_attribute true false false false schema.BoolAttribute);
  ("on_import_failure", schema_attribute true false false false schema.BoolAttribute);
  ("on_upgrade", schema_attribute true false false false schema.BoolAttribute);
  ("on_download_failure", schema_attribute true false false false schema.BoolAttribute);
  ("on_release_import", schema_attribute true false false false schema.BoolAttribute);
  ("on_health_issue", schema_attribute true false false false schema.BoolAttribute);
  ("on_application_update", schema_attribute true false false false schema.BoolAttribute);
  ("include_health_warnings", schema_attribute true false false false schema.BoolAttribute);
  ("name", schema_attribute true false false false schema.StringAttribute);
  ("tags", schema_attribute false true true false (schema.SetAttribute schema.Int64Type));
  ("id", schema_attribute false false true false (schema.Int64Attribute [] true));
  ("require_encryption", schema_attribute false true true false schema.BoolAttribute);
  ("port", schema_attribute false true true false (schema.Int64Attribute [] false));
  ("server", schema_attribute true false false false schema.StringAttribute);
  ("username", schema_attribute false true true false schema.StringAttribute);
  ("password", schema_attribute false true true true schema.StringAttribute);
  ("from", schema_attribute true false false false schema.StringAttribute);
  ("to", schema_attribute true false false false (schema.SetAttribute schema.StringType));
  ("cc", schema_attribute false true true false (schema.SetAttribute schema.StringType));
  ("bcc", schema_attribute false true true false (schema.SetAttribute schema.StringType))
].

(** [NotificationEmailResource] defines the notification implementation. *)
Record t := {
  client : option lidarr_Lidarr
}.

Definition Configure (r : t) (req_ProviderData : ProviderData) (resp : ConfigureResponse)
  : t * ConfigureResponse :=
  match req_ProviderData with
  | ProviderData_nil =>
      (* Prevent panic if the provider has not been configured. *)
      (r, resp)
  | ProviderData_other typeName =>
      (r, {| Configure_Diagnostics :=
               AddError (Configure_Diagnostics resp) UnexpectedResourceConfigureType
                 ("Expected *lidarr.Lidarr, got: " ++ typeName
                  ++ ". Please report this issue to the provider developers.")%string |})
  | ProviderData_Lidarr client => ({| client := client |}, resp)
  end.

Section Lifecycle.
Context {GM : GenericMethods} {EX : External}.

Definition Create (req_Plan : Data NotificationEmail.t) (resp : Response NotificationEmail.t)
  : prog (Response NotificationEmail.t) :=
  (* Retrieve values from plan *)
  let notification := Get_target req_Plan in
  let resp := Diagnostics_Append resp (Get_diags req_Plan) in
  if HasError (Diagnostics resp) then Ret resp else
  let request := NotificationEmail.read notification in
  Call (AddNotificationContext request) (fun r =>
    match r with
    | Err err =>
        Ret (Diagnostics_AddError resp ClientError
               ("Unable to create " ++ NotificationEmail.notificationEmailResourceName
                ++ ", got error: " ++ ErrorText err)%string)
    | Ok response =>
        (* Generate resource state struct *)
        let notification := NotificationEmail.write notification response in
        Ret (State_Set resp notification)
    end).

Definition Read (req_State : Data NotificationEmail.t) (resp : Response NotificationEmail.t)
  : prog (Response NotificationEmail.t) :=
  (* Get current state *)
  let notification := Get_target req_State in
  let resp := Diagnostics_Append resp (Get_diags req_State) in
  if HasError (Diagnostics resp) then Ret resp else
  Call (GetNotificationContext (ValueInt64 (NotificationEmail.ID notification))) (fun r =>
    match r with
    | Err err =>
        Ret (Diagnostics_AddError resp ClientError
               ("Unable to read " ++ NotificationEmail.notificationEmailResourceName
                ++ ", got error: " ++ ErrorText err)%string)
    | Ok response =>
        (* Map response body to resource schema attribute *)
        let notification := NotificationEmail.write notification response in
        Ret (State_Set resp notification)
    end).

Definition Update (req_Plan : Data NotificationEmail.t) (resp : Response NotificationEmail.t)
  : prog (Response NotificationEmail.t) :=
  (* Get plan values *)
  let notification := Get_target req_Plan in
  let resp := Diagnostics_Append resp (Get_diags req_Plan) in
  if HasError (Diagnostics resp) then Ret resp else
  let request := NotificationEmail.read notification in
  Call (UpdateNotificationContext request) (fun r =>
    match r with
    | Err err =>
        Ret (Diagnostics_AddError resp ClientError
               ("Unable to update " ++ NotificationEmail.notificationEmailResourceName
                ++ ", got error: " ++ ErrorText err)%string)
    | Ok response =>
        (* Generate resource state struct *)
        let notification := NotificationEmail.write notification response in
        Ret (State_Set resp notification)
    end).

Definition Delete (req_State : Data NotificationEmail.t) (resp : Response NotificationEmail.t)
  : prog (Response NotificationEmail.t) :=
  let notification := Get_target req_State in
  let resp := Diagnostics_Append resp (Get_diags req_State) in
  if HasError (Diagnostics resp) then Ret resp else
  Call (DeleteNotificationContext (ValueInt64 (NotificationEmail.ID notification))) (fun r =>
    match r with
    | Err err =>
        Ret (Diagnostics_AddError resp ClientError
               ("Unable to read " ++ NotificationEmail.notificationEmailResourceName
                ++ ", got error: " ++ ErrorText err)%string)
    | Ok _ => Ret (State_RemoveResource resp)
    end).

(** [ImportState] calls no client: it parses the identifier and writes the
    attribute [id] of the state. *)
Definition ImportState (req_ID : string) (resp : ImportStateResponse)
  : prog ImportStateResponse :=
  match strconv.Atoi req_ID with
  | inr _ =>
      Ret {| Import_Diagnostics :=
               AddError (Import_Diagnostics resp) UnexpectedImportIdentifier
                 ("Expected import identifier with format: ID. Got: " ++ Quote req_ID)%string;
             Import_State := Import_State resp |}
  | inl id =>
      Ret {| Import_Diagnostics := Append (Import_Diagnostics resp) [];
             Import_State := SetAttribute (Import_State resp) "id" (DInt id) |}
  end.

End Lifecycle.

End NotificationEmailResource.

(** ** CustomFormatResource: the lifecycle of the resource *)
Module CustomFormatResource.

(** [Metadata]: the type name of the adapter under a provider. *)
Definition Metadata (req_ProviderTypeName : string) : string :=
  (req_ProviderTypeName ++ "_" ++ CustomFormat.customFormatResourceName)%string.

Section Lifecycle.
Context {GM : GenericMethods}.

Definition Create (req_Plan : Data CustomFormat.t) (resp : Response CustomFormat.t)
  : prog (Response CustomFormat.t) :=
  (* Retrieve values from plan *)
  let client := Get_target req_Plan in
  let resp := Diagnostics_Append resp (Get_diags req_Plan) in
  if HasError (Diagnostics resp) then Ret resp else
  let request := CustomFormat.read client in
  Call (CreateCustomFormat request) (fun r =>
    match r with
    | Err err =>
        Ret (Diagnostics_AddError resp ClientError
               (helpers.ParseClientError helpers.Create
                  CustomFormat.customFormatResourceName err))
    | Ok response =>
        let state := CustomFormat.write CustomFormat.zero response in
        Ret (State_Set resp state)
    end).

Definition Read (req_State : Data CustomFormat.t) (resp : Response CustomFormat.t)
  : prog (Response CustomFormat.t) :=
  (* Get current state *)
  let client := Get_target req_State in
  let resp := Diagnostics_Append resp (Get_diags req_State) in
  if HasError (Diagnostics resp) then Ret resp else
  Call (GetCustomFormatById (int32 (ValueInt64 (CustomFormat.ID client)))) (fun r =>
    match r with
    | Err err =>
        Ret (Diagnostics_AddError resp ClientError
               (helpers.ParseClientError helpers.Read
                  CustomFormat.customFormatResourceName err))
    | Ok response =>
        let state := CustomFormat.write CustomFormat.zero response in
        Ret (State_Set resp state)
    end).

Definition Update (req_Plan : Data CustomFormat.t) (resp : Response CustomFormat.t)
  : prog (Response CustomFormat.t) :=
  (* Get plan values *)
  let client := Get_target req_Plan in
  let resp := Diagnostics_Append resp (Get_diags req_Plan) in
  if HasError (Diagnostics resp) then Ret resp else
  let request := CustomFormat.read client in
  Call (UpdateCustomFormat (strconv.Itoa (lidarr_CustomFormatResource.GetId request)) request) (fun r =>
    match r with
    | Err err =>
        Ret (Diagnostics_AddError resp ClientError
               (helpers.ParseClientError helpers.Update
                  CustomFormat.customFormatResourceName err))
    | Ok response =>
        let state := CustomFormat.write CustomFormat.zero response in
        Ret (State_Set resp state)
    end).

Definition Delete (req_State : Data CustomFormat.t) (resp : Response CustomFormat.t)
  : prog (Response CustomFormat.t) :=
  let client := Get_target req_State in
  let resp := Diagnostics_Append resp (Get_diags req_State) in
  if HasError (Diagnostics resp) then Ret resp else
  Call (DeleteCustomFormat (int32 (ValueInt64 (CustomFormat.ID client)))) (fun r =>
    match r with
    | Err err =>
        Ret (Diagnostics_AddError resp ClientError
               (helpers.ParseClientError helpers.Read
                  CustomFormat.customFormatResourceName err))
    | Ok _ => Ret (State_RemoveResource resp)
    end).

End Lifecycle.

End CustomFormatResource.

(** ** Notifications: the data model of the notifications list *)
Module Notifications.

Definition notificationsDataSourceName : string := "notifications".

Record t := {
  Notifications : types_Set Notification.t;
  ID : types_String
}.

End Notifications.

(** ** NotificationsDataSource, over lidarr-go *)
Module NotificationsDataSource.

(** [Metadata]: the type name of the adapter under a provider. *)
Definition Metadata (req_ProviderTypeName : string) : string :=
  (req_ProviderTypeName ++ "_" ++ Notifications.notificationsDataSourceName)%string.

(** The attributes of one element of the attribute [notifications] (the
    [NestedObject] of the schema). *)
Definition NestedAttributes : schema.Schema := [
  ("on_grab", schema_attribute false false true false schema.BoolAttribute);
  ("on_release_import", schema_attribute false false true false schema.BoolAttribute);
  ("on_album_delete", schema_attribute false false true false schema.BoolAttribute);
  ("on_artist_delete", schema_attribute false false true false schema.BoolAttribute);
  ("on_upgrade", schema_attribute false false true false schema.BoolAttribute);
  ("on_rename", schema_attribute false false true false schema.BoolAttribute);
  ("on_download_failure", schema_attribute false false true false schema.BoolAttribute);
  ("on_import_failure", schema_attribute false false true false schema.BoolAttribute);
  ("on_track_retag", schema_attribute false false true false schema.BoolAttribute);
  ("on_health_issue", schema_attribute false false true false schema.BoolAttribute);
  ("on_health_restored", schema_attribute false false true false schema.BoolAttribute);
  ("on_application_update", schema_attribute false false true false schema.BoolAttribute);
  ("include_health_warnings", schema_attribute false false true false schema.BoolAttribute);
  ("config_contract", schema_attribute false false true false schema.StringAttribute);
  ("implementation", schema_attribute false false true false schema.StringAttribute);
  ("name", schema_attribute false false true false schema.StringAttribute);
  ("tags", schema_attribute false false true false (schema.SetAttribute schema.Int64Type));
  ("id", schema_attribute false false true false (schema.Int64Attribute [] false));
  ("always_update", schema_attribute false false true false schema.BoolAttribute);
  ("clean_library", schema_attribute false false true false schema.BoolAttribute);
  ("direct_message", schema_attribute false false true false schema.BoolAttribute);
  ("notify", schema_attribute false false true false schema.BoolAttribute);
  ("require_encryption", schema_attribute false false true false schema.BoolAttribute);
  ("send_silently", schema_attribute false false true false schema.BoolAttribute);
  ("update_library", schema_attribute false false true false schema.BoolAttribute);
  ("use_eu_endpoint", schema_attribute false false true false schema.BoolAttribute);
  ("use_ssl", schema_attribute false false true false schema.BoolAttribute);
  ("port", schema_attribute false false true false (schema.Int64Attribute [] false));
  ("method", schema_attribute false false true false (schema.Int64Attribute [] false));
  ("priority", schema_attribute false false true false (schema.Int64Attribute [] false));
  ("notification_type", schema_attribute false false true false (schema.Int64Attribute [] false));
  ("retry", schema_attribute false false true false (schema.Int64Attribute [] false));
  ("expire", schema_attribute false false true false (schema.Int64Attribute [] false));
  ("access_token", schema_attribute false false true false schema.StringAttribute);
  ("access_token_secret", schema_attribute false false true false schema.StringAttribute);
  ("api_key", schema_attribute false false true false schema.StringAttribute);
  ("app_token", schema_attribute false false true false schema.StringAttribute);
  ("arguments", schema_attribute false false true false schema.StringAttribute);
  ("author", schema_attribute false false true false schema.StringAttribute);
  ("auth_token", schema_attribute false false true false schema.StringAttribute);
  ("auth_user", schema_attribute false false true false schema.StringAttribute);
  ("server_url", schema_attribute false false true false schema.StringAttribute);
  ("click_url", schema_attribute false false true false schema.StringAttribute);
  ("stateless_urls", schema_attribute false false true false schema.StringAttribute);
  ("configuration_key", schema_attribute false false true true schema.StringAttribute);
  ("auth_username", schema_attribute false false true false schema.StringAttribute);
  ("auth_password", schema_attribute false false true true schema.StringAttribute);
  ("avatar", schema_attribute false false true false schema.StringAttribute);
  ("bot_token", schema_attribute false false true false schema.StringAttribute);
  ("channel", schema_attribute false false true false schema.StringAttribute);
  ("chat_id", schema_attribute false false true false schema.StringAttribute);
  ("consumer_key", schema_attribute false false true false schema.StringAttribute);
  ("consumer_secret", schema_attribute false false true false schema.StringAttribute);
  ("device_names", schema_attribute false false true false schema.StringAttribute);
  ("display_time", schema_attribute false false true false (schema.Int64Attribute [] false));
  ("expires", schema_attribute false false true false schema.StringAttribute);
  ("from", schema_attribute false false true false schema.StringAttribute);
  ("host", schema_attribute false false true false schema.StringAttribute);
  ("icon", schema_attribute false false true false schema.StringAttribute);
  ("mention", schema_attribute false false true false schema.StringAttribute);
  ("password", schema_attribute false false true false schema.StringAttribute);
  ("path", schema_attribute false false true false schema.StringAttribute);
  ("refresh_token", schema_attribute false false true false schema.StringAttribute);
  ("sender_domain", schema_attribute false false true false schema.StringAttribute);
  ("sender_id", schema_attribute false false true false schema.StringAttribute);
  ("server", schema_attribute false false true false schema.StringAttribute);
  ("sign_in", schema_attribute false false true false schema.StringAttribute);
  ("sound", schema_attribute false false true false schema.StringAttribute);
  ("token", schema_attribute false false true false schema.StringAttribute);
  ("url", schema_attribute false false true false schema.StringAttribute);
  ("url_base", schema_attribute false false true false schema.StringAttribute);
  ("user_key", schema_attribute false false true false schema.StringAttribute);
  ("username", schema_attribute false false true false schema.StringAttribute);
  ("web_hook_url", schema_attribute false false true false schema.StringAttribute);
  ("channel_tags", schema_attribute false false true false (schema.SetAttribute schema.StringType));
  ("device_ids", schema_attribute false false true false (schema.SetAttribute schema.StringType));
  ("devices", schema_attribute false false true false (schema.SetAttribute schema.StringType));
  ("recipients", schema_attribute false false true false (schema.SetAttribute schema.StringType));
  ("field_tags", schema_attribute false false true false (schema.SetAttribute schema.StringType));
  ("grab_fields", schema_attribute false false true false (schema.SetAttribute schema.Int64Type));
  ("import_fields", schema_attribute false false true false (schema.SetAttribute schema.Int64Type));
  ("to", schema_attribute false false true false (schema.SetAttribute schema.StringType));
  ("cc", schema_attribute false false true false (schema.SetAttribute schema.StringType));
  ("bcc", schema_attribute false false true false (schema.SetAttribute schema.StringType));
  ("topics", schema_attribute false false true false (schema.SetAttribute schema.StringType))
].

Section Lifecycle.
Context {GM : GenericMethods}.

(** The loop writes element [i] of a slice of zero values from record [i]
    of the response; [tfsdk.ValueFrom] packs the slice [profiles] into the
    set attribute (the code drops its diagnostics). *)
Definition Read (req_Config : Data Notifications.t) (resp : Response Notifications.t)
  : prog (Response Notifications.t) :=
  let data := Get_target req_Config in
  let resp := Diagnostics_Append resp (Get_diags req_Config) in
  if HasError (Diagnostics resp) then Ret resp else
  (* Get notifications current value *)
  Call ListNotification (fun r =>
    match r with
    | Err err =>
        Ret (Diagnostics_AddError resp ClientError
               (helpers.ParseClientError helpers.Read
                  Notifications.notificationsDataSourceName err))
    | Ok response =>
        (* Map response body to resource schema attribute *)
        let profiles := map (fun p => Notification_write Notification.zero p) response in
        let data := {|
          Notifications.Notifications := SetValueFrom profiles;
          Notifications.ID := StringValue (strconv.Itoa (Z.of_nat (List.length response)))
        |} in
        Ret (State_Set resp data)
    end).

End Lifecycle.

End NotificationsDataSource.

(** ** NotificationsDataSource, over golift.io/starr *)
Module NotificationsDataSourceStarr.

(** [NotificationsDataSource] defines the notifications implementation. *)
Record t := {
  client : option lidarr_Lidarr
}.

Definition Configure (d : t) (req_ProviderData : ProviderData) (resp : ConfigureResponse)
  : t * ConfigureResponse :=
  match req_ProviderData with
  | ProviderData_nil =>
      (* Prevent panic if the provider has not been configured. *)
      (d, resp)
  | ProviderData_other typeName =>
      (d, {| Configure_Diagnostics :=
               AddError (Configure_Diagnostics resp) UnexpectedDataSourceConfigureType
                 ("Expected *lidarr.Lidarr, got: " ++ typeName
                  ++ ". Please report this issue to the provider developers.")%string |})
  | ProviderData_Lidarr client => ({| client := client |}, resp)
  end.

Section Lifecycle.
Context {GM : GenericMethods}.

Definition Read (req_Config : Data Notifications.t) (resp : Response Notifications.t)
  : prog (Response Notifications.t) :=
  let data := Get_target req_Config in
  let resp := Diagnostics_Append resp (Get_diags req_Config) in
  if HasError (Diagnostics resp) then Ret resp else
  (* Get notifications current value *)
  Call GetNotificationsContext (fun r =>
    match r with
    | Err err =>
        Ret (Diagnostics_AddError resp ClientError
               ("Unable to read " ++ Notifications.notificationsDataSourceName
                ++ ", got error: " ++ ErrorText err)%string)
    | Ok response =>
        (* Map response body to resource schema attribute *)
        let profiles := map (fun p => Notification_write_output Notification.zero p) response in
        let data := {|
          Notifications.Notifications := SetValueFrom profiles;
          Notifications.ID := StringValue (strconv.Itoa (Z.of_nat (List.length response)))
        |} in
        Ret (State_Set resp data)
    end).

End Lifecycle.

End NotificationsDataSourceStarr.

(** ** IndexerDataSource: the single-indexer data source *)
Module IndexerDataSource.

Definition indexerDataSourceName : string := "indexer".

(** [Metadata]: the type name of the adapter under a provider. *)
Definition Metadata (req_ProviderTypeName : string) : string :=
  (req_ProviderTypeName ++ "_" ++ indexerDataSourceName)%string.

(** [IndexerDataSource] defines the indexer implementation. *)
Record t := {
  client : option lidarr_Lidarr
}.

Definition Configure (d : t) (req_ProviderData : ProviderData) (resp : ConfigureResponse)
  : t * ConfigureResponse :=
  match req_ProviderData with
  | ProviderData_nil =>
      (* Prevent panic if the provider has not been configured. *)
      (d, resp)
  | ProviderData_other typeName =>
      (d, {| Configure_Diagnostics :=
               AddError (Configure_Diagnostics resp) UnexpectedDataSourceConfigureType
                 ("Expected *lidarr.Lidarr, got: " ++ typeName
                  ++ ". Please report this issue to the provider developers.")%string |})
  | ProviderData_Lidarr client => ({| client := client |}, resp)
  end.

Section Lifecycle.
Context {GM : GenericMethods} {EX : External}.

(** The loop returns at the first indexer whose [Name] is [name]; Go's [==]
    on strings compares bytes. *)
Fixpoint findIndexer (name : string) (indexers : list lidarr_IndexerOutput.t)
  : result lidarr_IndexerOutput.t :=
  match indexers with
  | [] => Err (ErrDataNotFoundError indexerDataSourceName "name" name)
  | i :: rest =>
      if String.eqb (lidarr_IndexerOutput.Name i) name then Ok i
      else findIndexer name rest
  end.

(** [Read] decodes its data from the response's own state. *)
Definition Read (resp_State : Data Indexer) (resp : Response Indexer)
  : prog (Response Indexer) :=
  let data := Get_target resp_State in
  let resp := Diagnostics_Append resp (Get_diags resp_State) in
  if HasError (Diagnostics resp) then Ret resp else
  (* Get indexer current value *)
  Call GetIndexersContext (fun r =>
    match r with
    | Err err =>
        Ret (Diagnostics_AddError resp ClientError
               ("Unable to read " ++ indexerDataSourceName
                ++ ", got error: " ++ ErrorText err)%string)
    | Ok response =>
        match findIndexer (ValueString (Indexer_Name data)) response with
        | Err err =>
            Ret (Diagnostics_AddError resp DataSourceError
                   ("Unable to find " ++ indexerDataSourceName
                    ++ ", got error: " ++ ErrorText err)%string)
        | Ok indexer =>
            let data := Indexer_write data indexer in
            Ret (State_Set resp data)
        end
    end).

End Lifecycle.

End IndexerDataSource.

(** ** lidarrProvider: the configuration of the provider (provider.go) *)
Module lidarrProvider.

(** [types.String] as provider.go reads it: a struct with the exported
    fields [Unknown], [Null] and [Value]. *)
Record types_String_fields := {
  Unknown : bool;
  Null : bool;
  Value : string
}.

(** [providerData] can be used to store data from the Terraform
    configuration. *)
Record providerData := {
  APIKey : types_String_fields;
  URL : types_String_fields
}.

(** [lidarrProvider]; the client is a struct value, [None] is its zero
    value. *)
Record t := {
  client : option lidarr_Lidarr;
  configured : bool;
  version : string
}.

(** The diagnostics of provider.go carry their summary written out. *)
Record Diagnostic := {
  severity : Severity;
  summary : string;
  detail : string
}.

Definition Diagnostic_Equal (a b : Diagnostic) : bool :=
  Severity_eqb (severity a) (severity b)
  && String.eqb (summary a) (summary b)
  && String.eqb (detail a) (detail b).

Definition Contains (ds : list Diagnostic) (d : Diagnostic) : bool :=
  existsb (Diagnostic_Equal d) ds.

Fixpoint Append (ds new : list Diagnostic) : list Diagnostic :=
  match new with
  | [] => ds
  | d :: rest => Append (if Contains ds d then ds else ds ++ [d]) rest
  end.

Definition AddError (ds : list Diagnostic) (s d : string) : list Diagnostic :=
  Append ds [{| severity := SeverityError; summary := s; detail := d |}].

Definition AddWarning (ds : list Diagnostic) (s d : string) : list Diagnostic :=
  Append ds [{| severity := SeverityWarning; summary := s; detail := d |}].

Definition HasError (ds : list Diagnostic) : bool :=
  existsb (fun d => Severity_eqb (severity d) SeverityError) ds.

(** [Configure]: [env] is [os.Getenv], [req_Config] what
    [req.Config.Get(ctx, &data)] gives (the data and the diagnostics of the
    decoding), [resp] the diagnostics of the response.  The result is the
    provider and the diagnostics after the call. *)
Definition Configure (p : t) (env : string -> string)
  (req_Config : providerData * list Diagnostic) (resp : list Diagnostic)
  : t * list Diagnostic :=
  let data := fst req_Config in
  let resp := Append resp (snd req_Config) in
  if HasError resp then (p, resp) else
  (* User must provide URL to the provider *)
  if Unknown (URL data) then
    (* Cannot connect to client with an unknown value *)
    (p, AddWarning resp "Unable to create client" "Cannot use unknown value as url")
  else
  let url := if Null (URL data) then env "LIDARR_URL" else Value (URL data) in
  if String.eqb url "" then
    (* Error vs warning - empty value must stop execution *)
    (p, AddError resp "Unable to find URL" "URL cannot be an empty string")
  else
  (* User must provide API key to the provider *)
  if Unknown (APIKey data) then
    (p, AddWarning resp "Unable to create client" "Cannot use unknown value as api_key")
  else
  let key := if Null (APIKey data) then env "LIDARR_API_KEY" else Value (APIKey data) in
  if String.eqb key "" then
    (p, AddError resp "Unable to find API key" "API key cannot be an empty string")
  else
  let c := lidarr_New url key in
  ({| client := Some c; configured := true; version := version p |}, resp).

End lidarrProvider.

(** * Observations, sample servers and sample inputs *)

(** The identity pair an outgoing create or update request carries, read
    the way the server reads it. *)
Definition outgoing_identity (c : ApiCall) : option (string * string) :=
  match c with
  | CreateNotification body
  | UpdateNotification _ body
  | UpdateNotificationInt32 _ body =>
      Some (lidarr_NotificationResource.GetImplementation body,
            lidarr_NotificationResource.GetConfigContract body)
  | AddNotificationContext input
  | UpdateNotificationContext input =>
      Some (lidarr_NotificationInput.Implementation input,
            lidarr_NotificationInput.ConfigContract input)
  | _ => None
  end.

(** The generic encoder hands the identity pair of the generic record to
    the wire request (the spec's "identity attributes" of a wire record), in
    both of its variants. *)
Definition read_keeps_identity (GM : GenericMethods) : Prop :=
  forall (g : Notification.t) (ds : diag_Diagnostics),
    (lidarr_NotificationResource.GetImplementation (Notification_read g)
       = ValueString (Notification.Implementation g)
     /\ lidarr_NotificationResource.GetConfigContract (Notification_read g)
       = ValueString (Notification.ConfigContract g))
    /\ (lidarr_NotificationResource.GetImplementation (fst (Notification_read_diags g ds))
       = ValueString (Notification.Implementation g)
     /\ lidarr_NotificationResource.GetConfigContract (fst (Notification_read_diags g ds))
       = ValueString (Notification.ConfigContract g)).

(** A server that answers every call with the same error. *)
Definition failing (e : GoError) : server unit :=
  fun c s =>
    (match c return Returns c with
     | CreateNotification _ | GetNotificationById _
     | UpdateNotification _ _ | UpdateNotificationInt32 _ _ => Err e
     | DeleteNotification _ => Err e
     | ListNotification => Err e
     | CreateCustomFormat _ | GetCustomFormatById _ | UpdateCustomFormat _ _ => Err e
     | DeleteCustomFormat _ => Err e
     | AddNotificationContext _ | GetNotificationContext _
     | UpdateNotificationContext _ => Err e
     | DeleteNotificationContext _ => Err e
     | GetNotificationsContext => Err e
     | GetIndexersContext => Err e
     end, s).

Definition not_found : GoError := {| StatusCode := 404; ErrorText := "404 Not Found" |}.
Definition unavailable : GoError :=
  {| StatusCode := 503; ErrorText := "503 Service Unavailable" |}.
Definition refused : GoError := {| StatusCode := 0; ErrorText := "connection refused" |}.

(** A server that keeps the identifiers of the records it holds: a delete
    or a fetch of an identifier it holds succeeds (and a delete removes it),
    one of an identifier it does not hold is answered with 404; every other
    call is answered with 503. *)
Definition holds (id : Z) (ids : list Z) : bool := existsb (Z.eqb id) ids.
Definition drop (id : Z) (ids : list Z) : list Z := filter (fun x => negb (x =? id)) ids.

Definition stored_output (id : Z) : lidarr_NotificationOutput.t := {|
  lidarr_NotificationOutput.OnGrab := false;
  lidarr_NotificationOutput.OnImportFailure := false;
  lidarr_NotificationOutput.OnUpgrade := false;
  lidarr_NotificationOutput.OnDownloadFailure := false;
  lidarr_NotificationOutput.OnReleaseImport := false;
  lidarr_NotificationOutput.OnHealthIssue := false;
  lidarr_NotificationOutput.OnApplicationUpdate := false;
  lidarr_NotificationOutput.IncludeHealthWarnings := false;
  lidarr_NotificationOutput.ID := id;
  lidarr_NotificationOutput.Name := "mail";
  lidarr_NotificationOutput.Tags := [];
  lidarr_NotificationOutput.Fields := []
|}.

Definition store : server (list Z) :=
  fun c ids =>
    match c return Returns c * list Z with
    | DeleteNotification id | DeleteCustomFormat id | DeleteNotificationContext id =>
        if holds id ids then (Ok tt, drop id ids) else (Err not_found, ids)
    | GetNotificationContext id =>
        if holds id ids then (Ok (stored_output id), ids) else (Err not_found, ids)
    | GetNotificationById _ => (Err not_found, ids)
    | GetCustomFormatById _ => (Err not_found, ids)
    | CreateNotification _ | UpdateNotification _ _ | UpdateNotificationInt32 _ _ =>
        (Err unavailable, ids)
    | ListNotification => (Err unavailable, ids)
    | CreateCustomFormat _ | UpdateCustomFormat _ _ => (Err unavailable, ids)
    | AddNotificationContext _ | UpdateNotificationContext _ => (Err unavailable, ids)
    | GetNotificationsContext => (Err unavailable, ids)
    | GetIndexersContext => (Err unavailable, ids)
    end.

(** A server that lists the given notifications and fails every other
    call. *)
Definition listing (l : list lidarr_NotificationResource.t) : server unit :=
  fun c s =>
    match c return Returns c * unit with
    | ListNotification => (Ok l, s)
    | c' => failing unavailable c' s
    end.

Definition empty_import : ImportStateResponse :=
  {| Import_Diagnostics := []; Import_State := [] |}.

Definition indexer_named (id : Z) (name : string) : lidarr_IndexerOutput.t :=
  {| lidarr_IndexerOutput.ID := id; lidarr_IndexerOutput.Name := name |}.

(** An email notification as the state holds it after a create. *)
Definition sample_email (id : Z) : NotificationEmail.t := {|
  NotificationEmail.Tags := Known [];
  NotificationEmail.To := Known ["ops@example.org"];
  NotificationEmail.Cc := Known [];
  NotificationEmail.Bcc := Known [];
  NotificationEmail.From := Known "lidarr@example.org";
  NotificationEmail.Server := Known "smtp.example.org";
  NotificationEmail.Name := Known "mail";
  NotificationEmail.Username := Null;
  NotificationEmail.Password := Null;
  NotificationEmail.ID := Known id;
  NotificationEmail.Port := Known 25;
  NotificationEmail.RequireEncryption := Known false;
  NotificationEmail.OnGrab := Known false;
  NotificationEmail.OnReleaseImport := Known true;
  NotificationEmail.IncludeHealthWarnings := Known false;
  NotificationEmail.OnApplicationUpdate := Known false;
  NotificationEmail.OnHealthIssue := Known false;
  NotificationEmail.OnDownloadFailure := Known false;
  NotificationEmail.OnUpgrade := Known false;
  NotificationEmail.OnImportFailure := Known false
|}.

Definition decoded {T : Type} (v : T) : Data T := {| Get_target := v; Get_diags := [] |}.
Definition fresh {T : Type} (st : option T) : Response T :=
  {| Diagnostics := []; State := st |}.

(** What a delete leaves, by the answer of the remote delete call: the
    state is removed and no error is reported on success; an error is
    reported and the state stays on any failure. *)
Definition delete_outcome {T : Type} (answer : result unit) (resp out : Response T) : Prop :=
  match answer with
  | Ok _ => HasError (Diagnostics out) = false /\ State out = None
  | Err _ => HasError (Diagnostics out) = true /\ State out = State resp
  end.

(** What a create or an update sends: nothing when the plan did not decode,
    else one request, with the given identity pair. *)
Definition one_request_with (implementation configContract : string)
  (decodeFailed : bool) (calls : list ApiCall) : Prop :=
  if decodeFailed then calls = []
  else exists c, calls = [c]
                 /\ outgoing_identity c = Some (implementation, configContract).

(** What a failed fetch leaves: one more error diagnostic with the given
    text, and the state as it was. *)
Definition read_failure_outcome {T : Type} (text : string) (resp out : Response T) : Prop :=
  Diagnostics out = AddError (Diagnostics resp) ClientError text
  /\ HasError (Diagnostics out) = true
  /\ State out = State resp.

(** The one error diagnostic a failed remote call adds. *)
Definition client_error (text : string) : diag_Diagnostic :=
  {| severity := SeverityError; summary := ClientError; detail := text |}.

(** Decimal integer text: an optional sign, then one decimal digit or
    more. *)
Fixpoint all_digits (s : string) : bool :=
  match s with
  | EmptyString => true
  | String ch rest => strconv.is_digit ch && all_digits rest
  end.

Definition nonempty (s : string) : bool :=
  match s with EmptyString => false | String _ _ => true end.

Definition decimal_text (s : string) : bool :=
  match s with
  | EmptyString => false
  | String c0 rest =>
      if Ascii.eqb c0 "-" || Ascii.eqb c0 "+"
      then nonempty rest && all_digits rest
      else all_digits s
  end.

(** A generic encoder and decoder to run the adapters with: the encoder
    copies the identity attributes of the generic record, the decoder reads
    them back. *)
Definition sample_read (g : Notification.t) : lidarr_NotificationResource.t := {|
  lidarr_NotificationResource.Id := Some (int32 (ValueInt64 (Notification.ID g)));
  lidarr_NotificationResource.Name := Some (ValueString (Notification.Name g));
  lidarr_NotificationResource.Fields := [];
  lidarr_NotificationResource.Implementation :=
    Some (ValueString (Notification.Implementation g));
  lidarr_NotificationResource.ConfigContract :=
    Some (ValueString (Notification.ConfigContract g));
  lidarr_NotificationResource.Tags := Elements (Notification.Tags g);
  lidarr_NotificationResource.OnGrab := Some (ValueBool (Notification.OnGrab g));
  lidarr_NotificationResource.OnReleaseImport :=
    Some (ValueBool (Notification.OnReleaseImport g));
  lidarr_NotificationResource.OnUpgrade := Some (ValueBool (Notification.OnUpgrade g));
  lidarr_NotificationResource.OnRename := Some (ValueBool (Notification.OnRename g));
  lidarr_NotificationResource.OnHealthIssue := Some (ValueBool (Notification.OnHealthIssue g));
  lidarr_NotificationResource.OnTrackRetag := Some (ValueBool (Notification.OnTrackRetag g));
  lidarr_NotificationResource.IncludeHealthWarnings :=
    Some (ValueBool (Notification.IncludeHealthWarnings g))
|}.

Definition sample_condition_read (c : CustomFormatCondition.t)
  : lidarr_CustomFormatSpecificationSchema.t := {|
  lidarr_CustomFormatSpecificationSchema.Name :=
    Some (ValueString (CustomFormatCondition.Name c));
  lidarr_CustomFormatSpecificationSchema.Implementation :=
    Some (ValueString (CustomFormatCondition.Implementation c));
  lidarr_CustomFormatSpecificationSchema.Negate :=
    Some (ValueBool (CustomFormatCondition.Negate c));
  lidarr_CustomFormatSpecificationSchema.Required :=
    Some (ValueBool (CustomFormatCondition.Required c));
  lidarr_CustomFormatSpecificationSchema.Fields := []
|}.

Definition sample_methods : GenericMethods := {|
  Notification_read := sample_read;
  Notification_write := fun n _ => n;
  Notification_read_diags := fun n ds => (sample_read n, ds);
  Notification_write_diags := fun n _ ds => (n, ds);
  Notification_write_output := fun n _ => n;
  readFields := fun _ => [];
  writeFields := fun n _ => n;
  CustomFormatCondition_read := sample_condition_read;
  CustomFormatCondition_write := fun c _ => c;
  Indexer := types_String;
  Indexer_Name := fun i => i;
  Indexer_write := fun i _ => i
|}.

Definition sample_external : External := {|
  Quote := fun s => s;
  ErrDataNotFoundError := fun kind field search =>
    {| StatusCode := 0;
       ErrorText := ("no " ++ kind ++ " with " ++ field ++ " " ++ search)%string |}
|}.

(** A gotify notification as a configuration declares it, with a given
    priority. *)
Definition sample_gotify (priority : types_Int64) : NotificationGotify.t := {|
  NotificationGotify.Tags := Null;
  NotificationGotify.Server := Known "https://gotify.example.org";
  NotificationGotify.Name := Known "gotify";
  NotificationGotify.AppToken := Known "token";
  NotificationGotify.Priority := priority;
  NotificationGotify.ID := Unknown;
  NotificationGotify.OnGrab := Null;
  NotificationGotify.OnReleaseImport := Null;
  NotificationGotify.OnAlbumDelete := Null;
  NotificationGotify.OnArtistDelete := Null;
  NotificationGotify.IncludeHealthWarnings := Null;
  NotificationGotify.OnApplicationUpdate := Null;
  NotificationGotify.OnHealthIssue := Null;
  NotificationGotify.OnHealthRestored := Null;
  NotificationGotify.OnDownloadFailure := Null;
  NotificationGotify.OnUpgrade := Null;
  NotificationGotify.OnImportFailure := Null
|}.

(** Proof steps shared by the lifecycle properties. *)
Ltac digit_step :=
  cbn [NilEmpty.string_of_uint Pos.of_uint_acc Pos.of_uint strconv.digits];
  match goal with
  | |- context [strconv.is_digit ?c] =>
      change (strconv.is_digit c) with true; cbv iota
  end;
  match goal with
  | |- context [Z.of_nat ?n] =>
      let v := eval vm_compute in (Z.of_nat n) in change (Z.of_nat n) with v
  end.

(** ** Further observations *)

(** What a remote call does to the server's records. *)
Inductive CallKind := IsCreate | IsFetch | IsUpdate | IsDelete.

Definition kind_of (c : ApiCall) : CallKind :=
  match c with
  | CreateNotification _ | CreateCustomFormat _ | AddNotificationContext _ => IsCreate
  | GetNotificationById _ | ListNotification | GetCustomFormatById _
  | GetNotificationContext _ | GetNotificationsContext | GetIndexersContext => IsFetch
  | UpdateNotification _ _ | UpdateNotificationInt32 _ _ | UpdateCustomFormat _ _
  | UpdateNotificationContext _ => IsUpdate
  | DeleteNotification _ | DeleteCustomFormat _ | DeleteNotificationContext _ => IsDelete
  end.

(** At most one call, and of the given kind. *)
Definition only_calls (k : CallKind) (calls : list ApiCall) : Prop :=
  (List.length calls <= 1)%nat /\ Forall (fun c => kind_of c = k) calls.

(** What a failed remote call leaves: one more client error with the given
    text on the diagnostics [base], and the state of [resp]. *)
Definition call_failure_outcome {T : Type} (text : string) (base : diag_Diagnostics)
  (resp out : Response T) : Prop :=
  Diagnostics out = AddError base ClientError text
  /\ HasError (Diagnostics out) = true
  /\ State out = State resp.

(** The value of decimal text, digit by digit from the left with the
    weight of each position. *)
Fixpoint digit_sum (s : string) : Z :=
  match s with
  | EmptyString => 0
  | String ch rest =>
      Z.of_nat (nat_of_ascii ch - 48) * 10 ^ Z.of_nat (String.length rest) + digit_sum rest
  end.

Definition decimal_value (s : string) : Z :=
  match s with
  | EmptyString => 0
  | String c0 rest =>
      if Ascii.eqb c0 "-" then - digit_sum rest
      else if Ascii.eqb c0 "+" then digit_sum rest
      else digit_sum s
  end.

(** A field of the data model and an attribute of the schema are of the
    same type. *)
Definition kinds_agree (ft : FieldType) (k : schema.AttributeKind) : bool :=
  match ft, k with
  | Field_Bool, schema.BoolAttribute
  | Field_Int64, schema.Int64Attribute _ _
  | Field_String, schema.StringAttribute
  | Field_Set, schema.SetAttribute _ => true
  | _, _ => false
  end.

Fixpoint nodupb (l : list string) : bool :=
  match l with
  | [] => true
  | x :: rest => negb (existsb (String.eqb x) rest) && nodupb rest
  end.

Definition lookup {A : Type} (name : string) (l : list (string * A)) : option A :=
  option_map snd (find (fun entry => String.eqb (fst entry) name) l).

(** The schema and the data model declare the same attributes, once each,
    with the same types. *)
Definition schema_matches_model (s : schema.Schema) (tags : list (string * FieldType))
  : bool :=
  nodupb (map fst s) && nodupb (map fst tags)
  && forallb (fun entry =>
                match lookup (fst entry) tags with
                | Some ft => kinds_agree ft (schema.Kind (snd entry))
                | None => false
                end) s
  && forallb (fun entry =>
                match lookup (fst entry) s with
                | Some _ => true
                | None => false
                end) tags.

(** Two attributes are of the same type; validators and plan modifiers
    apart. *)
Definition same_kind (a b : schema.AttributeKind) : bool :=
  match a, b with
  | schema.BoolAttribute, schema.BoolAttribute
  | schema.StringAttribute, schema.StringAttribute
  | schema.Int64Attribute _ _, schema.Int64Attribute _ _
  | schema.SetAttribute schema.Int64Type, schema.SetAttribute schema.Int64Type
  | schema.SetAttribute schema.StringType, schema.SetAttribute schema.StringType => true
  | _, _ => false
  end.

Definition computed_only (a : schema.Attribute) : bool :=
  negb (schema.Required a) && negb (schema.Optional a) && schema.Computed a.

(** Every attribute of [s] is an attribute of [wide], of the same type. *)
Definition covered_by (wide s : schema.Schema) : bool :=
  forallb (fun entry =>
             match lookup (fst entry) wide with
             | Some a => same_kind (schema.Kind (snd entry)) (schema.Kind a)
             | None => false
             end) s.

(** A server that answers a create, a fetch and an update of the starr
    client with the same record, and fails every other call. *)
Definition serving_output (r : lidarr_NotificationOutput.t) : server unit :=
  fun c s =>
    match c return Returns c * unit with
    | AddNotificationContext _ | GetNotificationContext _ | UpdateNotificationContext _ =>
        (Ok r, s)
    | c' => failing unavailable c' s
    end.

(** A server that lists the given indexers and fails every other call. *)
Definition listing_indexers (l : list lidarr_IndexerOutput.t) : server unit :=
  fun c s =>
    match c return Returns c * unit with
    | GetIndexersContext => (Ok l, s)
    | c' => failing unavailable c' s
    end.

Definition failed_decoding {T : Type} (v : T) : Data T :=
  {| Get_target := v;
     Get_diags := [{| severity := SeverityError; summary := ClientError;
                      detail := "value conversion" |}] |}.


Definition sample_custom_format (id : Z) : CustomFormat.t := {|
  CustomFormat.Specifications := Known [CustomFormat.zero_condition];
  CustomFormat.Name := Known "lossless";
  CustomFormat.ID := Known id;
  CustomFormat.IncludeCustomFormatWhenRenaming := Known false
|}.

(** The environment of a process: a variable that is not set reads as the
    empty string. *)
Definition no_environment : string -> string := fun _ => "".

Definition sample_environment : string -> string :=
  fun name =>
    if String.eqb name "LIDARR_URL" then "http://localhost:8686"
    else if String.eqb name "LIDARR_API_KEY" then "key-from-environment"
    else "".

Definition known_string (s : string) : lidarrProvider.types_String_fields :=
  {| lidarrProvider.Unknown := false; lidarrProvider.Null := false;
     lidarrProvider.Value := s |}.
Definition null_string : lidarrProvider.types_String_fields :=
  {| lidarrProvider.Unknown := false; lidarrProvider.Null := true;
     lidarrProvider.Value := "" |}.
Definition unknown_string : lidarrProvider.types_String_fields :=
  {| lidarrProvider.Unknown := true; lidarrProvider.Null := false;
     lidarrProvider.Value := "" |}.

Definition new_provider : lidarrProvider.t :=
  {| lidarrProvider.client := None; lidarrProvider.configured := false;
     lidarrProvider.version := "test" |}.

(** The schema and the data model declare the same attributes, as
    propositions: no name twice, the same names, the same types. *)
Definition schema_agrees (s : schema.Schema) (tags : list (string * FieldType)) : Prop :=
  NoDup (map fst s) /\ NoDup (map fst tags)
  /\ (forall name, In name (map fst s) <-> In name (map fst tags))
  /\ (forall name a ft, In (name, a) s -> In (name, ft) tags ->
                        kinds_agree ft (schema.Kind a) = true).

(** * Properties *)

(** ** Diagnostics *)

Lemma Severity_eqb_eq (a b : Severity) : Severity_eqb a b = true <-> a = b.
Proof. destruct a, b; simpl; split; intro H; congruence. Qed.

Lemma Diagnostic_Equal_severity (a b : diag_Diagnostic) :
  Diagnostic_Equal a b = true -> severity a = severity b.
Proof.
  unfold Diagnostic_Equal. intro H.
  apply andb_prop in H. destruct H as [H _].
  apply andb_prop in H. destruct H as [H _].
  now apply Severity_eqb_eq.
Qed.

Lemma Contains_error (ds : diag_Diagnostics) (d : diag_Diagnostic) :
  Contains ds d = true -> severity d = SeverityError -> HasError ds = true.
Proof.
  unfold Contains, HasError. intros Hc Hd.
  apply existsb_exists in Hc. destruct Hc as [x [Hin Heq]].
  apply existsb_exists. exists x. split; [assumption|].
  apply Diagnostic_Equal_severity in Heq. rewrite <- Heq, Hd. reflexivity.
Qed.

Lemma HasError_app (a b : diag_Diagnostics) :
  HasError (a ++ b) = HasError a || HasError b.
Proof. unfold HasError. apply existsb_app. Qed.

Lemma HasError_Append (ds new : diag_Diagnostics) :
  HasError (Append ds new) = HasError ds || HasError new.
Proof.
  revert ds. induction new as [|d rest IH]; intro ds; simpl.
  - now rewrite orb_false_r.
  - rewrite IH. destruct (Contains ds d) eqn:Hc.
    + destruct (Severity_eqb (severity d) SeverityError) eqn:Hs; simpl; [|reflexivity].
      apply Severity_eqb_eq in Hs.
      rewrite (Contains_error ds d Hc Hs). reflexivity.
    + rewrite HasError_app. simpl. rewrite orb_false_r.
      now rewrite orb_assoc.
Qed.

Lemma HasError_AddError (ds : diag_Diagnostics) (s : Summary) (d : string) :
  HasError (AddError ds s d) = true.
Proof. unfold AddError. rewrite HasError_Append. simpl. apply orb_true_r. Qed.

Lemma Append_nil (ds : diag_Diagnostics) : Append ds [] = ds.
Proof. reflexivity. Qed.

Lemma State_Set_spec {T : Type} (resp : Response T) (v : T) :
  State_Set resp v = {| Diagnostics := Diagnostics resp; State := Some v |}.
Proof. reflexivity. Qed.

(** ** Projection between a variant and the generic record *)

(** C1.  For each of the four notification variants (custom script, gotify,
    email, subsonic) and every typed record [x] of the variant, projecting
    [x] into the generic record with [toNotification] and back with
    [fromNotification] gives [x] again, attribute for attribute, whatever
    the receiver [n] held before. *)
Theorem projection_identity :
  (forall n x : NotificationCustomScript.t,
      NotificationCustomScript.fromNotification n
        (NotificationCustomScript.toNotification x) = x)
  /\ (forall n x : NotificationGotify.t,
      NotificationGotify.fromNotification n (NotificationGotify.toNotification x) = x)
  /\ (forall n x : NotificationEmail.t,
      NotificationEmail.fromNotification n (NotificationEmail.toNotification x) = x)
  /\ (forall n x : NotificationSubsonic.t,
      NotificationSubsonic.fromNotification n (NotificationSubsonic.toNotification x) = x).
Proof.
  repeat split; intros n x; destruct x; reflexivity.
Qed.

(** ** Running a program *)

Lemma run_Call {S A : Type} (srv : server S) (c : ApiCall) (k : Returns c -> prog A) (s : S) :
  run srv (Call c k) s =
  (value_of (run srv (k (fst (srv c s))) (snd (srv c s))),
   state_of (run srv (k (fst (srv c s))) (snd (srv c s))),
   c :: calls_of (run srv (k (fst (srv c s))) (snd (srv c s)))).
Proof.
  cbn [run]. destruct (srv c s) as [r s1]. cbn [fst snd].
  destruct (run srv (k r) s1) as [[a s2] calls]. reflexivity.
Qed.

Lemma value_of_Call {S A : Type} (srv : server S) (c : ApiCall) (k : Returns c -> prog A)
  (s : S) :
  value_of (run srv (Call c k) s) = value_of (run srv (k (fst (srv c s))) (snd (srv c s))).
Proof. rewrite run_Call. reflexivity. Qed.

Lemma calls_of_Call {S A : Type} (srv : server S) (c : ApiCall) (k : Returns c -> prog A)
  (s : S) :
  calls_of (run srv (Call c k) s)
  = c :: calls_of (run srv (k (fst (srv c s))) (snd (srv c s))).
Proof. rewrite run_Call. reflexivity. Qed.

(** A proof step shared by the lifecycle properties: open the one call of
    a method and case on the server's answer. *)
Ltac after_call :=
  first [rewrite value_of_Call | rewrite calls_of_Call];
  match goal with
  | |- context [fst (?srv ?c ?s)] => destruct (fst (srv c s))
  end; cbn [run value_of calls_of fst snd].

(** ** Decimal text *)

Lemma digits_of_uint_acc (d : Decimal.uint) (acc : positive) :
  strconv.digits (Z.pos acc) (NilEmpty.string_of_uint d)
  = Some (Z.pos (Pos.of_uint_acc d acc)).
Proof.
  revert acc. induction d; intro acc; [reflexivity|..];
    digit_step; rewrite <- IHd; f_equal; lia.
Qed.

Lemma digits_of_uint (d : Decimal.uint) :
  strconv.digits 0 (NilEmpty.string_of_uint d) = Some (Z.of_uint d).
Proof.
  unfold Z.of_uint.
  induction d; [reflexivity|..]; digit_step;
    [exact IHd | apply (digits_of_uint_acc d) ..].
Qed.

Lemma to_uint_not_Nil (p : positive) : Pos.to_uint p <> Decimal.Nil.
Proof.
  intro H. pose proof (DecimalPos.Unsigned.of_to p) as E.
  rewrite H in E. discriminate.
Qed.

Lemma Itoa_pos (p : positive) :
  strconv.Itoa (Z.pos p) = NilEmpty.string_of_uint (Pos.to_uint p).
Proof.
  unfold strconv.Itoa. cbn [Z.to_int NilZero.string_of_int].
  unfold NilZero.string_of_uint.
  destruct (Pos.to_uint p) eqn:E; try reflexivity.
  now apply to_uint_not_Nil in E.
Qed.

(** The digits of [Itoa n] evaluate to [n]: [Itoa] writes the decimal
    representation. *)
Lemma Itoa_digits (n : Z) : 0 <= n -> strconv.digits 0 (strconv.Itoa n) = Some n.
Proof.
  intro Hn. destruct n as [|p|p]; [reflexivity| |lia].
  rewrite Itoa_pos, digits_of_uint. f_equal.
  unfold Z.of_uint. now rewrite DecimalPos.Unsigned.of_to.
Qed.

Lemma string_of_uint_head (d : Decimal.uint) :
  d <> Decimal.Nil ->
  exists c rest, NilEmpty.string_of_uint d = String c rest /\ strconv.is_digit c = true.
Proof.
  destruct d; intro H; [congruence|..]; cbn [NilEmpty.string_of_uint];
    eexists; eexists; split; reflexivity.
Qed.

Lemma digit_is_no_sign (c : ascii) :
  strconv.is_digit c = true -> Ascii.eqb c "-" = false /\ Ascii.eqb c "+" = false.
Proof.
  destruct c as [[] [] [] [] [] [] [] []]; vm_compute; intuition congruence.
Qed.

Lemma digits_None (s : string) (n : Z) :
  all_digits s = false -> strconv.digits n s = None.
Proof.
  revert n. induction s as [|ch rest IH]; intro n; cbn [all_digits strconv.digits].
  - discriminate.
  - destruct (strconv.is_digit ch); cbn [andb]; [apply IH | reflexivity].
Qed.

Lemma digits_Some (s : string) (n : Z) :
  all_digits s = true -> exists v, strconv.digits n s = Some v.
Proof.
  revert n. induction s as [|ch rest IH]; intro n; cbn [all_digits strconv.digits].
  - intros _. now exists n.
  - destruct (strconv.is_digit ch); cbn [andb]; [apply IH | discriminate].
Qed.

Lemma digits_all_digits (s : string) (n v : Z) :
  strconv.digits n s = Some v -> all_digits s = true.
Proof.
  intro H. destruct (all_digits s) eqn:E; [reflexivity|].
  rewrite (digits_None _ n E) in H. discriminate.
Qed.

(** The digit loop on digits: the value of the text, after [n]. *)
Lemma digits_value (s : string) (n : Z) :
  all_digits s = true ->
  strconv.digits n s = Some (n * 10 ^ Z.of_nat (String.length s) + digit_sum s).
Proof.
  revert n. induction s as [|ch rest IH]; intro n;
    cbn [all_digits strconv.digits digit_sum String.length].
  - intros _. f_equal. change (10 ^ Z.of_nat 0) with 1. lia.
  - destruct (strconv.is_digit ch); cbn [andb]; [|discriminate].
    intro H. rewrite (IH _ H). f_equal.
    rewrite Nat2Z.inj_succ, Z.pow_succ_r by lia. ring.
Qed.

(** A decimal digit is worth 0 to 9. *)
Lemma digit_worth (c : ascii) :
  strconv.is_digit c = true -> 0 <= Z.of_nat (nat_of_ascii c - 48) <= 9.
Proof.
  unfold strconv.is_digit. intro H. apply andb_prop in H. destruct H as [H1 H2].
  apply Nat.leb_le in H1. apply Nat.leb_le in H2. lia.
Qed.

(** Digits of [k] bytes are worth less than [10^k]. *)
Lemma digit_sum_bounds (s : string) :
  all_digits s = true -> 0 <= digit_sum s < 10 ^ Z.of_nat (String.length s).
Proof.
  induction s as [|ch rest IH]; cbn [all_digits digit_sum String.length].
  - intros _. change (10 ^ Z.of_nat 0) with 1. lia.
  - intro H. apply andb_prop in H. destruct H as [Hc Hr].
    specialize (IH Hr). pose proof (digit_worth ch Hc) as Hd.
    rewrite Nat2Z.inj_succ, Z.pow_succ_r by lia.
    set (p := 10 ^ Z.of_nat (String.length rest)) in *.
    set (d := Z.of_nat (nat_of_ascii ch - 48)) in *.
    nia.
Qed.

(** The loop of [ParseUint] on digits: their value when it fits 64 bits, a
    range error when it does not. *)
Lemma ParseUint_loop_value (s : string) (n : Z) :
  0 <= n <= strconv.maxUint64 ->
  all_digits s = true ->
  strconv.ParseUint_loop n s
  = if n * 10 ^ Z.of_nat (String.length s) + digit_sum s <=? strconv.maxUint64
    then (n * 10 ^ Z.of_nat (String.length s) + digit_sum s, None)
    else (strconv.maxUint64, Some strconv.ErrRange).
Proof.
  revert n. induction s as [|ch rest IH]; intros n Hn;
    cbn [all_digits strconv.ParseUint_loop digit_sum String.length].
  - intros _. change (10 ^ Z.of_nat 0) with 1.
    replace (n * 1 + 0) with n by lia.
    destruct (n <=? strconv.maxUint64) eqn:E; [reflexivity|].
    apply Z.leb_gt in E. lia.
  - intro H. apply andb_prop in H. destruct H as [Hc Hr]. rewrite Hc. cbv zeta.
    pose proof (digit_worth ch Hc) as Hd.
    pose proof (digit_sum_bounds rest Hr) as Hb.
    rewrite Nat2Z.inj_succ, Z.pow_succ_r by lia.
    assert (Hp : 1 <= 10 ^ Z.of_nat (String.length rest))
      by (pose proof (Z.pow_pos_nonneg 10 (Z.of_nat (String.length rest))); lia).
    set (p := 10 ^ Z.of_nat (String.length rest)) in *.
    set (d := Z.of_nat (nat_of_ascii ch - 48)) in *.
    set (r := digit_sum rest) in *.
    unfold strconv.maxUint64, strconv.uint64 in *.
    change (2 ^ 64) with 18446744073709551616 in *.
    change ((18446744073709551616 - 1) / 10 + 1) with 1844674407370955162.
    change (18446744073709551616 - 1) with 18446744073709551615 in *.
    destruct (1844674407370955162 <=? n) eqn:Ec.
    + apply Z.leb_le in Ec.
      destruct (n * (10 * p) + (d * p + r) <=? 18446744073709551615) eqn:Ev;
        [|reflexivity].
      apply Z.leb_le in Ev. nia.
    + apply Z.leb_gt in Ec.
      rewrite (Z.mod_small (n * 10)) by lia.
      destruct (Z_lt_le_dec (n * 10 + d) 18446744073709551616) as [Hs|Hs].
      * rewrite (Z.mod_small (n * 10 + d)) by lia.
        replace (n * 10 + d <? n * 10) with false by (symmetry; apply Z.ltb_ge; lia).
        replace (18446744073709551615 <? n * 10 + d) with false
          by (symmetry; apply Z.ltb_ge; lia).
        cbn [orb]. rewrite (IH (n * 10 + d)) by (try assumption; lia).
        replace (n * (10 * p) + (d * p + r)) with ((n * 10 + d) * p + r) by ring.
        reflexivity.
      * replace ((n * 10 + d) mod 18446744073709551616)
          with (n * 10 + d - 18446744073709551616).
        2:{ apply Z.mod_unique with (q := 1); lia. }
        replace (n * 10 + d - 18446744073709551616 <? n * 10) with true
          by (symmetry; apply Z.ltb_lt; lia).
        cbn [orb].
        destruct (n * (10 * p) + (d * p + r) <=? 18446744073709551615) eqn:Ev;
          [|reflexivity].
        apply Z.leb_le in Ev. nia.
Qed.

(** The loop of [ParseUint] fails on text that holds a byte that is no
    digit: with a syntax error at that byte, or with a range error at a
    digit before it. *)
Lemma ParseUint_loop_fails (s : string) (n : Z) :
  all_digits s = false ->
  strconv.ParseUint_loop n s = (0, Some strconv.ErrSyntax)
  \/ strconv.ParseUint_loop n s = (strconv.maxUint64, Some strconv.ErrRange).
Proof.
  revert n. induction s as [|ch rest IH]; intro n;
    cbn [all_digits strconv.ParseUint_loop].
  - discriminate.
  - destruct (strconv.is_digit ch); cbn [andb]; [|intros _; now left].
    intro H. cbv zeta.
    destruct (_ <=? n); [now right|].
    destruct (_ || _); [now right|]. now apply IH.
Qed.

(** [int64(x)] keeps a value that fits 64 bits. *)
Lemma int64_small (z : Z) : - 2 ^ 63 <= z < 2 ^ 63 -> strconv.int64 z = z.
Proof. unfold strconv.int64. intro H. rewrite Z.mod_small; lia. Qed.

(** [ParseInt] on decimal text: its value when it fits [int], a range error
    when it does not. *)
Lemma ParseInt_decimal_value (s : string) :
  decimal_text s = true ->
  if (strconv.minInt <=? decimal_value s) && (decimal_value s <=? strconv.maxInt)
  then strconv.ParseInt s = (decimal_value s, None)
  else snd (strconv.ParseInt s) = Some strconv.ErrRange.
Proof.
  destruct s as [|c0 rest]; [discriminate|].
  assert (body : forall (neg : bool) (s' : string),
    nonempty s' = true -> all_digits s' = true ->
    let v := if neg then - digit_sum s' else digit_sum s' in
    let r := let (un, err) := strconv.ParseUint s' in
             match err with
             | Some strconv.ErrSyntax => (0, Some strconv.ErrSyntax)
             | _ =>
                 let cutoff := 2 ^ 63 in
                 if negb neg && (cutoff <=? un)
                 then (strconv.int64 (cutoff - 1), Some strconv.ErrRange)
                 else if neg && (cutoff <? un)
                 then (strconv.int64 (- strconv.int64 cutoff), Some strconv.ErrRange)
                 else
                   let n := strconv.int64 un in
                   (if neg then strconv.int64 (- n) else n, None)
             end in
    if (strconv.minInt <=? v) && (v <=? strconv.maxInt)
    then r = (v, None) else snd r = Some strconv.ErrRange).
  { intros neg s' Hne Hd. cbv zeta.
    assert (Hu : strconv.ParseUint s' = strconv.ParseUint_loop 0 s')
      by (destruct s'; [discriminate|reflexivity]).
    rewrite Hu, (ParseUint_loop_value s' 0) by (unfold strconv.maxUint64; lia || assumption).
    pose proof (digit_sum_bounds s' Hd) as Hb.
    replace (0 * 10 ^ Z.of_nat (String.length s') + digit_sum s') with (digit_sum s') by lia.
    set (v := digit_sum s') in *.
    unfold strconv.minInt, strconv.maxInt, strconv.maxUint64.
    assert (H63 : 2 ^ 63 = 9223372036854775808) by reflexivity.
    assert (H64 : 2 ^ 64 = 18446744073709551616) by reflexivity.
    destruct (Z.leb_spec v (2 ^ 64 - 1)) as [Eu|Eu]; cbv iota beta;
      destruct neg; cbn [negb andb];
      repeat match goal with
             | |- context [?a <=? ?b] => destruct (Z.leb_spec a b)
             | |- context [?a <? ?b] => destruct (Z.ltb_spec a b)
             end; cbn [negb andb snd]; try reflexivity; try lia.
    - f_equal. destruct (Z.eq_dec v (2 ^ 63)) as [->|Hv]; [reflexivity|].
      rewrite (int64_small v) by lia. apply int64_small. lia.
    - f_equal. apply int64_small. lia. }
  unfold decimal_text, decimal_value, strconv.ParseInt.
  destruct (Ascii.eqb c0 "+") eqn:Hp.
  - apply Ascii.eqb_eq in Hp. subst c0. change (Ascii.eqb "+" "-") with false.
    cbn [orb]. intro H. apply andb_prop in H. destruct H as [H1 H2].
    exact (body false rest H1 H2).
  - destruct (Ascii.eqb c0 "-") eqn:Hm; cbn [orb].
    + intro H. apply andb_prop in H. destruct H as [H1 H2].
      exact (body true rest H1 H2).
    + intro H. exact (body false (String c0 rest) eq_refl H).
Qed.

(** [ParseInt] fails on text that is no decimal integer. *)
Lemma ParseInt_fails (s : string) :
  decimal_text s = false -> exists e, snd (strconv.ParseInt s) = Some e.
Proof.
  destruct s as [|c0 rest]; [intros _; now exists strconv.ErrSyntax|].
  assert (body : forall (neg : bool) (s' : string),
    nonempty s' && all_digits s' = false ->
    exists e,
      snd (let (un, err) := strconv.ParseUint s' in
           match err with
           | Some strconv.ErrSyntax => (0, Some strconv.ErrSyntax)
           | _ =>
               let cutoff := 2 ^ 63 in
               if negb neg && (cutoff <=? un)
               then (strconv.int64 (cutoff - 1), Some strconv.ErrRange)
               else if neg && (cutoff <? un)
               then (strconv.int64 (- strconv.int64 cutoff), Some strconv.ErrRange)
               else
                 let n := strconv.int64 un in
                 (if neg then strconv.int64 (- n) else n, None)
           end) = Some e).
  { intros neg [|c s']; [intros _; now exists strconv.ErrSyntax|].
    cbn [nonempty andb]. intro H. unfold strconv.ParseUint.
    destruct (ParseUint_loop_fails _ 0 H) as [-> | ->].
    - now exists strconv.ErrSyntax.
    - exists strconv.ErrRange. destruct neg; reflexivity. }
  unfold decimal_text, strconv.ParseInt.
  destruct (Ascii.eqb c0 "+") eqn:Hp.
  - apply Ascii.eqb_eq in Hp. subst c0. change (Ascii.eqb "+" "-") with false.
    cbn [orb]. apply body.
  - destruct (Ascii.eqb c0 "-") eqn:Hm; cbn [orb]; [apply body|].
    intro H. apply (body false (String c0 rest)). exact H.
Qed.

(** Text short enough for the fast path of [Atoi] is worth less than
    [10^18]. *)
Lemma short_digit_sum (s : string) :
  all_digits s = true -> (String.length s < 19)%nat -> 0 <= digit_sum s < 10 ^ 18.
Proof.
  intros Hd Hl. pose proof (digit_sum_bounds s Hd) as Hb.
  assert (10 ^ Z.of_nat (String.length s) <= 10 ^ 18)
    by (apply Z.pow_le_mono_r; lia).
  lia.
Qed.

(** [Atoi] on decimal text: its value when it fits [int], a range error when
    it does not. *)
Lemma Atoi_decimal_value (s : string) :
  decimal_text s = true ->
  strconv.Atoi s
  = if (strconv.minInt <=? decimal_value s) && (decimal_value s <=? strconv.maxInt)
    then inl (decimal_value s) else inr strconv.ErrRange.
Proof.
  intro Ht. unfold strconv.Atoi. cbv zeta.
  destruct ((0 <? String.length s)%nat && (String.length s <? 19)%nat) eqn:Hfast.
  - apply andb_prop in Hfast. destruct Hfast as [_ Hl]. apply Nat.ltb_lt in Hl.
    destruct s as [|c0 rest]; [discriminate|].
    cbn [String.length] in Hl.
    assert (fits : forall v, 0 <= v < 10 ^ 18 ->
      (strconv.minInt <=? v) && (v <=? strconv.maxInt) = true
      /\ (strconv.minInt <=? - v) && (- v <=? strconv.maxInt) = true).
    { intros v Hv. unfold strconv.minInt, strconv.maxInt.
      change (2 ^ 63) with 9223372036854775808.
      change (10 ^ 18) with 1000000000000000000 in Hv.
      split; apply andb_true_intro; split; apply Z.leb_le; lia. }
    revert Ht. unfold decimal_text, decimal_value.
    destruct (Ascii.eqb c0 "-") eqn:Hm; cbn [orb].
    + intro H. apply andb_prop in H. destruct H as [H1 H2].
      destruct rest as [|c1 rest']; [discriminate|].
      change (String.length (String c1 rest') <? 1)%nat with false. cbn [andb].
      rewrite (digits_value _ 0 H2).
      replace (0 * 10 ^ Z.of_nat (String.length (String c1 rest'))
               + digit_sum (String c1 rest')) with (digit_sum (String c1 rest')) by lia.
      rewrite (proj2 (fits _ (short_digit_sum _ H2 ltac:(lia)))). reflexivity.
    + destruct (Ascii.eqb c0 "+") eqn:Hp.
      * intro H. apply andb_prop in H. destruct H as [H1 H2].
        destruct rest as [|c1 rest']; [discriminate|].
        change (String.length (String c1 rest') <? 1)%nat with false. cbn [andb].
        rewrite (digits_value _ 0 H2).
        replace (0 * 10 ^ Z.of_nat (String.length (String c1 rest'))
                 + digit_sum (String c1 rest')) with (digit_sum (String c1 rest')) by lia.
        rewrite (proj1 (fits _ (short_digit_sum _ H2 ltac:(lia)))). reflexivity.
      * intro H. cbn [andb]. rewrite (digits_value _ 0 H).
        replace (0 * 10 ^ Z.of_nat (String.length (String c0 rest))
                 + digit_sum (String c0 rest)) with (digit_sum (String c0 rest)) by lia.
        rewrite (proj1 (fits _ (short_digit_sum _ H ltac:(cbn [String.length]; lia)))).
        reflexivity.
  - pose proof (ParseInt_decimal_value s Ht) as Hp.
    destruct ((strconv.minInt <=? decimal_value s) && (decimal_value s <=? strconv.maxInt)).
    + now rewrite Hp.
    + destruct (strconv.ParseInt s) as [i64 err]. cbn [snd] in Hp. now rewrite Hp.
Qed.

(** Text that is no decimal integer is an error of [Atoi]. *)
Lemma Atoi_rejects (s : string) :
  decimal_text s = false -> exists err, strconv.Atoi s = inr err.
Proof.
  intro Ht. unfold strconv.Atoi. cbv zeta.
  destruct ((0 <? String.length s)%nat && (String.length s <? 19)%nat).
  - destruct s as [|c0 rest]; [now exists strconv.ErrSyntax|].
    revert Ht. unfold decimal_text.
    destruct (Ascii.eqb c0 "-" || Ascii.eqb c0 "+").
    + destruct rest as [|c1 rest']; [intros _; now exists strconv.ErrSyntax|].
      cbn [nonempty andb]. change (String.length (String c1 rest') <? 1)%nat with false.
      intro H. rewrite (digits_None _ 0 H). now exists strconv.ErrSyntax.
    + cbn [andb]. intro H. rewrite (digits_None _ 0 H). now exists strconv.ErrSyntax.
  - destruct (ParseInt_fails s Ht) as [e He].
    destruct (strconv.ParseInt s) as [i64 err]. cbn [snd] in He. rewrite He. now exists e.
Qed.

(** Decimal integer text is read, or is out of the range of [int]. *)
Lemma Atoi_accepts (s : string) :
  decimal_text s = true ->
  (exists v, strconv.Atoi s = inl v /\ strconv.minInt <= v <= strconv.maxInt)
  \/ strconv.Atoi s = inr strconv.ErrRange.
Proof.
  intro Ht. rewrite (Atoi_decimal_value s Ht).
  destruct ((strconv.minInt <=? decimal_value s) && (decimal_value s <=? strconv.maxInt))
    eqn:Hr; [left|now right].
  exists (decimal_value s). split; [reflexivity|].
  apply andb_prop in Hr. destruct Hr as [H1 H2].
  apply Z.leb_le in H1. apply Z.leb_le in H2. lia.
Qed.

(** The text [Itoa] writes is decimal text worth the integer. *)
Lemma Itoa_decimal (n : Z) :
  decimal_text (strconv.Itoa n) = true /\ decimal_value (strconv.Itoa n) = n.
Proof.
  assert (pos : forall p, exists c rest,
    strconv.Itoa (Z.pos p) = String c rest /\ strconv.is_digit c = true
    /\ all_digits (String c rest) = true /\ digit_sum (String c rest) = Z.pos p).
  { intro p. pose proof (Itoa_digits (Z.pos p) ltac:(lia)) as Hd.
    rewrite Itoa_pos in *.
    destruct (string_of_uint_head (Pos.to_uint p) (to_uint_not_Nil p))
      as [c [rest [E Hc]]].
    rewrite E in *. exists c, rest. split; [reflexivity|]. split; [assumption|].
    pose proof (digits_all_digits _ _ _ Hd) as Ha. split; [assumption|].
    rewrite (digits_value _ 0 Ha), Z.mul_0_l, Z.add_0_l in Hd.
    now injection Hd. }
  destruct n as [|p|p].
  - split; reflexivity.
  - destruct (pos p) as [c [rest [E [Hc [Ha Hv]]]]]. rewrite E.
    destruct (digit_is_no_sign c Hc) as [Hm Hp].
    unfold decimal_text, decimal_value. rewrite Hm, Hp. cbn [orb]. now split.
  - destruct (pos p) as [c [rest [E [Hc [Ha Hv]]]]].
    assert (En : strconv.Itoa (Z.neg p) = String "-" (strconv.Itoa (Z.pos p))).
    { unfold strconv.Itoa. cbn [Z.to_int NilZero.string_of_int]. reflexivity. }
    rewrite En, E. unfold decimal_text, decimal_value.
    change (Ascii.eqb "-" "-") with true. cbn [orb nonempty andb].
    split; [assumption|]. rewrite Hv. reflexivity.
Qed.

(** [Atoi] reads back what [Itoa] writes, for every [int]. *)
Lemma Atoi_Itoa (n : Z) :
  strconv.minInt <= n <= strconv.maxInt -> strconv.Atoi (strconv.Itoa n) = inl n.
Proof.
  intros [Hlo Hhi]. destruct (Itoa_decimal n) as [Ht Hv].
  rewrite (Atoi_decimal_value _ Ht), Hv.
  replace ((strconv.minInt <=? n) && (n <=? strconv.maxInt)) with true; [reflexivity|].
  symmetry. apply andb_true_intro. split; apply Z.leb_le; assumption.
Qed.

(** [Atoi] at sample inputs: signs, leading zeros, the two ends of the
    range of [int], both paths, and the refused forms; a byte that is no
    digit is a syntax error unless the digits before it have left 64 bits
    already. *)
Example Atoi_samples :
  strconv.Atoi "42" = inl 42
  /\ strconv.Atoi "+5" = inl 5
  /\ strconv.Atoi "-007" = inl (-7)
  /\ strconv.Atoi "9223372036854775807" = inl strconv.maxInt
  /\ strconv.Atoi "-9223372036854775808" = inl strconv.minInt
  /\ strconv.Atoi "9223372036854775808" = inr strconv.ErrRange
  /\ strconv.Atoi "-9223372036854775809" = inr strconv.ErrRange
  /\ strconv.Atoi "18446744073709551616" = inr strconv.ErrRange
  /\ strconv.Atoi "0000000000000000000000042" = inl 42
  /\ strconv.Atoi "" = inr strconv.ErrSyntax
  /\ strconv.Atoi "-" = inr strconv.ErrSyntax
  /\ strconv.Atoi "+-5" = inr strconv.ErrSyntax
  /\ strconv.Atoi "12a" = inr strconv.ErrSyntax
  /\ strconv.Atoi " 12" = inr strconv.ErrSyntax
  /\ strconv.Atoi "not-a-number" = inr strconv.ErrSyntax
  /\ strconv.Atoi "9223372036854775808a" = inr strconv.ErrSyntax
  /\ strconv.Atoi "99999999999999999999a" = inr strconv.ErrRange.
Proof. repeat split. Qed.

Example Itoa_samples :
  strconv.Itoa 0 = "0" /\ strconv.Itoa 2 = "2" /\ strconv.Itoa 120 = "120"
  /\ strconv.Itoa (-45) = "-45".
Proof. repeat split. Qed.

(** An attribute no field of the variant is projected into stays null in
    the generic record: the sender and recipients of the email variant never
    appear for the subsonic, gotify or custom script variants, and no variant
    but gotify carries a priority. *)
Lemma toNotification_leaves_foreign_attributes_null :
  (forall n, Notification.From (NotificationSubsonic.toNotification n) = Null
             /\ Notification.To (NotificationSubsonic.toNotification n) = Null
             /\ Notification.Priority (NotificationSubsonic.toNotification n) = Null)
  /\ (forall n, Notification.From (NotificationGotify.toNotification n) = Null
              /\ Notification.To (NotificationGotify.toNotification n) = Null)
  /\ (forall n, Notification.From (NotificationCustomScript.toNotification n) = Null
              /\ Notification.To (NotificationCustomScript.toNotification n) = Null
              /\ Notification.Priority (NotificationCustomScript.toNotification n) = Null)
  /\ (forall n, Notification.Priority (NotificationEmail.toNotification n) = Null
              /\ Notification.Path (NotificationEmail.toNotification n) = Null).
Proof. repeat split. Qed.

(** ** The lifecycle *)

Section LifecycleProperties.
Context {GM : GenericMethods}.

(** C2.  Every create and every update of a notification variant sends at
    most one request, none when the plan did not decode, and the request
    carries the variant's constant implementation / config-contract pair,
    whatever the plan and the prior response hold.  The email and subsonic
    adapters write the pair into the request themselves; the custom script
    and gotify adapters write it into the generic record, which the generic
    encoder [H] hands on. *)
Theorem identity_pair_is_fixed (H : read_keeps_identity GM)
  (S : Type) (srv : server S) (s : S) :
  (forall req resp,
      one_request_with "CustomScript" "CustomScriptSettings"
        (HasError (Diagnostics (Diagnostics_Append resp (Get_diags req))))
        (calls_of (run srv (NotificationCustomScriptResource.Create req resp) s)))
  /\ (forall req resp,
      one_request_with "CustomScript" "CustomScriptSettings"
        (HasError (Diagnostics (Diagnostics_Append resp (Get_diags req))))
        (calls_of (run srv (NotificationCustomScriptResource.Update req resp) s)))
  /\ (forall req resp,
      one_request_with "Gotify" "GotifySettings"
        (HasError (Diagnostics (Diagnostics_Append resp (Get_diags req))))
        (calls_of (run srv (NotificationGotifyResource.Create req resp) s)))
  /\ (forall req resp,
      one_request_with "Gotify" "GotifySettings"
        (HasError (Diagnostics (Diagnostics_Append resp (Get_diags req))))
        (calls_of (run srv (NotificationGotifyResource.Update req resp) s)))
  /\ (forall req resp,
      one_request_with "Email" "EmailSettings"
        (HasError (Diagnostics (Diagnostics_Append resp (Get_diags req))))
        (calls_of (run srv (NotificationEmailResource.Create req resp) s)))
  /\ (forall req resp,
      one_request_with "Email" "EmailSettings"
        (HasError (Diagnostics (Diagnostics_Append resp (Get_diags req))))
        (calls_of (run srv (NotificationEmailResource.Update req resp) s)))
  /\ (forall req resp,
      one_request_with "Xbmc" "XbmcSettings"
        (HasError (Diagnostics (Diagnostics_Append resp (Get_diags req))))
        (calls_of (run srv (NotificationSubsonicResource.Create req resp) s)))
  /\ (forall req resp,
      one_request_with "Xbmc" "XbmcSettings"
        (HasError (Diagnostics (Diagnostics_Append resp (Get_diags req))))
        (calls_of (run srv (NotificationSubsonicResource.Update req resp) s))).
Proof.
  repeat split; intros req resp; unfold one_request_with.
  - unfold NotificationCustomScriptResource.Create.
    destruct (HasError _); [reflexivity|].
    eexists. split.
    + after_call; reflexivity.
    + destruct (H (NotificationCustomScript.toNotification (Get_target req)) [])
        as [[Hi Hc] _].
      cbn [outgoing_identity]. unfold NotificationCustomScript.read.
      now rewrite Hi, Hc.
  - unfold NotificationCustomScriptResource.Update.
    destruct (HasError _); [reflexivity|].
    eexists. split.
    + after_call; reflexivity.
    + destruct (H (NotificationCustomScript.toNotification (Get_target req)) [])
        as [[Hi Hc] _].
      cbn [outgoing_identity]. unfold NotificationCustomScript.read.
      now rewrite Hi, Hc.
  - unfold NotificationGotifyResource.Create.
    destruct (HasError _); [reflexivity|].
    pose proof (H (NotificationGotify.toNotification (Get_target req))
                  (Diagnostics (Diagnostics_Append resp (Get_diags req)))) as [_ [Hi Hc]].
    unfold NotificationGotify.read.
    destruct (Notification_read_diags _ _) as [request diags].
    eexists. split.
    + after_call;
        try destruct (NotificationGotify.write _ _ _); reflexivity.
    + cbn [outgoing_identity]. cbn [fst] in Hi, Hc. now rewrite Hi, Hc.
  - unfold NotificationGotifyResource.Update.
    destruct (HasError _); [reflexivity|].
    pose proof (H (NotificationGotify.toNotification (Get_target req))
                  (Diagnostics (Diagnostics_Append resp (Get_diags req)))) as [_ [Hi Hc]].
    unfold NotificationGotify.read.
    destruct (Notification_read_diags _ _) as [request diags].
    eexists. split.
    + after_call;
        try destruct (NotificationGotify.write _ _ _); reflexivity.
    + cbn [outgoing_identity]. cbn [fst] in Hi, Hc. now rewrite Hi, Hc.
  - unfold NotificationEmailResource.Create.
    destruct (HasError _); [reflexivity|].
    eexists. split; [after_call; reflexivity | reflexivity].
  - unfold NotificationEmailResource.Update.
    destruct (HasError _); [reflexivity|].
    eexists. split; [after_call; reflexivity | reflexivity].
  - unfold NotificationSubsonicResource.Create.
    destruct (HasError _); [reflexivity|].
    eexists. split; [after_call; reflexivity | reflexivity].
  - unfold NotificationSubsonicResource.Update.
    destruct (HasError _); [reflexivity|].
    eexists. split; [after_call; reflexivity | reflexivity].
Qed.

(** C3, as the code has it.  For each resource, once the state decodes,
    [Delete] makes the remote delete call and follows its answer: on success
    no error is reported and the local state is removed; on any failure, a
    not-found answer included, an error is reported and the local state
    stays. *)
Theorem Delete_follows_the_remote_answer (S : Type) (srv : server S) (s : S) :
  (forall req resp,
      HasError (Diagnostics (Diagnostics_Append resp (Get_diags req))) = false ->
      delete_outcome
        (fst (srv (DeleteNotification
                     (int32 (ValueInt64 (NotificationCustomScript.ID (Get_target req))))) s))
        resp
        (value_of (run srv (NotificationCustomScriptResource.Delete req resp) s)))
  /\ (forall req_id resp,
      HasError (Diagnostics (Diagnostics_Append resp (snd req_id))) = false ->
      delete_outcome
        (fst (srv (DeleteNotification (int32 (fst req_id))) s))
        resp
        (value_of (run srv (NotificationGotifyResource.Delete req_id resp) s)))
  /\ (forall req resp,
      HasError (Diagnostics (Diagnostics_Append resp (Get_diags req))) = false ->
      delete_outcome
        (fst (srv (DeleteNotificationContext
                     (ValueInt64 (NotificationEmail.ID (Get_target req)))) s))
        resp
        (value_of (run srv (NotificationEmailResource.Delete req resp) s)))
  /\ (forall req resp,
      HasError (Diagnostics (Diagnostics_Append resp (Get_diags req))) = false ->
      delete_outcome
        (fst (srv (DeleteNotification
                     (int32 (ValueInt64 (NotificationSubsonic.ID (Get_target req))))) s))
        resp
        (value_of (run srv (NotificationSubsonicResource.Delete req resp) s)))
  /\ (forall req resp,
      HasError (Diagnostics (Diagnostics_Append resp (Get_diags req))) = false ->
      delete_outcome
        (fst (srv (DeleteCustomFormat
                     (int32 (ValueInt64 (CustomFormat.ID (Get_target req))))) s))
        resp
        (value_of (run srv (CustomFormatResource.Delete req resp) s))).
Proof.
  split; [|split; [|split; [|split]]]; intros req resp Hd;
    unfold NotificationCustomScriptResource.Delete, NotificationGotifyResource.Delete,
      NotificationEmailResource.Delete, NotificationSubsonicResource.Delete,
      CustomFormatResource.Delete;
    rewrite Hd; after_call; unfold delete_outcome;
    (split; [first [exact Hd | apply HasError_AddError] | reflexivity]).
Qed.

(** C4.  A failed remote delete is reported under the label "read" by the
    email, subsonic, custom script and custom format resources; the gotify
    resource reports it under "delete". *)
Theorem Delete_failure_is_labelled_read (e : GoError) :
  (forall n : NotificationEmail.t,
      Diagnostics (value_of (run (failing e)
        (NotificationEmailResource.Delete (decoded n) (fresh (Some n))) tt))
      = [client_error ("Unable to read notification_email, got error: " ++ ErrorText e)])
  /\ (forall n : NotificationSubsonic.t,
      Diagnostics (value_of (run (failing e)
        (NotificationSubsonicResource.Delete (decoded n) (fresh (Some n))) tt))
      = [client_error ("Unable to read notification_subsonic, got error: " ++ ErrorText e)])
  /\ (forall n : NotificationCustomScript.t,
      Diagnostics (value_of (run (failing e)
        (NotificationCustomScriptResource.Delete (decoded n) (fresh (Some n))) tt))
      = [client_error
           ("Unable to read notification_custom_script, got error: " ++ ErrorText e)])
  /\ (forall c : CustomFormat.t,
      Diagnostics (value_of (run (failing e)
        (CustomFormatResource.Delete (decoded c) (fresh (Some c))) tt))
      = [client_error ("Unable to read custom_format, got error: " ++ ErrorText e)])
  /\ (forall (id : Z) (n : NotificationGotify.t),
      Diagnostics (value_of (run (failing e)
        (NotificationGotifyResource.Delete (id, []) (fresh (Some n))) tt))
      = [client_error ("Unable to delete notification_gotify, got error: " ++ ErrorText e)]).
Proof.
  repeat split; intros; reflexivity.
Qed.

(** The other operations report a failed remote call under their own
    label; shown for the email resource, whose messages are written out in
    its methods, and for the subsonic resource, which goes through
    [helpers.ParseClientError]. *)
Lemma Create_Read_Update_failures_carry_their_label (e : GoError) :
  (forall n : NotificationEmail.t,
      Diagnostics (value_of (run (failing e)
        (NotificationEmailResource.Create (decoded n) (fresh None)) tt))
      = [client_error ("Unable to create notification_email, got error: " ++ ErrorText e)]
      /\ Diagnostics (value_of (run (failing e)
        (NotificationEmailResource.Read (decoded n) (fresh (Some n))) tt))
      = [client_error ("Unable to read notification_email, got error: " ++ ErrorText e)]
      /\ Diagnostics (value_of (run (failing e)
        (NotificationEmailResource.Update (decoded n) (fresh (Some n))) tt))
      = [client_error ("Unable to update notification_email, got error: " ++ ErrorText e)])
  /\ (forall n : NotificationSubsonic.t,
      Diagnostics (value_of (run (failing e)
        (NotificationSubsonicResource.Create (decoded n) (fresh None)) tt))
      = [client_error ("Unable to create notification_subsonic, got error: " ++ ErrorText e)]
      /\ Diagnostics (value_of (run (failing e)
        (NotificationSubsonicResource.Read (decoded n) (fresh (Some n))) tt))
      = [client_error ("Unable to read notification_subsonic, got error: " ++ ErrorText e)]
      /\ Diagnostics (value_of (run (failing e)
        (NotificationSubsonicResource.Update (decoded n) (fresh (Some n))) tt))
      = [client_error ("Unable to update notification_subsonic, got error: " ++ ErrorText e)]).
Proof.
  split; intro n; repeat split.
Qed.

(** The failing input of the email resource, evaluated. *)
Example Delete_failure_sample :
  value_of (run (failing refused)
    (NotificationEmailResource.Delete (decoded (sample_email 7))
       (fresh (Some (sample_email 7)))) tt)
  = {| Diagnostics :=
         [client_error "Unable to read notification_email, got error: connection refused"];
       State := Some (sample_email 7) |}.
Proof. reflexivity. Qed.

(** C5, as the code has it.  For each resource, once the state decodes, a
    fetch that fails for whatever reason, an identifier the server no longer
    knows included, makes [Read] add one client error labelled "read" with
    the resource kind and the remote error text, and leave the local state
    as it was. *)
Theorem Read_failure_keeps_the_state (S : Type) (srv : server S) (s : S) (e : GoError) :
  (forall req resp,
      HasError (Diagnostics (Diagnostics_Append resp (Get_diags req))) = false ->
      fst (srv (GetNotificationById
                  (int32 (ValueInt64 (NotificationCustomScript.ID (Get_target req))))) s)
        = Err e ->
      read_failure_outcome
        ("Unable to read notification_custom_script, got error: " ++ ErrorText e)
        (Diagnostics_Append resp (Get_diags req))
        (value_of (run srv (NotificationCustomScriptResource.Read req resp) s)))
  /\ (forall req resp,
      HasError (Diagnostics (Diagnostics_Append resp (Get_diags req))) = false ->
      fst (srv (GetNotificationById
                  (int32 (ValueInt64 (NotificationGotify.ID (Get_target req))))) s)
        = Err e ->
      read_failure_outcome
        ("Unable to read notification_gotify, got error: " ++ ErrorText e)
        (Diagnostics_Append resp (Get_diags req))
        (value_of (run srv (NotificationGotifyResource.Read req resp) s)))
  /\ (forall req resp,
      HasError (Diagnostics (Diagnostics_Append resp (Get_diags req))) = false ->
      fst (srv (GetNotificationContext
                  (ValueInt64 (NotificationEmail.ID (Get_target req)))) s)
        = Err e ->
      read_failure_outcome
        ("Unable to read notification_email, got error: " ++ ErrorText e)
        (Diagnostics_Append resp (Get_diags req))
        (value_of (run srv (NotificationEmailResource.Read req resp) s)))
  /\ (forall req resp,
      HasError (Diagnostics (Diagnostics_Append resp (Get_diags req))) = false ->
      fst (srv (GetNotificationById
                  (int32 (ValueInt64 (NotificationSubsonic.ID (Get_target req))))) s)
        = Err e ->
      read_failure_outcome
        ("Unable to read notification_subsonic, got error: " ++ ErrorText e)
        (Diagnostics_Append resp (Get_diags req))
        (value_of (run srv (NotificationSubsonicResource.Read req resp) s)))
  /\ (forall req resp,
      HasError (Diagnostics (Diagnostics_Append resp (Get_diags req))) = false ->
      fst (srv (GetCustomFormatById
                  (int32 (ValueInt64 (CustomFormat.ID (Get_target req))))) s)
        = Err e ->
      read_failure_outcome
        ("Unable to read custom_format, got error: " ++ ErrorText e)
        (Diagnostics_Append resp (Get_diags req))
        (value_of (run srv (CustomFormatResource.Read req resp) s))).
Proof.
  split; [|split; [|split; [|split]]]; intros req resp Hd Ha;
    unfold NotificationCustomScriptResource.Read, NotificationGotifyResource.Read,
      NotificationEmailResource.Read, NotificationSubsonicResource.Read,
      CustomFormatResource.Read;
    rewrite Hd; rewrite value_of_Call, Ha; cbn [run value_of fst];
    unfold read_failure_outcome; cbn [Diagnostics_AddError Diagnostics State];
    (split; [reflexivity | split; [apply HasError_AddError | reflexivity]]).
Qed.

(** C7.  A successful read of the notifications list writes each of the
    [n] records of the response through the generic record's [write], the
    one the resource adapters put between their two projections, and sets
    the attribute [id] to the decimal text of [n]. *)
Theorem list_Read_maps_every_record (S : Type) (srv : server S) (s : S)
  (req : Data Notifications.t) (resp : Response Notifications.t) :
  HasError (Diagnostics (Diagnostics_Append resp (Get_diags req))) = false ->
  (forall response : list lidarr_NotificationResource.t,
      fst (srv ListNotification s) = Ok response ->
      exists data : Notifications.t,
        State (value_of (run srv (NotificationsDataSource.Read req resp) s)) = Some data
        /\ Notifications.Notifications data
           = Known (map (Notification_write Notification.zero) response)
        /\ Notifications.ID data
           = Known (strconv.Itoa (Z.of_nat (List.length response)))
        /\ strconv.digits 0 (strconv.Itoa (Z.of_nat (List.length response)))
           = Some (Z.of_nat (List.length response)))
  /\ (forall response : list lidarr_NotificationOutput.t,
      fst (srv GetNotificationsContext s) = Ok response ->
      exists data : Notifications.t,
        State (value_of (run srv (NotificationsDataSourceStarr.Read req resp) s)) = Some data
        /\ Notifications.Notifications data
           = Known (map (Notification_write_output Notification.zero) response)
        /\ Notifications.ID data
           = Known (strconv.Itoa (Z.of_nat (List.length response)))
        /\ strconv.digits 0 (strconv.Itoa (Z.of_nat (List.length response)))
           = Some (Z.of_nat (List.length response)))
  /\ (forall (n : NotificationCustomScript.t) (p : lidarr_NotificationResource.t),
      NotificationCustomScript.write n p
      = NotificationCustomScript.fromNotification n
          (Notification_write (NotificationCustomScript.toNotification n) p)).
Proof.
  intro Hd. split; [|split].
  - intros response Ha. unfold NotificationsDataSource.Read.
    rewrite Hd, value_of_Call, Ha. cbn [run value_of fst].
    eexists. split; [reflexivity|]. cbn [Notifications.Notifications Notifications.ID].
    repeat split. apply Itoa_digits. lia.
  - intros response Ha. unfold NotificationsDataSourceStarr.Read.
    rewrite Hd, value_of_Call, Ha. cbn [run value_of fst].
    eexists. split; [reflexivity|]. cbn [Notifications.Notifications Notifications.ID].
    repeat split. apply Itoa_digits. lia.
  - reflexivity.
Qed.

End LifecycleProperties.

Section ImportProperties.
Context {EX : External}.

(** C6.  The import of the email notification calls no client.  When
    [Atoi] fails on the identifier, it adds one unexpected-import-identifier
    error that quotes the identifier and leaves the state untouched; when the
    identifier parses, it adds nothing and sets the attribute [id] to the
    parsed integer.  On text that is no decimal integer [Atoi] fails, with
    either of its errors. *)
Theorem ImportState_parses_the_identifier (S : Type) (srv : server S) (s : S)
  (req_ID : string) (resp : ImportStateResponse) :
  let out := run srv (NotificationEmailResource.ImportState req_ID resp) s in
  calls_of out = []
  /\ (forall err, strconv.Atoi req_ID = inr err ->
        Import_Diagnostics (value_of out)
        = AddError (Import_Diagnostics resp) UnexpectedImportIdentifier
            ("Expected import identifier with format: ID. Got: " ++ Quote req_ID)
        /\ HasError (Import_Diagnostics (value_of out)) = true
        /\ Import_State (value_of out) = Import_State resp)
  /\ (forall id, strconv.Atoi req_ID = inl id ->
        Import_Diagnostics (value_of out) = Import_Diagnostics resp
        /\ GetAttribute (Import_State (value_of out)) "id" = Some (DInt id))
  /\ (decimal_text req_ID = false -> exists err, strconv.Atoi req_ID = inr err).
Proof.
  cbv zeta. unfold NotificationEmailResource.ImportState.
  destruct (strconv.Atoi req_ID) as [id|err] eqn:E; cbn [run value_of calls_of fst snd].
  - split; [reflexivity|]. split; [discriminate|]. split.
    + intros id' Hid. injection Hid as <-. split; reflexivity.
    + intro Hn. destruct (Atoi_rejects _ Hn) as [e He]. rewrite He in E. discriminate.
  - split; [reflexivity|]. split.
    + intros err' _. cbn [Import_Diagnostics Import_State].
      split; [reflexivity|]. split; [apply HasError_AddError | reflexivity].
    + split; [discriminate|]. intros _. now exists err.
Qed.

End ImportProperties.

(** ** The schema of the gotify notification *)

(** C8.  The validation of a gotify configuration against the schema reports
    an error when the declared priority is a value outside 0, 2, 5, 8, and
    reports nothing when it is one of them.  The validation is a function of
    the configuration alone: it makes no call. *)
Theorem priority_must_be_one_of (n : NotificationGotify.t) (z : Z) :
  NotificationGotify.Priority n = Known z ->
  (~ In z [0; 2; 5; 8] -> HasError (NotificationGotifyResource.ValidateConfig n) = true)
  /\ (In z [0; 2; 5; 8] -> NotificationGotifyResource.ValidateConfig n = []).
Proof.
  intro Hp.
  assert (Hv : NotificationGotifyResource.ValidateConfig n
               = schema.ValidateInt64 (schema.OneOf [0; 2; 5; 8]) "priority" (Known z)).
  { unfold NotificationGotifyResource.ValidateConfig, schema.ValidateInt64Attributes.
    cbn [NotificationGotifyResource.Schema flat_map fst snd schema.Kind
         NotificationGotifyResource.flag List.app].
    unfold NotificationGotifyResource.Int64_attribute. cbn [String.eqb Ascii.eqb Bool.eqb].
    rewrite Hp. cbn [flat_map List.app]. rewrite !List.app_nil_r. reflexivity. }
  rewrite Hv. unfold schema.ValidateInt64.
  destruct (existsb (Z.eqb z) [0; 2; 5; 8]) eqn:He.
  - split; [|reflexivity]. intro Hn. exfalso. apply Hn.
    apply existsb_exists in He. destruct He as [x [Hin Hx]].
    apply Z.eqb_eq in Hx. now subst.
  - split; [reflexivity|]. intro Hin. exfalso.
    assert (Ht : existsb (Z.eqb z) [0; 2; 5; 8] = true).
    { apply existsb_exists. exists z. split; [assumption | apply Z.eqb_refl]. }
    congruence.
Qed.

(** ** Configure *)

(** C9, as the code has it.  [Configure] of the email resource, of the
    indexer data source and of the notifications data source: provider data
    of another type than the client handle adds an error and leaves the
    adapter as it was; a client handle is stored and nothing is reported;
    nil provider data leaves the adapter and the response as they were. *)
Theorem Configure_by_provider_data :
  (forall r resp,
      NotificationEmailResource.Configure r ProviderData_nil resp = (r, resp))
  /\ (forall r resp typeName,
      fst (NotificationEmailResource.Configure r (ProviderData_other typeName) resp) = r
      /\ HasError (Configure_Diagnostics
           (snd (NotificationEmailResource.Configure r (ProviderData_other typeName) resp)))
         = true)
  /\ (forall r resp client,
      NotificationEmailResource.Configure r (ProviderData_Lidarr client) resp
      = ({| NotificationEmailResource.client := client |}, resp))
  /\ (forall d resp,
      IndexerDataSource.Configure d ProviderData_nil resp = (d, resp))
  /\ (forall d resp typeName,
      fst (IndexerDataSource.Configure d (ProviderData_other typeName) resp) = d
      /\ HasError (Configure_Diagnostics
           (snd (IndexerDataSource.Configure d (ProviderData_other typeName) resp)))
         = true)
  /\ (forall d resp client,
      IndexerDataSource.Configure d (ProviderData_Lidarr client) resp
      = ({| IndexerDataSource.client := client |}, resp))
  /\ (forall d resp,
      NotificationsDataSourceStarr.Configure d ProviderData_nil resp = (d, resp))
  /\ (forall d resp typeName,
      fst (NotificationsDataSourceStarr.Configure d (ProviderData_other typeName) resp) = d
      /\ HasError (Configure_Diagnostics
           (snd (NotificationsDataSourceStarr.Configure d
                   (ProviderData_other typeName) resp)))
         = true)
  /\ (forall d resp client,
      NotificationsDataSourceStarr.Configure d (ProviderData_Lidarr client) resp
      = ({| NotificationsDataSourceStarr.client := client |}, resp)).
Proof.
  repeat split; cbn [NotificationEmailResource.Configure IndexerDataSource.Configure
                     NotificationsDataSourceStarr.Configure snd Configure_Diagnostics];
    apply HasError_AddError.
Qed.

(** ** The look-up of an indexer by name *)

Section LookupProperties.
Context {EX : External}.

Lemma findIndexer_Ok (name : string) (indexers : list lidarr_IndexerOutput.t)
  (i : lidarr_IndexerOutput.t) :
  IndexerDataSource.findIndexer name indexers = Ok i ->
  exists before after,
    indexers = before ++ i :: after
    /\ lidarr_IndexerOutput.Name i = name
    /\ Forall (fun j => lidarr_IndexerOutput.Name j <> name) before.
Proof.
  induction indexers as [|j rest IH]; cbn [IndexerDataSource.findIndexer].
  - discriminate.
  - destruct (String.eqb (lidarr_IndexerOutput.Name j) name) eqn:E.
    + intro H. injection H as <-. apply String.eqb_eq in E.
      exists [], rest. repeat split; [assumption | constructor].
    + intro H. destruct (IH H) as [before [after [-> [Hn Hb]]]].
      exists (j :: before), after. repeat split; [assumption|].
      constructor; [|assumption]. now apply String.eqb_neq.
Qed.

Lemma findIndexer_Err (name : string) (indexers : list lidarr_IndexerOutput.t)
  (e : GoError) :
  IndexerDataSource.findIndexer name indexers = Err e ->
  e = ErrDataNotFoundError IndexerDataSource.indexerDataSourceName "name" name
  /\ Forall (fun j => lidarr_IndexerOutput.Name j <> name) indexers.
Proof.
  induction indexers as [|j rest IH]; cbn [IndexerDataSource.findIndexer].
  - intro H. injection H as <-. split; [reflexivity | constructor].
  - destruct (String.eqb (lidarr_IndexerOutput.Name j) name) eqn:E; [discriminate|].
    intro H. destruct (IH H) as [-> Hr]. split; [reflexivity|].
    constructor; [now apply String.eqb_neq | assumption].
Qed.

(** C10.  [findIndexer] returns the first indexer of the list whose name is
    the requested name, compared byte for byte; it returns the
    data-not-found error exactly when no indexer of the list has that
    name. *)
Theorem findIndexer_first_match (name : string) (indexers : list lidarr_IndexerOutput.t) :
  match IndexerDataSource.findIndexer name indexers with
  | Ok i =>
      exists before after,
        indexers = before ++ i :: after
        /\ lidarr_IndexerOutput.Name i = name
        /\ Forall (fun j => lidarr_IndexerOutput.Name j <> name) before
  | Err e =>
      e = ErrDataNotFoundError "indexer" "name" name
      /\ Forall (fun j => lidarr_IndexerOutput.Name j <> name) indexers
  end
  /\ ((exists e, IndexerDataSource.findIndexer name indexers = Err e)
      <-> ~ exists i, In i indexers /\ lidarr_IndexerOutput.Name i = name).
Proof.
  split.
  - destruct (IndexerDataSource.findIndexer name indexers) as [i|e] eqn:E.
    + now apply findIndexer_Ok.
    + now apply findIndexer_Err.
  - split.
    + intros [e He] [i [Hin Hn]].
      apply findIndexer_Err in He. destruct He as [_ Hall].
      rewrite Forall_forall in Hall. exact (Hall i Hin Hn).
    + intro Hno.
      destruct (IndexerDataSource.findIndexer name indexers) as [i|e] eqn:E.
      * exfalso. apply Hno. apply findIndexer_Ok in E.
        destruct E as [before [after [-> [Hn _]]]].
        exists i. split; [|assumption]. apply in_or_app. right. now left.
      * now exists e.
Qed.

End LookupProperties.

(** ** The properties at sample inputs *)

Lemma sample_read_keeps_identity : read_keeps_identity sample_methods.
Proof. intros g ds. repeat split. Qed.

(** C2 at a sample input: the create of a gotify notification with the
    sample encoder sends one request, with the pair Gotify / GotifySettings. *)
Lemma identity_pair_is_fixed_witness :
  read_keeps_identity sample_methods
  /\ one_request_with "Gotify" "GotifySettings" false
       (calls_of (run (failing refused)
          (NotificationGotifyResource.Create (GM := sample_methods)
             (decoded (sample_gotify (Known 5))) (fresh None)) tt)).
Proof.
  split.
  - exact sample_read_keeps_identity.
  - exact (proj1 (proj2 (proj2
      (identity_pair_is_fixed (GM := sample_methods) sample_read_keeps_identity
         unit (failing refused) tt)))
      (decoded (sample_gotify (Known 5))) (fresh None)).
Defined.

(** C3, the claim as stated fails: the server holds record 7; the first
    delete succeeds and removes it; the second delete of the same identifier
    is answered "not found", and [Delete] reports an error and keeps the local
    state. *)
Lemma second_Delete_reports_an_error :
  let req := decoded (sample_email 7) in
  let resp := fresh (Some (sample_email 7)) in
  let first := run store (NotificationEmailResource.Delete req resp) [7] in
  let second := run store (NotificationEmailResource.Delete req resp) (state_of first) in
  (HasError (Diagnostics (value_of first)) = false /\ State (value_of first) = None)
  /\ state_of first = []
  /\ fst (store (DeleteNotificationContext 7) (state_of first)) = Err not_found
  /\ is_not_found not_found = true
  /\ Diagnostics (value_of second)
     = [client_error "Unable to read notification_email, got error: 404 Not Found"]
  /\ ~ (HasError (Diagnostics (value_of second)) = false
        /\ State (value_of second) = None).
Proof.
  cbv zeta. repeat split; try reflexivity.
  intros [H _]. vm_compute in H. discriminate.
Qed.

(** C3 at a sample input: both answers of the remote delete. *)
Lemma Delete_follows_the_remote_answer_witness :
  delete_outcome (Ok tt) (fresh (Some (sample_email 7)))
    (value_of (run store
       (NotificationEmailResource.Delete (decoded (sample_email 7))
          (fresh (Some (sample_email 7)))) [7]))
  /\ delete_outcome (Err not_found) (fresh (Some (sample_email 7)))
    (value_of (run store
       (NotificationEmailResource.Delete (decoded (sample_email 7))
          (fresh (Some (sample_email 7)))) [])).
Proof.
  split.
  - exact (proj1 (proj2 (proj2 (Delete_follows_the_remote_answer (list Z) store [7])))
             (decoded (sample_email 7)) (fresh (Some (sample_email 7))) eq_refl).
  - exact (proj1 (proj2 (proj2 (Delete_follows_the_remote_answer (list Z) store [])))
             (decoded (sample_email 7)) (fresh (Some (sample_email 7))) eq_refl).
Defined.

(** C5, the claim as stated fails: the server does not hold record 7 and
    answers the fetch "not found"; [Read] reports an error of the same
    severity and summary as for a refused connection, and does not remove
    the local state. *)
Lemma Read_of_a_gone_record_is_an_error :
  let req := decoded (sample_email 7) in
  let resp := fresh (Some (sample_email 7)) in
  let gone := value_of (run store (NotificationEmailResource.Read
                                     (GM := sample_methods) req resp) []) in
  let down := value_of (run (failing refused) (NotificationEmailResource.Read
                                     (GM := sample_methods) req resp) tt) in
  fst (store (GetNotificationContext 7) []) = Err not_found
  /\ is_not_found not_found = true
  /\ Diagnostics gone
     = [client_error "Unable to read notification_email, got error: 404 Not Found"]
  /\ HasError (Diagnostics gone) = true
  /\ State gone = Some (sample_email 7)
  /\ Diagnostics down
     = [client_error "Unable to read notification_email, got error: connection refused"]
  /\ State down = State gone
  /\ map severity (Diagnostics gone) = map severity (Diagnostics down)
  /\ map summary (Diagnostics gone) = map summary (Diagnostics down).
Proof.
  cbv zeta. repeat split; reflexivity.
Qed.

(** C5 at a sample input. *)
Lemma Read_failure_keeps_the_state_witness :
  read_failure_outcome "Unable to read notification_email, got error: 404 Not Found"
    (fresh (Some (sample_email 7)))
    (value_of (run store
       (NotificationEmailResource.Read (GM := sample_methods) (decoded (sample_email 7))
          (fresh (Some (sample_email 7)))) [])).
Proof.
  exact (proj1 (proj2 (proj2
    (Read_failure_keeps_the_state (GM := sample_methods) (list Z) store [] not_found)))
    (decoded (sample_email 7)) (fresh (Some (sample_email 7))) eq_refl eq_refl).
Defined.

(** C6 at sample inputs: an identifier that is no number, and one that
    is. *)
Lemma ImportState_parses_the_identifier_witness :
  (strconv.Atoi "not-a-number" = inr strconv.ErrSyntax
   /\ HasError (Import_Diagnostics (value_of (run (failing refused)
        (NotificationEmailResource.ImportState (EX := sample_external)
           "not-a-number" empty_import) tt))) = true)
  /\ (strconv.Atoi "42" = inl 42
      /\ GetAttribute (Import_State (value_of (run (failing refused)
           (NotificationEmailResource.ImportState (EX := sample_external)
              "42" empty_import) tt))) "id" = Some (DInt 42)).
Proof.
  split; (split; [reflexivity|]).
  - exact (proj1 (proj2 (proj1 (proj2
      (ImportState_parses_the_identifier (EX := sample_external)
         unit (failing refused) tt "not-a-number" empty_import))
      strconv.ErrSyntax eq_refl))).
  - exact (proj2 (proj1 (proj2 (proj2
      (ImportState_parses_the_identifier (EX := sample_external)
         unit (failing refused) tt "42" empty_import)))
      42 eq_refl)).
Defined.

(** C7 at a sample input: a list of two records gives two elements and the
    identifier "2". *)
Lemma list_Read_maps_every_record_witness :
  exists data : Notifications.t,
    State (value_of (run
      (listing [lidarr_NotificationResource.NewNotificationResource;
                lidarr_NotificationResource.NewNotificationResource])
      (NotificationsDataSource.Read (GM := sample_methods)
         (decoded {| Notifications.Notifications := Null; Notifications.ID := Null |})
         (fresh None)) tt)) = Some data
    /\ Notifications.Notifications data = Known [Notification.zero; Notification.zero]
    /\ Notifications.ID data = Known "2".
Proof.
  destruct (proj1 (list_Read_maps_every_record (GM := sample_methods) unit
      (listing [lidarr_NotificationResource.NewNotificationResource;
                lidarr_NotificationResource.NewNotificationResource]) tt
      (decoded {| Notifications.Notifications := Null; Notifications.ID := Null |})
      (fresh None) eq_refl)
      [lidarr_NotificationResource.NewNotificationResource;
       lidarr_NotificationResource.NewNotificationResource] eq_refl)
    as [data [Hs [Hn [Hi _]]]].
  exists data. split; [exact Hs|]. split; [exact Hn | exact Hi].
Defined.

(** C8 at sample inputs: priority 1 is refused, priority 5 passes. *)
Lemma priority_must_be_one_of_witness :
  HasError (NotificationGotifyResource.ValidateConfig (sample_gotify (Known 1))) = true
  /\ NotificationGotifyResource.ValidateConfig (sample_gotify (Known 5)) = [].
Proof.
  split.
  - apply (proj1 (priority_must_be_one_of (sample_gotify (Known 1)) 1 eq_refl)).
    cbn [In]. lia.
  - apply (proj2 (priority_must_be_one_of (sample_gotify (Known 5)) 5 eq_refl)).
    cbn [In]. lia.
Defined.

(** C9, the claim as stated fails: [Configure] without a client handle (nil
    provider data) reports nothing and leaves the adapter without a client,
    for the email resource and for the indexer data source. *)
Lemma Configure_without_a_handle_is_silent :
  NotificationEmailResource.Configure
    {| NotificationEmailResource.client := None |} ProviderData_nil
    {| Configure_Diagnostics := [] |}
  = ({| NotificationEmailResource.client := None |}, {| Configure_Diagnostics := [] |})
  /\ IndexerDataSource.Configure
       {| IndexerDataSource.client := None |} ProviderData_nil
       {| Configure_Diagnostics := [] |}
     = ({| IndexerDataSource.client := None |}, {| Configure_Diagnostics := [] |})
  /\ HasError (Configure_Diagnostics (snd (NotificationEmailResource.Configure
       {| NotificationEmailResource.client := None |} ProviderData_nil
       {| Configure_Diagnostics := [] |}))) = false.
Proof. repeat split. Qed.

(** The look-up at sample inputs: the first of two indexers with the name
    is returned, and a name that differs in case only is not found. *)
Example findIndexer_samples :
  IndexerDataSource.findIndexer (EX := sample_external) "Filelist"
    [indexer_named 1 "Headphones"; indexer_named 2 "Filelist"; indexer_named 3 "Filelist"]
  = Ok (indexer_named 2 "Filelist")
  /\ IndexerDataSource.findIndexer (EX := sample_external) "filelist"
       [indexer_named 1 "Headphones"; indexer_named 2 "Filelist"]
     = Err (ErrDataNotFoundError (External := sample_external) "indexer" "name" "filelist").
Proof. split; reflexivity. Qed.

(** * Further properties *)

(** Proof steps shared by the properties below. *)
Ltac unfold_lifecycle :=
  unfold NotificationCustomScriptResource.Create, NotificationCustomScriptResource.Read, NotificationCustomScriptResource.Update, NotificationCustomScriptResource.Delete, NotificationGotifyResource.Create, NotificationGotifyResource.Read, NotificationGotifyResource.Update, NotificationGotifyResource.Delete, NotificationEmailResource.Create, NotificationEmailResource.Read, NotificationEmailResource.Update, NotificationEmailResource.Delete, NotificationSubsonicResource.Create, NotificationSubsonicResource.Read, NotificationSubsonicResource.Update, NotificationSubsonicResource.Delete, CustomFormatResource.Create, CustomFormatResource.Read, CustomFormatResource.Update, CustomFormatResource.Delete, NotificationsDataSource.Read, NotificationsDataSourceStarr.Read, IndexerDataSource.Read.

Ltac split_all := repeat match goal with |- _ /\ _ => split end.

Section MoreLifecycle.
Context {GM : GenericMethods} {EX : External}.

(** X1.  When the decoding of the plan or of the state reports an error, or
    the response already holds one, a lifecycle method returns at once: it
    makes no remote call, leaves the server and the state alone, and the
    response gains the diagnostics of the decoding only.  For the four
    methods of the five resources and the reads of the three data sources. *)
Theorem decode_failure_stops_the_method (S : Type) (srv : server S) (s : S) :
  (forall req resp,
      HasError (Diagnostics (Diagnostics_Append resp (Get_diags req))) = true ->
      run srv (NotificationCustomScriptResource.Create req resp) s = (Diagnostics_Append resp (Get_diags req), s, []))
  /\ (forall req resp,
      HasError (Diagnostics (Diagnostics_Append resp (Get_diags req))) = true ->
      run srv (NotificationCustomScriptResource.Read req resp) s = (Diagnostics_Append resp (Get_diags req), s, []))
  /\ (forall req resp,
      HasError (Diagnostics (Diagnostics_Append resp (Get_diags req))) = true ->
      run srv (NotificationCustomScriptResource.Update req resp) s = (Diagnostics_Append resp (Get_diags req), s, []))
  /\ (forall req resp,
      HasError (Diagnostics (Diagnostics_Append resp (Get_diags req))) = true ->
      run srv (NotificationCustomScriptResource.Delete req resp) s = (Diagnostics_Append resp (Get_diags req), s, []))
  /\ (forall req resp,
      HasError (Diagnostics (Diagnostics_Append resp (Get_diags req))) = true ->
      run srv (NotificationGotifyResource.Create req resp) s = (Diagnostics_Append resp (Get_diags req), s, []))
  /\ (forall req resp,
      HasError (Diagnostics (Diagnostics_Append resp (Get_diags req))) = true ->
      run srv (NotificationGotifyResource.Read req resp) s = (Diagnostics_Append resp (Get_diags req), s, []))
  /\ (forall req resp,
      HasError (Diagnostics (Diagnostics_Append resp (Get_diags req))) = true ->
      run srv (NotificationGotifyResource.Update req resp) s = (Diagnostics_Append resp (Get_diags req), s, []))
  /\ (forall req_id resp,
      HasError (Diagnostics (Diagnostics_Append resp (snd req_id))) = true ->
      run srv (NotificationGotifyResource.Delete req_id resp) s = (Diagnostics_Append resp (snd req_id), s, []))
  /\ (forall req resp,
      HasError (Diagnostics (Diagnostics_Append resp (Get_diags req))) = true ->
      run srv (NotificationEmailResource.Create req resp) s = (Diagnostics_Append resp (Get_diags req), s, []))
  /\ (forall req resp,
      HasError (Diagnostics (Diagnostics_Append resp (Get_diags req))) = true ->
      run srv (NotificationEmailResource.Read req resp) s = (Diagnostics_Append resp (Get_diags req), s, []))
  /\ (forall req resp,
      HasError (Diagnostics (Diagnostics_Append resp (Get_diags req))) = true ->
      run srv (NotificationEmailResource.Update req resp) s = (Diagnostics_Append resp (Get_diags req), s, []))
  /\ (forall req resp,
      HasError (Diagnostics (Diagnostics_Append resp (Get_diags req))) = true ->
      run srv (NotificationEmailResource.Delete req resp) s = (Diagnostics_Append resp (Get_diags req), s, []))
  /\ (forall req resp,
      HasError (Diagnostics (Diagnostics_Append resp (Get_diags req))) = true ->
      run srv (NotificationSubsonicResource.Create req resp) s = (Diagnostics_Append resp (Get_diags req), s, []))
  /\ (forall req resp,
      HasError (Diagnostics (Diagnostics_Append resp (Get_diags req))) = true ->
      run srv (NotificationSubsonicResource.Read req resp) s = (Diagnostics_Append resp (Get_diags req), s, []))
  /\ (forall req resp,
      HasError (Diagnostics (Diagnostics_Append resp (Get_diags req))) = true ->
      run srv (NotificationSubsonicResource.Update req resp) s = (Diagnostics_Append resp (Get_diags req), s, []))
  /\ (forall req resp,
      HasError (Diagnostics (Diagnostics_Append resp (Get_diags req))) = true ->
      run srv (NotificationSubsonicResource.Delete req resp) s = (Diagnostics_Append resp (Get_diags req), s, []))
  /\ (forall req resp,
      HasError (Diagnostics (Diagnostics_Append resp (Get_diags req))) = true ->
      run srv (CustomFormatResource.Create req resp) s = (Diagnostics_Append resp (Get_diags req), s, []))
  /\ (forall req resp,
      HasError (Diagnostics (Diagnostics_Append resp (Get_diags req))) = true ->
      run srv (CustomFormatResource.Read req resp) s = (Diagnostics_Append resp (Get_diags req), s, []))
  /\ (forall req resp,
      HasError (Diagnostics (Diagnostics_Append resp (Get_diags req))) = true ->
      run srv (CustomFormatResource.Update req resp) s = (Diagnostics_Append resp (Get_diags req), s, []))
  /\ (forall req resp,
      HasError (Diagnostics (Diagnostics_Append resp (Get_diags req))) = true ->
      run srv (CustomFormatResource.Delete req resp) s = (Diagnostics_Append resp (Get_diags req), s, []))
  /\ (forall req resp,
      HasError (Diagnostics (Diagnostics_Append resp (Get_diags req))) = true ->
      run srv (NotificationsDataSource.Read req resp) s = (Diagnostics_Append resp (Get_diags req), s, []))
  /\ (forall req resp,
      HasError (Diagnostics (Diagnostics_Append resp (Get_diags req))) = true ->
      run srv (NotificationsDataSourceStarr.Read req resp) s = (Diagnostics_Append resp (Get_diags req), s, []))
  /\ (forall req resp,
      HasError (Diagnostics (Diagnostics_Append resp (Get_diags req))) = true ->
      run srv (IndexerDataSource.Read req resp) s = (Diagnostics_Append resp (Get_diags req), s, [])).
Proof.
  split_all; intros req resp H; unfold_lifecycle; rewrite H; reflexivity.
Qed.

Lemma only_calls_nil (k : CallKind) : only_calls k [].
Proof. split; [cbn; lia | constructor]. Qed.

Lemma only_calls_one (k : CallKind) (c : ApiCall) : kind_of c = k -> only_calls k [c].
Proof. intro H. split; [cbn; lia | repeat constructor; assumption]. Qed.

Ltac finish_calls :=
  repeat match goal with
         | |- context [let '(_, _) := ?p in _] => destruct p
         | |- context [match ?x with Ok _ => _ | Err _ => _ end] => destruct x
         end;
  cbn [run value_of calls_of fst snd];
  first [apply only_calls_nil | apply only_calls_one; reflexivity].

(** X2.  A lifecycle method makes at most one remote call, of its own kind:
    [Read] only fetches, [Create] only creates, [Update] only updates and
    [Delete] only deletes, whatever the server answers. *)
Theorem every_method_calls_its_own_operation (S : Type) (srv : server S) (s : S) :
  (forall req resp, only_calls IsCreate (calls_of (run srv (NotificationCustomScriptResource.Create req resp) s)))
  /\ (forall req resp, only_calls IsFetch (calls_of (run srv (NotificationCustomScriptResource.Read req resp) s)))
  /\ (forall req resp, only_calls IsUpdate (calls_of (run srv (NotificationCustomScriptResource.Update req resp) s)))
  /\ (forall req resp, only_calls IsDelete (calls_of (run srv (NotificationCustomScriptResource.Delete req resp) s)))
  /\ (forall req resp, only_calls IsCreate (calls_of (run srv (NotificationGotifyResource.Create req resp) s)))
  /\ (forall req resp, only_calls IsFetch (calls_of (run srv (NotificationGotifyResource.Read req resp) s)))
  /\ (forall req resp, only_calls IsUpdate (calls_of (run srv (NotificationGotifyResource.Update req resp) s)))
  /\ (forall req resp, only_calls IsDelete (calls_of (run srv (NotificationGotifyResource.Delete req resp) s)))
  /\ (forall req resp, only_calls IsCreate (calls_of (run srv (NotificationEmailResource.Create req resp) s)))
  /\ (forall req resp, only_calls IsFetch (calls_of (run srv (NotificationEmailResource.Read req resp) s)))
  /\ (forall req resp, only_calls IsUpdate (calls_of (run srv (NotificationEmailResource.Update req resp) s)))
  /\ (forall req resp, only_calls IsDelete (calls_of (run srv (NotificationEmailResource.Delete req resp) s)))
  /\ (forall req resp, only_calls IsCreate (calls_of (run srv (NotificationSubsonicResource.Create req resp) s)))
  /\ (forall req resp, only_calls IsFetch (calls_of (run srv (NotificationSubsonicResource.Read req resp) s)))
  /\ (forall req resp, only_calls IsUpdate (calls_of (run srv (NotificationSubsonicResource.Update req resp) s)))
  /\ (forall req resp, only_calls IsDelete (calls_of (run srv (NotificationSubsonicResource.Delete req resp) s)))
  /\ (forall req resp, only_calls IsCreate (calls_of (run srv (CustomFormatResource.Create req resp) s)))
  /\ (forall req resp, only_calls IsFetch (calls_of (run srv (CustomFormatResource.Read req resp) s)))
  /\ (forall req resp, only_calls IsUpdate (calls_of (run srv (CustomFormatResource.Update req resp) s)))
  /\ (forall req resp, only_calls IsDelete (calls_of (run srv (CustomFormatResource.Delete req resp) s)))
  /\ (forall req resp, only_calls IsFetch (calls_of (run srv (NotificationsDataSource.Read req resp) s)))
  /\ (forall req resp, only_calls IsFetch (calls_of (run srv (NotificationsDataSourceStarr.Read req resp) s)))
  /\ (forall req resp, only_calls IsFetch (calls_of (run srv (IndexerDataSource.Read req resp) s))).
Proof.
  split_all; intros req resp; unfold_lifecycle;
    (destruct (HasError _); [apply only_calls_nil|]);
    repeat match goal with
           | |- context [let '(_, _) := ?p in _] => destruct p
           end;
    rewrite calls_of_Call;
    match goal with
    | |- context [fst (?srv ?c ?s)] => destruct (fst (srv c s))
    end;
    finish_calls.
Qed.

(** X3.  When the remote call of a create or of an update fails, the method
    adds one client error labelled with its own operation, the resource kind
    and the remote error text, and leaves the state of the response as it
    was. *)
Theorem failed_create_or_update_keeps_the_state (S : Type) (srv : server S) (s : S)
  (e : GoError) :
  (forall req resp,
      HasError (Diagnostics (Diagnostics_Append resp (Get_diags req))) = false ->
      fst (srv (CreateNotification (NotificationCustomScript.read (Get_target req))) s)
        = Err e ->
      call_failure_outcome
        ("Unable to create notification_custom_script, got error: " ++ ErrorText e)
        (Diagnostics (Diagnostics_Append resp (Get_diags req))) resp
        (value_of (run srv (NotificationCustomScriptResource.Create req resp) s)))
  /\ (forall req resp,
      HasError (Diagnostics (Diagnostics_Append resp (Get_diags req))) = false ->
      fst (srv (UpdateNotification
                  (strconv.Itoa (lidarr_NotificationResource.GetId
                                   (NotificationCustomScript.read (Get_target req))))
                  (NotificationCustomScript.read (Get_target req))) s)
        = Err e ->
      call_failure_outcome
        ("Unable to update notification_custom_script, got error: " ++ ErrorText e)
        (Diagnostics (Diagnostics_Append resp (Get_diags req))) resp
        (value_of (run srv (NotificationCustomScriptResource.Update req resp) s)))
  /\ (forall req resp,
      HasError (Diagnostics (Diagnostics_Append resp (Get_diags req))) = false ->
      fst (srv (CreateNotification
                  (fst (NotificationGotify.read (Get_target req)
                          (Diagnostics (Diagnostics_Append resp (Get_diags req)))))) s)
        = Err e ->
      call_failure_outcome
        ("Unable to create notification_gotify, got error: " ++ ErrorText e)
        (snd (NotificationGotify.read (Get_target req)
                (Diagnostics (Diagnostics_Append resp (Get_diags req))))) resp
        (value_of (run srv (NotificationGotifyResource.Create req resp) s)))
  /\ (forall req resp,
      HasError (Diagnostics (Diagnostics_Append resp (Get_diags req))) = false ->
      fst (srv (UpdateNotificationInt32
                  (lidarr_NotificationResource.GetId
                     (fst (NotificationGotify.read (Get_target req)
                             (Diagnostics (Diagnostics_Append resp (Get_diags req))))))
                  (fst (NotificationGotify.read (Get_target req)
                          (Diagnostics (Diagnostics_Append resp (Get_diags req)))))) s)
        = Err e ->
      call_failure_outcome
        ("Unable to update notification_gotify, got error: " ++ ErrorText e)
        (snd (NotificationGotify.read (Get_target req)
                (Diagnostics (Diagnostics_Append resp (Get_diags req))))) resp
        (value_of (run srv (NotificationGotifyResource.Update req resp) s)))
  /\ (forall req resp,
      HasError (Diagnostics (Diagnostics_Append resp (Get_diags req))) = false ->
      fst (srv (AddNotificationContext (NotificationEmail.read (Get_target req))) s)
        = Err e ->
      call_failure_outcome
        ("Unable to create notification_email, got error: " ++ ErrorText e)
        (Diagnostics (Diagnostics_Append resp (Get_diags req))) resp
        (value_of (run srv (NotificationEmailResource.Create req resp) s)))
  /\ (forall req resp,
      HasError (Diagnostics (Diagnostics_Append resp (Get_diags req))) = false ->
      fst (srv (UpdateNotificationContext (NotificationEmail.read (Get_target req))) s)
        = Err e ->
      call_failure_outcome
        ("Unable to update notification_email, got error: " ++ ErrorText e)
        (Diagnostics (Diagnostics_Append resp (Get_diags req))) resp
        (value_of (run srv (NotificationEmailResource.Update req resp) s)))
  /\ (forall req resp,
      HasError (Diagnostics (Diagnostics_Append resp (Get_diags req))) = false ->
      fst (srv (CreateNotification (NotificationSubsonic.read (Get_target req))) s)
        = Err e ->
      call_failure_outcome
        ("Unable to create notification_subsonic, got error: " ++ ErrorText e)
        (Diagnostics (Diagnostics_Append resp (Get_diags req))) resp
        (value_of (run srv (NotificationSubsonicResource.Create req resp) s)))
  /\ (forall req resp,
      HasError (Diagnostics (Diagnostics_Append resp (Get_diags req))) = false ->
      fst (srv (UpdateNotification
                  (strconv.Itoa (lidarr_NotificationResource.GetId
                                   (NotificationSubsonic.read (Get_target req))))
                  (NotificationSubsonic.read (Get_target req))) s)
        = Err e ->
      call_failure_outcome
        ("Unable to update notification_subsonic, got error: " ++ ErrorText e)
        (Diagnostics (Diagnostics_Append resp (Get_diags req))) resp
        (value_of (run srv (NotificationSubsonicResource.Update req resp) s)))
  /\ (forall req resp,
      HasError (Diagnostics (Diagnostics_Append resp (Get_diags req))) = false ->
      fst (srv (CreateCustomFormat (CustomFormat.read (Get_target req))) s) = Err e ->
      call_failure_outcome
        ("Unable to create custom_format, got error: " ++ ErrorText e)
        (Diagnostics (Diagnostics_Append resp (Get_diags req))) resp
        (value_of (run srv (CustomFormatResource.Create req resp) s)))
  /\ (forall req resp,
      HasError (Diagnostics (Diagnostics_Append resp (Get_diags req))) = false ->
      fst (srv (UpdateCustomFormat
                  (strconv.Itoa (lidarr_CustomFormatResource.GetId
                                   (CustomFormat.read (Get_target req))))
                  (CustomFormat.read (Get_target req))) s)
        = Err e ->
      call_failure_outcome
        ("Unable to update custom_format, got error: " ++ ErrorText e)
        (Diagnostics (Diagnostics_Append resp (Get_diags req))) resp
        (value_of (run srv (CustomFormatResource.Update req resp) s))).
Proof.
  split_all; intros req resp Hd Ha; unfold_lifecycle; rewrite Hd;
    try (destruct (NotificationGotify.read _ _) as [request diags]; cbn [fst snd] in * );
    rewrite value_of_Call, Ha; cbn [run value_of fst];
    unfold call_failure_outcome; cbn [Diagnostics_AddError Diagnostics State];
    (split; [reflexivity | split; [apply HasError_AddError | reflexivity]]).
Qed.

(** X4.  For the email, subsonic and custom format resources the state a
    successful [Read] stores is the state a successful [Create] or [Update]
    stored, whenever the server answers both with the same record: the state
    is written from the remote record alone, whatever the plan and the prior
    state hold. *)
Theorem refresh_stores_what_create_stored (S : Type) (srv : server S) (s s' : S) :
  (forall plan prior resp resp' (r : lidarr_NotificationOutput.t),
      HasError (Diagnostics (Diagnostics_Append resp (Get_diags plan))) = false ->
      HasError (Diagnostics (Diagnostics_Append resp' (Get_diags prior))) = false ->
      fst (srv (AddNotificationContext (NotificationEmail.read (Get_target plan))) s)
        = Ok r ->
      fst (srv (GetNotificationContext
                  (ValueInt64 (NotificationEmail.ID (Get_target prior)))) s') = Ok r ->
      State (value_of (run srv (NotificationEmailResource.Read prior resp') s'))
      = State (value_of (run srv (NotificationEmailResource.Create plan resp) s)))
  /\ (forall plan prior resp resp' (r : lidarr_NotificationResource.t),
      HasError (Diagnostics (Diagnostics_Append resp (Get_diags plan))) = false ->
      HasError (Diagnostics (Diagnostics_Append resp' (Get_diags prior))) = false ->
      fst (srv (CreateNotification (NotificationSubsonic.read (Get_target plan))) s)
        = Ok r ->
      fst (srv (GetNotificationById
                  (int32 (ValueInt64 (NotificationSubsonic.ID (Get_target prior))))) s')
        = Ok r ->
      State (value_of (run srv (NotificationSubsonicResource.Read prior resp') s'))
      = State (value_of (run srv (NotificationSubsonicResource.Create plan resp) s)))
  /\ (forall plan prior resp resp' (r : lidarr_CustomFormatResource.t),
      HasError (Diagnostics (Diagnostics_Append resp (Get_diags plan))) = false ->
      HasError (Diagnostics (Diagnostics_Append resp' (Get_diags prior))) = false ->
      fst (srv (CreateCustomFormat (CustomFormat.read (Get_target plan))) s) = Ok r ->
      fst (srv (GetCustomFormatById
                  (int32 (ValueInt64 (CustomFormat.ID (Get_target prior))))) s') = Ok r ->
      State (value_of (run srv (CustomFormatResource.Read prior resp') s'))
      = State (value_of (run srv (CustomFormatResource.Create plan resp) s)))
  /\ (forall plan prior resp resp' (r : lidarr_NotificationOutput.t),
      HasError (Diagnostics (Diagnostics_Append resp (Get_diags plan))) = false ->
      HasError (Diagnostics (Diagnostics_Append resp' (Get_diags prior))) = false ->
      fst (srv (UpdateNotificationContext (NotificationEmail.read (Get_target plan))) s)
        = Ok r ->
      fst (srv (GetNotificationContext
                  (ValueInt64 (NotificationEmail.ID (Get_target prior)))) s') = Ok r ->
      State (value_of (run srv (NotificationEmailResource.Read prior resp') s'))
      = State (value_of (run srv (NotificationEmailResource.Update plan resp) s)))
  /\ (forall plan prior resp resp' (r : lidarr_NotificationResource.t),
      HasError (Diagnostics (Diagnostics_Append resp (Get_diags plan))) = false ->
      HasError (Diagnostics (Diagnostics_Append resp' (Get_diags prior))) = false ->
      fst (srv (UpdateNotification
                  (strconv.Itoa (lidarr_NotificationResource.GetId
                                   (NotificationSubsonic.read (Get_target plan))))
                  (NotificationSubsonic.read (Get_target plan))) s) = Ok r ->
      fst (srv (GetNotificationById
                  (int32 (ValueInt64 (NotificationSubsonic.ID (Get_target prior))))) s')
        = Ok r ->
      State (value_of (run srv (NotificationSubsonicResource.Read prior resp') s'))
      = State (value_of (run srv (NotificationSubsonicResource.Update plan resp) s)))
  /\ (forall plan prior resp resp' (r : lidarr_CustomFormatResource.t),
      HasError (Diagnostics (Diagnostics_Append resp (Get_diags plan))) = false ->
      HasError (Diagnostics (Diagnostics_Append resp' (Get_diags prior))) = false ->
      fst (srv (UpdateCustomFormat
                  (strconv.Itoa (lidarr_CustomFormatResource.GetId
                                   (CustomFormat.read (Get_target plan))))
                  (CustomFormat.read (Get_target plan))) s) = Ok r ->
      fst (srv (GetCustomFormatById
                  (int32 (ValueInt64 (CustomFormat.ID (Get_target prior))))) s') = Ok r ->
      State (value_of (run srv (CustomFormatResource.Read prior resp') s'))
      = State (value_of (run srv (CustomFormatResource.Update plan resp) s))).
Proof.
  split_all; intros plan prior resp resp' r Hp Hq Hc Hg; unfold_lifecycle;
    rewrite Hp, Hq, !value_of_Call, Hc, Hg; cbn [run value_of fst State_Set
      Diagnostics_Append State]; reflexivity.
Qed.

Lemma int32_bounds (z : Z) : - 2 ^ 31 <= int32 z < 2 ^ 31.
Proof. unfold int32. pose proof (Z.mod_pos_bound (z + 2 ^ 31) (2 ^ 32)). lia. Qed.

Lemma int32_in_range (z : Z) : - 2 ^ 31 <= z < 2 ^ 31 -> int32 z = z.
Proof. intro H. unfold int32. rewrite Z.mod_small; lia. Qed.

Lemma int32_congruent (z : Z) : (int32 z - z) mod 2 ^ 32 = 0.
Proof.
  unfold int32. rewrite (Z.mod_eq (z + 2 ^ 31)) by lia.
  replace (z + 2 ^ 31 - 2 ^ 32 * ((z + 2 ^ 31) / 2 ^ 32) - 2 ^ 31 - z)
    with (- ((z + 2 ^ 31) / 2 ^ 32) * 2 ^ 32) by ring.
  apply Z.mod_mul. lia.
Qed.

Lemma int32_wraps (z : Z) : int32 (z + 2 ^ 32) = int32 z.
Proof.
  unfold int32. replace (z + 2 ^ 32 + 2 ^ 31) with (z + 2 ^ 31 + 1 * 2 ^ 32) by lia.
  now rewrite Z.mod_add by lia.
Qed.

(** X5.  The subsonic, custom script, gotify and custom format resources
    key the fetch and the delete by the 32-bit conversion of the identifier
    in the state.  For each of the eight methods: the one call carries a key
    that fits 32 bits and is congruent to the identifier modulo 2^32, which
    is the identifier itself when it fits 32 bits; and two identifiers that
    differ by 2^32 give the same call.  The email resource passes the
    identifier as it is. *)
Theorem remote_identifier_is_32_bit (S : Type) (srv : server S) (s : S) :
  (forall req resp,
      HasError (Diagnostics (Diagnostics_Append resp (Get_diags req))) = false ->
      exists key,
        calls_of (run srv (NotificationSubsonicResource.Read req resp) s) = [GetNotificationById key]
        /\ - 2 ^ 31 <= key < 2 ^ 31
        /\ (key - ValueInt64 (NotificationSubsonic.ID (Get_target req))) mod 2 ^ 32 = 0
        /\ (- 2 ^ 31 <= ValueInt64 (NotificationSubsonic.ID (Get_target req)) < 2 ^ 31 -> key = ValueInt64 (NotificationSubsonic.ID (Get_target req))))
  /\ (forall req req' resp,
      HasError (Diagnostics (Diagnostics_Append resp (Get_diags req))) = false ->
      Get_diags req' = Get_diags req ->
      ValueInt64 (NotificationSubsonic.ID (Get_target req')) = ValueInt64 (NotificationSubsonic.ID (Get_target req)) + 2 ^ 32 ->
      calls_of (run srv (NotificationSubsonicResource.Read req' resp) s)
      = calls_of (run srv (NotificationSubsonicResource.Read req resp) s))
  /\ (forall req resp,
      HasError (Diagnostics (Diagnostics_Append resp (Get_diags req))) = false ->
      exists key,
        calls_of (run srv (NotificationSubsonicResource.Delete req resp) s) = [DeleteNotification key]
        /\ - 2 ^ 31 <= key < 2 ^ 31
        /\ (key - ValueInt64 (NotificationSubsonic.ID (Get_target req))) mod 2 ^ 32 = 0
        /\ (- 2 ^ 31 <= ValueInt64 (NotificationSubsonic.ID (Get_target req)) < 2 ^ 31 -> key = ValueInt64 (NotificationSubsonic.ID (Get_target req))))
  /\ (forall req req' resp,
      HasError (Diagnostics (Diagnostics_Append resp (Get_diags req))) = false ->
      Get_diags req' = Get_diags req ->
      ValueInt64 (NotificationSubsonic.ID (Get_target req')) = ValueInt64 (NotificationSubsonic.ID (Get_target req)) + 2 ^ 32 ->
      calls_of (run srv (NotificationSubsonicResource.Delete req' resp) s)
      = calls_of (run srv (NotificationSubsonicResource.Delete req resp) s))
  /\ (forall req resp,
      HasError (Diagnostics (Diagnostics_Append resp (Get_diags req))) = false ->
      exists key,
        calls_of (run srv (NotificationCustomScriptResource.Read req resp) s) = [GetNotificationById key]
        /\ - 2 ^ 31 <= key < 2 ^ 31
        /\ (key - ValueInt64 (NotificationCustomScript.ID (Get_target req))) mod 2 ^ 32 = 0
        /\ (- 2 ^ 31 <= ValueInt64 (NotificationCustomScript.ID (Get_target req)) < 2 ^ 31 -> key = ValueInt64 (NotificationCustomScript.ID (Get_target req))))
  /\ (forall req req' resp,
      HasError (Diagnostics (Diagnostics_Append resp (Get_diags req))) = false ->
      Get_diags req' = Get_diags req ->
      ValueInt64 (NotificationCustomScript.ID (Get_target req')) = ValueInt64 (NotificationCustomScript.ID (Get_target req)) + 2 ^ 32 ->
      calls_of (run srv (NotificationCustomScriptResource.Read req' resp) s)
      = calls_of (run srv (NotificationCustomScriptResource.Read req resp) s))
  /\ (forall req resp,
      HasError (Diagnostics (Diagnostics_Append resp (Get_diags req))) = false ->
      exists key,
        calls_of (run srv (NotificationCustomScriptResource.Delete req resp) s) = [DeleteNotification key]
        /\ - 2 ^ 31 <= key < 2 ^ 31
        /\ (key - ValueInt64 (NotificationCustomScript.ID (Get_target req))) mod 2 ^ 32 = 0
        /\ (- 2 ^ 31 <= ValueInt64 (NotificationCustomScript.ID (Get_target req)) < 2 ^ 31 -> key = ValueInt64 (NotificationCustomScript.ID (Get_target req))))
  /\ (forall req req' resp,
      HasError (Diagnostics (Diagnostics_Append resp (Get_diags req))) = false ->
      Get_diags req' = Get_diags req ->
      ValueInt64 (NotificationCustomScript.ID (Get_target req')) = ValueInt64 (NotificationCustomScript.ID (Get_target req)) + 2 ^ 32 ->
      calls_of (run srv (NotificationCustomScriptResource.Delete req' resp) s)
      = calls_of (run srv (NotificationCustomScriptResource.Delete req resp) s))
  /\ (forall req resp,
      HasError (Diagnostics (Diagnostics_Append resp (Get_diags req))) = false ->
      exists key,
        calls_of (run srv (NotificationGotifyResource.Read req resp) s) = [GetNotificationById key]
        /\ - 2 ^ 31 <= key < 2 ^ 31
        /\ (key - ValueInt64 (NotificationGotify.ID (Get_target req))) mod 2 ^ 32 = 0
        /\ (- 2 ^ 31 <= ValueInt64 (NotificationGotify.ID (Get_target req)) < 2 ^ 31 -> key = ValueInt64 (NotificationGotify.ID (Get_target req))))
  /\ (forall req req' resp,
      HasError (Diagnostics (Diagnostics_Append resp (Get_diags req))) = false ->
      Get_diags req' = Get_diags req ->
      ValueInt64 (NotificationGotify.ID (Get_target req')) = ValueInt64 (NotificationGotify.ID (Get_target req)) + 2 ^ 32 ->
      calls_of (run srv (NotificationGotifyResource.Read req' resp) s)
      = calls_of (run srv (NotificationGotifyResource.Read req resp) s))
  /\ (forall req resp,
      HasError (Diagnostics (Diagnostics_Append resp (snd req))) = false ->
      exists key,
        calls_of (run srv (NotificationGotifyResource.Delete req resp) s) = [DeleteNotification key]
        /\ - 2 ^ 31 <= key < 2 ^ 31
        /\ (key - fst req) mod 2 ^ 32 = 0
        /\ (- 2 ^ 31 <= fst req < 2 ^ 31 -> key = fst req))
  /\ (forall req req' resp,
      HasError (Diagnostics (Diagnostics_Append resp (snd req))) = false ->
      snd req' = snd req ->
      fst req' = fst req + 2 ^ 32 ->
      calls_of (run srv (NotificationGotifyResource.Delete req' resp) s)
      = calls_of (run srv (NotificationGotifyResource.Delete req resp) s))
  /\ (forall req resp,
      HasError (Diagnostics (Diagnostics_Append resp (Get_diags req))) = false ->
      exists key,
        calls_of (run srv (CustomFormatResource.Read req resp) s) = [GetCustomFormatById key]
        /\ - 2 ^ 31 <= key < 2 ^ 31
        /\ (key - ValueInt64 (CustomFormat.ID (Get_target req))) mod 2 ^ 32 = 0
        /\ (- 2 ^ 31 <= ValueInt64 (CustomFormat.ID (Get_target req)) < 2 ^ 31 -> key = ValueInt64 (CustomFormat.ID (Get_target req))))
  /\ (forall req req' resp,
      HasError (Diagnostics (Diagnostics_Append resp (Get_diags req))) = false ->
      Get_diags req' = Get_diags req ->
      ValueInt64 (CustomFormat.ID (Get_target req')) = ValueInt64 (CustomFormat.ID (Get_target req)) + 2 ^ 32 ->
      calls_of (run srv (CustomFormatResource.Read req' resp) s)
      = calls_of (run srv (CustomFormatResource.Read req resp) s))
  /\ (forall req resp,
      HasError (Diagnostics (Diagnostics_Append resp (Get_diags req))) = false ->
      exists key,
        calls_of (run srv (CustomFormatResource.Delete req resp) s) = [DeleteCustomFormat key]
        /\ - 2 ^ 31 <= key < 2 ^ 31
        /\ (key - ValueInt64 (CustomFormat.ID (Get_target req))) mod 2 ^ 32 = 0
        /\ (- 2 ^ 31 <= ValueInt64 (CustomFormat.ID (Get_target req)) < 2 ^ 31 -> key = ValueInt64 (CustomFormat.ID (Get_target req))))
  /\ (forall req req' resp,
      HasError (Diagnostics (Diagnostics_Append resp (Get_diags req))) = false ->
      Get_diags req' = Get_diags req ->
      ValueInt64 (CustomFormat.ID (Get_target req')) = ValueInt64 (CustomFormat.ID (Get_target req)) + 2 ^ 32 ->
      calls_of (run srv (CustomFormatResource.Delete req' resp) s)
      = calls_of (run srv (CustomFormatResource.Delete req resp) s))
  /\ (forall req resp,
      HasError (Diagnostics (Diagnostics_Append resp (Get_diags req))) = false ->
      calls_of (run srv (NotificationEmailResource.Read req resp) s)
      = [GetNotificationContext (ValueInt64 (NotificationEmail.ID (Get_target req)))]
      /\ calls_of (run srv (NotificationEmailResource.Delete req resp) s)
      = [DeleteNotificationContext (ValueInt64 (NotificationEmail.ID (Get_target req)))]).
Proof.
  split_all.
  all: try (intros req req' resp Hd Hg Hi; unfold_lifecycle;
            rewrite Hg, Hd, Hi, int32_wraps, !calls_of_Call;
            match goal with
            | |- context [fst (?srv ?c ?s)] => destruct (fst (srv c s))
            end;
            repeat match goal with
                   | |- context [let '(_, _) := ?p in _] => destruct p
                   end; reflexivity).
  all: try (intros req resp Hd; unfold_lifecycle; rewrite Hd;
            eexists; split;
            [after_call;
             repeat match goal with
                    | |- context [let '(_, _) := ?p in _] => destruct p
                    end; reflexivity|];
            split; [apply int32_bounds|];
            split; [apply int32_congruent | apply int32_in_range]).
  intros req resp Hd. unfold_lifecycle. rewrite Hd. split; after_call; reflexivity.
Qed.


(** X7.  When the listing call of the notifications data source fails, [Read]
    adds one client error labelled "read notifications" with the remote error
    text and sets no state, in both versions of the data source. *)
Theorem list_Read_failure_keeps_the_state (S : Type) (srv : server S) (s : S)
  (e : GoError) (req : Data Notifications.t) (resp : Response Notifications.t) :
  HasError (Diagnostics (Diagnostics_Append resp (Get_diags req))) = false ->
  (fst (srv ListNotification s) = Err e ->
   call_failure_outcome ("Unable to read notifications, got error: " ++ ErrorText e)
     (Diagnostics (Diagnostics_Append resp (Get_diags req))) resp
     (value_of (run srv (NotificationsDataSource.Read req resp) s)))
  /\ (fst (srv GetNotificationsContext s) = Err e ->
   call_failure_outcome ("Unable to read notifications, got error: " ++ ErrorText e)
     (Diagnostics (Diagnostics_Append resp (Get_diags req))) resp
     (value_of (run srv (NotificationsDataSourceStarr.Read req resp) s))).
Proof.
  intro Hd. split; intro Ha; unfold_lifecycle; rewrite Hd, value_of_Call, Ha;
    cbn [run value_of fst]; unfold call_failure_outcome;
    cbn [Diagnostics_AddError Diagnostics State];
    (split; [reflexivity | split; [apply HasError_AddError | reflexivity]]).
Qed.

(** X9.  The look-up in two lists, one after the other, is the look-up in the
    first, and in the second only when the first has no indexer of the
    name. *)
Theorem findIndexer_app (name : string) (l1 l2 : list lidarr_IndexerOutput.t) :
  IndexerDataSource.findIndexer name (l1 ++ l2)
  = match IndexerDataSource.findIndexer name l1 with
    | Ok i => Ok i
    | Err _ => IndexerDataSource.findIndexer name l2
    end.
Proof.
  induction l1 as [|j rest IH]; cbn [IndexerDataSource.findIndexer List.app].
  - reflexivity.
  - destruct (String.eqb (lidarr_IndexerOutput.Name j) name); [reflexivity | exact IH].
Qed.

Lemma findIndexer_none (name : string) (l : list lidarr_IndexerOutput.t) :
  Forall (fun j => lidarr_IndexerOutput.Name j <> name) l ->
  IndexerDataSource.findIndexer name l
  = Err (ErrDataNotFoundError IndexerDataSource.indexerDataSourceName "name" name).
Proof.
  induction 1 as [|j rest Hj _ IH]; cbn [IndexerDataSource.findIndexer].
  - reflexivity.
  - apply String.eqb_neq in Hj. now rewrite Hj.
Qed.

Lemma findIndexer_at (name : string) (before after : list lidarr_IndexerOutput.t)
  (i : lidarr_IndexerOutput.t) :
  Forall (fun j => lidarr_IndexerOutput.Name j <> name) before ->
  lidarr_IndexerOutput.Name i = name ->
  IndexerDataSource.findIndexer name (before ++ i :: after) = Ok i.
Proof.
  intros Hb Hi. induction Hb as [|j rest Hj _ IH];
    cbn [IndexerDataSource.findIndexer List.app].
  - apply String.eqb_eq in Hi. now rewrite Hi.
  - apply String.eqb_neq in Hj. now rewrite Hj.
Qed.

(** X8.  The three outcomes of the read of the indexer data source, once its
    data decode: a failed listing adds a client error; a listing with no
    indexer of the requested name adds a data source error that carries the
    not-found error, and sets no state; a listing with one writes the first
    indexer of that name into the state and adds nothing. *)
Theorem indexer_Read_outcomes (S : Type) (srv : server S) (s : S)
  (resp_State : Data Indexer) (resp : Response Indexer) :
  HasError (Diagnostics (Diagnostics_Append resp (Get_diags resp_State))) = false ->
  let name := ValueString (Indexer_Name (Get_target resp_State)) in
  let base := Diagnostics (Diagnostics_Append resp (Get_diags resp_State)) in
  let out := value_of (run srv (IndexerDataSource.Read resp_State resp) s) in
  (forall e, fst (srv GetIndexersContext s) = Err e ->
     Diagnostics out
     = AddError base ClientError ("Unable to read indexer, got error: " ++ ErrorText e)
     /\ State out = State resp)
  /\ (forall response, fst (srv GetIndexersContext s) = Ok response ->
     Forall (fun j => lidarr_IndexerOutput.Name j <> name) response ->
     Diagnostics out
     = AddError base DataSourceError
         ("Unable to find indexer, got error: "
          ++ ErrorText (ErrDataNotFoundError "indexer" "name" name))
     /\ HasError (Diagnostics out) = true
     /\ State out = State resp)
  /\ (forall before i after, fst (srv GetIndexersContext s) = Ok (before ++ i :: after) ->
     Forall (fun j => lidarr_IndexerOutput.Name j <> name) before ->
     lidarr_IndexerOutput.Name i = name ->
     Diagnostics out = base
     /\ State out = Some (Indexer_write (Get_target resp_State) i)).
Proof.
  intro Hd. cbv zeta. unfold IndexerDataSource.Read. rewrite Hd, value_of_Call.
  split; [|split].
  - intros e Ha. rewrite Ha. cbn [run value_of fst]. split; reflexivity.
  - intros response Ha Hn. rewrite Ha, (findIndexer_none _ _ Hn).
    cbn [run value_of fst Diagnostics_AddError Diagnostics State].
    split; [reflexivity | split; [apply HasError_AddError | reflexivity]].
  - intros before i after Ha Hb Hi. rewrite Ha, (findIndexer_at _ _ _ _ Hb Hi).
    cbn [run value_of fst]. split; reflexivity.
Qed.

(** X10.  Importing the decimal text [Itoa] writes for an identifier sets the
    attribute [id] to that identifier, reports nothing and calls nothing, for
    every identifier in the range of [int]. *)
Theorem ImportState_reads_back_Itoa (S : Type) (srv : server S) (s : S) (id : Z)
  (resp : ImportStateResponse) :
  strconv.minInt <= id <= strconv.maxInt ->
  let out := run srv (NotificationEmailResource.ImportState (strconv.Itoa id) resp) s in
  Import_Diagnostics (value_of out) = Import_Diagnostics resp
  /\ GetAttribute (Import_State (value_of out)) "id" = Some (DInt id)
  /\ calls_of out = [].
Proof.
  intro Hr. cbv zeta. unfold NotificationEmailResource.ImportState.
  rewrite (Atoi_Itoa id Hr). cbn [run value_of calls_of fst snd]. repeat split.
Qed.

(** X11.  On a response without error, the import succeeds exactly when the
    identifier is decimal text (an optional sign, then digits) whose value
    fits [int], and then the attribute [id] is that value. *)
Theorem ImportState_accepts_decimal_text_in_range (S : Type) (srv : server S) (s : S)
  (req_ID : string) (resp : ImportStateResponse) :
  HasError (Import_Diagnostics resp) = false ->
  let out := value_of (run srv (NotificationEmailResource.ImportState req_ID resp) s) in
  (HasError (Import_Diagnostics out) = false
   <-> decimal_text req_ID = true
       /\ strconv.minInt <= decimal_value req_ID <= strconv.maxInt)
  /\ (HasError (Import_Diagnostics out) = false ->
      GetAttribute (Import_State out) "id" = Some (DInt (decimal_value req_ID))).
Proof.
  intro Hr. cbv zeta. unfold NotificationEmailResource.ImportState.
  destruct (decimal_text req_ID) eqn:Ht.
  - rewrite (Atoi_decimal_value _ Ht).
    destruct ((strconv.minInt <=? decimal_value req_ID)
              && (decimal_value req_ID <=? strconv.maxInt)) eqn:Hb;
      cbn [run value_of fst Import_Diagnostics Import_State Append].
    + apply andb_prop in Hb. destruct Hb as [H1 H2].
      apply Z.leb_le in H1. apply Z.leb_le in H2.
      split; [split; [intros _; split; [reflexivity | lia] | intros _; exact Hr]|].
      intros _. reflexivity.
    + rewrite HasError_AddError. split; [split|]; try discriminate.
      intros [_ [H1 H2]]. apply Z.leb_le in H1. apply Z.leb_le in H2.
      rewrite H1, H2 in Hb. discriminate.
  - destruct (Atoi_rejects _ Ht) as [e He]. rewrite He.
    cbn [run value_of fst Import_Diagnostics Import_State].
    rewrite HasError_AddError. split; [split|]; try discriminate.
    intros [H _]. discriminate.
Qed.

End MoreLifecycle.

Lemma ValidateConfig_checks_priority (n : NotificationGotify.t) :
  NotificationGotifyResource.ValidateConfig n
  = schema.ValidateInt64 (schema.OneOf [0; 2; 5; 8]) "priority"
      (NotificationGotify.Priority n).
Proof.
  unfold NotificationGotifyResource.ValidateConfig, schema.ValidateInt64Attributes.
  cbn [NotificationGotifyResource.Schema flat_map fst snd schema.Kind
       NotificationGotifyResource.flag List.app].
  unfold NotificationGotifyResource.Int64_attribute. cbn [String.eqb Ascii.eqb Bool.eqb].
  cbn [flat_map List.app]. rewrite !List.app_nil_r. reflexivity.
Qed.

(** X12.  In the schema of the gotify notification [priority] is the only
    attribute that declares validators, and it declares the one validator
    [OneOf(0, 2, 5, 8)].  The validators of the schema, run on a
    configuration, report an error exactly when the priority is a known
    value outside 0, 2, 5, 8; whatever they report is an error; and on a null
    or unknown priority they report nothing.  This is about the validators
    alone: that an attribute is required, or computed only, is declared by
    the schema but checked by no validator. *)
Theorem validators_reject_exactly_a_foreign_priority (n : NotificationGotify.t) :
  let reported :=
    schema.ValidateInt64Attributes NotificationGotifyResource.Schema
      NotificationGotifyResource.Int64_attribute n in
  (forall name a validators useStateForUnknown,
      In (name, a) NotificationGotifyResource.Schema ->
      schema.Kind a = schema.Int64Attribute validators useStateForUnknown ->
      validators <> [] ->
      name = "priority" /\ validators = [schema.OneOf [0; 2; 5; 8]])
  /\ (HasError reported = true
      <-> exists z, NotificationGotify.Priority n = Known z /\ ~ In z [0; 2; 5; 8])
  /\ (reported <> [] -> HasError reported = true)
  /\ (NotificationGotify.Priority n = Null \/ NotificationGotify.Priority n = Unknown ->
      reported = []).
Proof.
  cbv zeta. split.
  { intros name a validators u Hin Hk Hv.
    unfold NotificationGotifyResource.Schema in Hin. cbn [In] in Hin.
    repeat (destruct Hin as [Hin|Hin];
            [injection Hin as <- <-; cbn in Hk; try discriminate Hk;
             injection Hk as <- <-; first [now split | congruence]|]).
    destruct Hin. }
  change (schema.ValidateInt64Attributes NotificationGotifyResource.Schema
            NotificationGotifyResource.Int64_attribute n)
    with (NotificationGotifyResource.ValidateConfig n).
  rewrite ValidateConfig_checks_priority. unfold schema.ValidateInt64.
  destruct (NotificationGotify.Priority n) as [| |z].
  - split; [split; [discriminate | intros [z [H _]]; discriminate]|].
    split; [congruence | reflexivity].
  - split; [split; [discriminate | intros [z [H _]]; discriminate]|].
    split; [congruence | reflexivity].
  - destruct (existsb (Z.eqb z) [0; 2; 5; 8]) eqn:He.
    + split; [split; [discriminate|]|split; [congruence | intros [H|H]; discriminate]].
      intros [z' [Hz Hn]]. injection Hz as <-. exfalso. apply Hn.
      apply existsb_exists in He. destruct He as [x [Hin Hx]].
      apply Z.eqb_eq in Hx. now subst.
    + split; [split; [intros _|reflexivity]|split; [reflexivity | intros [H|H]; discriminate]].
      exists z. split; [reflexivity|]. intro Hin.
      assert (Ht : existsb (Z.eqb z) [0; 2; 5; 8] = true).
      { apply existsb_exists. exists z. split; [assumption | apply Z.eqb_refl]. }
      congruence.
Qed.

Section CustomFormatProperties.
Context {GM : GenericMethods}.

(** X13.  A custom format whose attributes are all known and whose identifier
    fits 32 bits is read back unchanged from the request it is written to,
    provided each of its conditions is read back unchanged by the codec of
    conditions. *)
Theorem custom_format_round_trip (c0 : CustomFormat.t) (name : string) (id : Z)
  (include : bool) (specs : list CustomFormatCondition.t) :
  - 2 ^ 31 <= id < 2 ^ 31 ->
  Forall (fun x => CustomFormatCondition_write CustomFormat.zero_condition
                     (CustomFormatCondition_read x) = x) specs ->
  CustomFormat.write c0
    (CustomFormat.read
       {| CustomFormat.Specifications := Known specs;
          CustomFormat.Name := Known name;
          CustomFormat.ID := Known id;
          CustomFormat.IncludeCustomFormatWhenRenaming := Known include |})
  = {| CustomFormat.Specifications := Known specs;
       CustomFormat.Name := Known name;
       CustomFormat.ID := Known id;
       CustomFormat.IncludeCustomFormatWhenRenaming := Known include |}.
Proof.
  intros Hr Hs. unfold CustomFormat.write, CustomFormat.read.
  cbn [CustomFormat.Specifications CustomFormat.Name CustomFormat.ID
       CustomFormat.IncludeCustomFormatWhenRenaming Elements ValueInt64 ValueString
       ValueBool lidarr_CustomFormatResource.Specifications
       lidarr_CustomFormatResource.GetId lidarr_CustomFormatResource.GetName
       lidarr_CustomFormatResource.GetIncludeCustomFormatWhenRenaming
       lidarr_CustomFormatResource.Id lidarr_CustomFormatResource.Name
       lidarr_CustomFormatResource.IncludeCustomFormatWhenRenaming].
  rewrite (int32_in_range _ Hr), map_map.
  unfold Int64Value, StringValue, BoolValue, SetValueFrom. f_equal. f_equal.
  induction Hs as [|x rest Hx _ IH]; cbn [map]; [reflexivity|].
  now rewrite Hx, IH.
Qed.

End CustomFormatProperties.

(** ** The configuration of the provider *)

Lemma provider_Contains_error (ds : list lidarrProvider.Diagnostic)
  (d : lidarrProvider.Diagnostic) :
  lidarrProvider.Contains ds d = true ->
  lidarrProvider.severity d = SeverityError ->
  lidarrProvider.HasError ds = true.
Proof.
  unfold lidarrProvider.Contains, lidarrProvider.HasError. intros Hc Hd.
  apply existsb_exists in Hc. destruct Hc as [x [Hin Heq]].
  apply existsb_exists. exists x. split; [assumption|].
  unfold lidarrProvider.Diagnostic_Equal in Heq.
  apply andb_prop in Heq. destruct Heq as [Heq _].
  apply andb_prop in Heq. destruct Heq as [Heq _].
  apply Severity_eqb_eq in Heq. rewrite <- Heq, Hd. reflexivity.
Qed.

Lemma provider_HasError_Append (ds new : list lidarrProvider.Diagnostic) :
  lidarrProvider.HasError (lidarrProvider.Append ds new)
  = lidarrProvider.HasError ds || lidarrProvider.HasError new.
Proof.
  revert ds. induction new as [|d rest IH]; intro ds; cbn [lidarrProvider.Append].
  - cbn. now rewrite orb_false_r.
  - rewrite IH. destruct (lidarrProvider.Contains ds d) eqn:Hc.
    + cbn [lidarrProvider.HasError existsb].
      destruct (Severity_eqb (lidarrProvider.severity d) SeverityError) eqn:Hs;
        cbn [orb]; [|reflexivity].
      apply Severity_eqb_eq in Hs.
      rewrite (provider_Contains_error ds d Hc Hs). reflexivity.
    + unfold lidarrProvider.HasError at 1. rewrite existsb_app.
      cbn [existsb lidarrProvider.HasError]. rewrite orb_false_r.
      now rewrite orb_assoc.
Qed.

Lemma provider_HasError_AddError (ds : list lidarrProvider.Diagnostic) (s d : string) :
  lidarrProvider.HasError (lidarrProvider.AddError ds s d) = true.
Proof.
  unfold lidarrProvider.AddError. rewrite provider_HasError_Append. cbn. apply orb_true_r.
Qed.

Lemma provider_HasError_AddWarning (ds : list lidarrProvider.Diagnostic) (s d : string) :
  lidarrProvider.HasError (lidarrProvider.AddWarning ds s d) = lidarrProvider.HasError ds.
Proof.
  unfold lidarrProvider.AddWarning. rewrite provider_HasError_Append. cbn.
  apply orb_false_r.
Qed.

Lemma provider_Diagnostic_Equal_refl (d : lidarrProvider.Diagnostic) :
  lidarrProvider.Diagnostic_Equal d d = true.
Proof.
  unfold lidarrProvider.Diagnostic_Equal. rewrite !String.eqb_refl.
  destruct (lidarrProvider.severity d); reflexivity.
Qed.

Lemma provider_Contains_Append (ds : list lidarrProvider.Diagnostic)
  (d : lidarrProvider.Diagnostic) :
  lidarrProvider.Contains (lidarrProvider.Append ds [d]) d = true.
Proof.
  cbn [lidarrProvider.Append]. destruct (lidarrProvider.Contains ds d) eqn:Hc.
  - exact Hc.
  - unfold lidarrProvider.Contains. rewrite existsb_app. cbn [existsb].
    rewrite provider_Diagnostic_Equal_refl. now rewrite orb_true_r.
Qed.

(** X14.  With no error so far, no unknown attribute and a url and a key
    that resolve (from the attribute, or from the environment when the
    attribute is null) to non-empty strings, [Configure] marks the provider
    configured with the client of that url and key and adds no diagnostic. *)
Theorem provider_Configure_builds_the_client (p : lidarrProvider.t)
  (env : string -> string) (data : lidarrProvider.providerData)
  (ds resp : list lidarrProvider.Diagnostic) :
  let url := if lidarrProvider.Null (lidarrProvider.URL data)
             then env "LIDARR_URL" else lidarrProvider.Value (lidarrProvider.URL data) in
  let key := if lidarrProvider.Null (lidarrProvider.APIKey data)
             then env "LIDARR_API_KEY"
             else lidarrProvider.Value (lidarrProvider.APIKey data) in
  lidarrProvider.HasError (lidarrProvider.Append resp ds) = false ->
  lidarrProvider.Unknown (lidarrProvider.URL data) = false ->
  lidarrProvider.Unknown (lidarrProvider.APIKey data) = false ->
  url <> "" -> key <> "" ->
  lidarrProvider.Configure p env (data, ds) resp
  = ({| lidarrProvider.client := Some (lidarr_New url key);
        lidarrProvider.configured := true;
        lidarrProvider.version := lidarrProvider.version p |},
     lidarrProvider.Append resp ds).
Proof.
  cbv zeta. intros He Hu Hk Hurl Hkey. unfold lidarrProvider.Configure.
  cbn [fst snd]. rewrite He, Hu, Hk.
  apply String.eqb_neq in Hurl. apply String.eqb_neq in Hkey.
  rewrite Hurl, Hkey. reflexivity.
Qed.

(** X15.  [Configure] either leaves the provider as it was, or configures it
    with a client built from a non-empty url and a non-empty key; in the
    second case it adds no diagnostic and the response holds no error. *)
Theorem provider_is_configured_whole_or_not_at_all (p : lidarrProvider.t)
  (env : string -> string) (data : lidarrProvider.providerData)
  (ds resp : list lidarrProvider.Diagnostic) :
  let url := if lidarrProvider.Null (lidarrProvider.URL data)
             then env "LIDARR_URL" else lidarrProvider.Value (lidarrProvider.URL data) in
  let key := if lidarrProvider.Null (lidarrProvider.APIKey data)
             then env "LIDARR_API_KEY"
             else lidarrProvider.Value (lidarrProvider.APIKey data) in
  let out := lidarrProvider.Configure p env (data, ds) resp in
  fst out = p
  \/ (url <> "" /\ key <> ""
      /\ fst out = {| lidarrProvider.client := Some (lidarr_New url key);
                      lidarrProvider.configured := true;
                      lidarrProvider.version := lidarrProvider.version p |}
      /\ snd out = lidarrProvider.Append resp ds
      /\ lidarrProvider.HasError (snd out) = false).
Proof.
  cbv zeta. unfold lidarrProvider.Configure. cbn [fst snd].
  destruct (lidarrProvider.HasError (lidarrProvider.Append resp ds)) eqn:He;
    [now left|].
  destruct (lidarrProvider.Unknown (lidarrProvider.URL data)); [now left|].
  destruct (String.eqb _ "") eqn:Hurl; [now left|].
  destruct (lidarrProvider.Unknown (lidarrProvider.APIKey data)); [now left|].
  destruct (String.eqb (if lidarrProvider.Null (lidarrProvider.APIKey data) then _ else _) "")
    eqn:Hkey; [now left|].
  right. apply String.eqb_neq in Hurl. apply String.eqb_neq in Hkey.
  cbn [fst snd]. repeat split; assumption.
Qed.

(** X16.  [Configure] reads the environment only through [LIDARR_URL] and
    [LIDARR_API_KEY], and each only when its attribute is null: two
    environments that agree there give the same result. *)
Theorem provider_reads_the_environment_for_null_attributes_only (p : lidarrProvider.t)
  (env env' : string -> string) (data : lidarrProvider.providerData)
  (ds resp : list lidarrProvider.Diagnostic) :
  (lidarrProvider.Null (lidarrProvider.URL data) = true ->
   env "LIDARR_URL" = env' "LIDARR_URL") ->
  (lidarrProvider.Null (lidarrProvider.APIKey data) = true ->
   env "LIDARR_API_KEY" = env' "LIDARR_API_KEY") ->
  lidarrProvider.Configure p env (data, ds) resp
  = lidarrProvider.Configure p env' (data, ds) resp.
Proof.
  intros Hu Hk. unfold lidarrProvider.Configure. cbn [fst snd].
  destruct (lidarrProvider.Null (lidarrProvider.URL data));
    destruct (lidarrProvider.Null (lidarrProvider.APIKey data));
    try rewrite (Hu eq_refl); try rewrite (Hk eq_refl); reflexivity.
Qed.

(** X17.  The url is checked before the key.  An unknown url gives a warning,
    no error, and an url that resolves to the empty string an error; in both
    cases the provider is unchanged, whatever the key attribute holds. *)
Theorem provider_checks_the_URL_first (p : lidarrProvider.t) (env : string -> string)
  (url : lidarrProvider.types_String_fields) (ds resp : list lidarrProvider.Diagnostic) :
  lidarrProvider.HasError (lidarrProvider.Append resp ds) = false ->
  (lidarrProvider.Unknown url = true ->
   forall key,
     let out := lidarrProvider.Configure p env
                  ({| lidarrProvider.APIKey := key; lidarrProvider.URL := url |}, ds) resp in
     fst out = p
     /\ lidarrProvider.HasError (snd out) = false
     /\ lidarrProvider.Contains (snd out)
          {| lidarrProvider.severity := SeverityWarning;
             lidarrProvider.summary := "Unable to create client";
             lidarrProvider.detail := "Cannot use unknown value as url" |} = true)
  /\ (lidarrProvider.Unknown url = false ->
      (if lidarrProvider.Null url then env "LIDARR_URL" else lidarrProvider.Value url) = "" ->
      forall key,
        let out := lidarrProvider.Configure p env
                     ({| lidarrProvider.APIKey := key; lidarrProvider.URL := url |}, ds) resp in
        fst out = p
        /\ lidarrProvider.HasError (snd out) = true
        /\ lidarrProvider.Contains (snd out)
             {| lidarrProvider.severity := SeverityError;
                lidarrProvider.summary := "Unable to find URL";
                lidarrProvider.detail := "URL cannot be an empty string" |} = true).
Proof.
  intro He. split.
  - intros Hu key. cbv zeta. unfold lidarrProvider.Configure.
    cbn [fst snd lidarrProvider.URL]. rewrite He, Hu. cbn [fst snd].
    split; [reflexivity|]. split.
    + now rewrite provider_HasError_AddWarning.
    + apply provider_Contains_Append.
  - intros Hu Hurl key. cbv zeta. unfold lidarrProvider.Configure.
    cbn [fst snd lidarrProvider.URL]. rewrite He, Hu, Hurl. cbn [String.eqb fst snd].
    split; [reflexivity|]. split.
    + apply provider_HasError_AddError.
    + apply provider_Contains_Append.
Qed.

(** ** Schemas and type names *)

Lemma nodupb_NoDup (l : list string) : nodupb l = true -> NoDup l.
Proof.
  induction l as [|x rest IH]; cbn [nodupb]; intro H; constructor.
  - apply andb_prop in H. destruct H as [H _]. apply negb_true_iff in H.
    intro Hin. assert (Ht : existsb (String.eqb x) rest = true).
    { apply existsb_exists. exists x. split; [assumption | apply String.eqb_refl]. }
    congruence.
  - apply andb_prop in H. destruct H as [_ H]. now apply IH.
Qed.

Lemma lookup_In {A : Type} (name : string) (l : list (string * A)) (a : A) :
  lookup name l = Some a -> In (name, a) l.
Proof.
  unfold lookup. destruct (find _ l) as [[k v]|] eqn:E; [|discriminate].
  cbn [option_map snd]. intro H. injection H as <-.
  apply find_some in E. destruct E as [Hin Hk]. cbn [fst] in Hk.
  apply String.eqb_eq in Hk. now subst.
Qed.

Lemma In_lookup {A : Type} (name : string) (l : list (string * A)) (a : A) :
  NoDup (map fst l) -> In (name, a) l -> lookup name l = Some a.
Proof.
  unfold lookup. induction l as [|[k v] rest IH]; cbn [map fst find In].
  - intros _ [].
  - intros Hn [H|H].
    + injection H as -> ->. now rewrite String.eqb_refl.
    + inversion Hn as [|? ? Hk Hr]; subst.
      destruct (String.eqb k name) eqn:E.
      * apply String.eqb_eq in E. subst. exfalso. apply Hk.
        change name with (fst (name, a)). now apply in_map.
      * now apply IH.
Qed.

Lemma In_key {A : Type} (name : string) (l : list (string * A)) :
  In name (map fst l) -> exists a, In (name, a) l.
Proof.
  intro H. apply in_map_iff in H. destruct H as [[k v] [Hk Hin]].
  cbn [fst] in Hk. subst. now exists v.
Qed.

Lemma schema_matches_model_sound (s : schema.Schema) (tags : list (string * FieldType)) :
  schema_matches_model s tags = true -> schema_agrees s tags.
Proof.
  unfold schema_matches_model. intro H.
  apply andb_prop in H. destruct H as [H Ht].
  apply andb_prop in H. destruct H as [H Hs].
  apply andb_prop in H. destruct H as [Hn1 Hn2].
  apply nodupb_NoDup in Hn1. apply nodupb_NoDup in Hn2.
  rewrite forallb_forall in Hs, Ht.
  split; [assumption|]. split; [assumption|]. split.
  - intro name. split; intro Hin; apply In_key in Hin; destruct Hin as [a Hin].
    + specialize (Hs _ Hin). cbn [fst snd] in Hs.
      destruct (lookup name tags) as [ft|] eqn:E; [|discriminate].
      apply lookup_In in E. change name with (fst (name, ft)). now apply in_map.
    + specialize (Ht _ Hin). cbn [fst] in Ht.
      destruct (lookup name s) as [a'|] eqn:E; [|discriminate].
      apply lookup_In in E. change name with (fst (name, a')). now apply in_map.
  - intros name a ft Ha Hf. specialize (Hs _ Ha). cbn [fst snd] in Hs.
    now rewrite (In_lookup _ _ _ Hn2 Hf) in Hs.
Qed.

(** X18.  For each notification variant the schema and the data model
    declare the same attributes: no name twice, every schema attribute a
    tagged field and every tagged field a schema attribute, of the same
    type. *)
Theorem schemas_agree_with_the_data_models :
  schema_agrees NotificationCustomScriptResource.Schema NotificationCustomScript.tfsdk_tags
  /\ schema_agrees NotificationGotifyResource.Schema NotificationGotify.tfsdk_tags
  /\ schema_agrees NotificationEmailResource.Schema NotificationEmail.tfsdk_tags
  /\ schema_agrees NotificationSubsonicResource.Schema NotificationSubsonic.tfsdk_tags.
Proof.
  repeat match goal with |- _ /\ _ => split end;
    apply schema_matches_model_sound; vm_compute; reflexivity.
Qed.

Lemma covered_by_sound (wide s : schema.Schema) :
  covered_by wide s = true ->
  forall name a, In (name, a) s ->
    exists a', In (name, a') wide /\ same_kind (schema.Kind a) (schema.Kind a') = true.
Proof.
  unfold covered_by. rewrite forallb_forall. intros H name a Hin.
  specialize (H _ Hin). cbn [fst snd] in H.
  destruct (lookup name wide) as [a'|] eqn:E; [|discriminate].
  exists a'. split; [now apply lookup_In | assumption].
Qed.

(** X19.  Every attribute of the schema of a notification variant is an
    attribute of the elements of the notifications list (lidarr-go version),
    of the same type; and every attribute of those elements is computed,
    neither required nor optional. *)
Theorem list_schema_covers_every_variant :
  (forall s, In s [NotificationCustomScriptResource.Schema;
                   NotificationGotifyResource.Schema;
                   NotificationEmailResource.Schema;
                   NotificationSubsonicResource.Schema] ->
     forall name a, In (name, a) s ->
       exists a', In (name, a') NotificationsDataSource.NestedAttributes
                  /\ same_kind (schema.Kind a) (schema.Kind a') = true)
  /\ Forall (fun entry => computed_only (snd entry) = true)
       NotificationsDataSource.NestedAttributes.
Proof.
  split.
  - intros s Hs. apply covered_by_sound.
    cbn [In] in Hs. destruct Hs as [<-|[<-|[<-|[<-|[]]]]]; vm_compute; reflexivity.
  - apply Forall_forall. apply forallb_forall. vm_compute. reflexivity.
Qed.

Lemma append_cancel (p a b : string) : (p ++ a = p ++ b)%string -> a = b.
Proof.
  induction p as [|c p IH]; cbn [String.append]; intro H; [assumption|].
  injection H as H. now apply IH.
Qed.

(** X20.  Under one provider type name the five resources have five
    different type names, and the two data sources two. *)
Theorem type_names_do_not_collide (providerTypeName : string) :
  NoDup [NotificationCustomScriptResource.Metadata providerTypeName;
         NotificationGotifyResource.Metadata providerTypeName;
         NotificationEmailResource.Metadata providerTypeName;
         NotificationSubsonicResource.Metadata providerTypeName;
         CustomFormatResource.Metadata providerTypeName]
  /\ NotificationsDataSource.Metadata providerTypeName
     <> IndexerDataSource.Metadata providerTypeName.
Proof.
  split.
  - repeat constructor; cbn [In]; intro H;
      repeat match goal with
             | H : _ \/ _ |- _ => destruct H as [H|H]
             | H : False |- _ => destruct H
             | H : _ = _ |- _ => apply append_cancel in H; discriminate H
             end.
  - intro H. apply append_cancel in H. discriminate H.
Qed.

(** ** The further properties at sample inputs *)

(** X1 at a sample input: a read whose state does not decode. *)
Lemma decode_failure_stops_the_method_witness :
  run store
    (NotificationEmailResource.Read (GM := sample_methods)
       (failed_decoding (sample_email 7)) (fresh (Some (sample_email 7)))) [7]
  = (Diagnostics_Append (fresh (Some (sample_email 7)))
       (Get_diags (failed_decoding (sample_email 7))), [7], []).
Proof.
  destruct (decode_failure_stops_the_method (GM := sample_methods) (EX := sample_external)
              (list Z) store [7])
    as [_ [_ [_ [_ [_ [_ [_ [_ [_ [H _]]]]]]]]]].
  exact (H (failed_decoding (sample_email 7)) (fresh (Some (sample_email 7))) eq_refl).
Defined.

(** X3 at a sample input: a create of an email notification that the
    server refuses. *)
Lemma failed_create_or_update_keeps_the_state_witness :
  call_failure_outcome "Unable to create notification_email, got error: connection refused"
    [] (fresh None)
    (value_of (run (failing refused)
       (NotificationEmailResource.Create (GM := sample_methods)
          (decoded (sample_email 0)) (fresh None)) tt)).
Proof.
  destruct (failed_create_or_update_keeps_the_state (GM := sample_methods)
              unit (failing refused) tt refused)
    as [_ [_ [_ [_ [H _]]]]].
  exact (H (decoded (sample_email 0)) (fresh None) eq_refl eq_refl).
Defined.

(** X4 at a sample input: a create and a read the server answers with the
    same record. *)
Lemma refresh_stores_what_create_stored_witness :
  State (value_of (run (serving_output (stored_output 7))
    (NotificationEmailResource.Read (GM := sample_methods)
       (decoded (sample_email 7)) (fresh (Some (sample_email 7)))) tt))
  = State (value_of (run (serving_output (stored_output 7))
    (NotificationEmailResource.Create (GM := sample_methods)
       (decoded (sample_email 0)) (fresh None)) tt)).
Proof.
  exact (proj1 (refresh_stores_what_create_stored (GM := sample_methods)
                  unit (serving_output (stored_output 7)) tt tt)
           (decoded (sample_email 0)) (decoded (sample_email 7))
           (fresh None) (fresh (Some (sample_email 7))) (stored_output 7)
           eq_refl eq_refl eq_refl eq_refl).
Defined.

(** X5 at a sample input: the custom format 7 + 2^32 is deleted under the
    key of the custom format 7. *)
Lemma remote_identifier_is_32_bit_witness :
  calls_of (run (failing refused)
    (CustomFormatResource.Delete
       (decoded (sample_custom_format 4294967303))
       (fresh (Some (sample_custom_format 4294967303)))) tt)
  = calls_of (run (failing refused)
    (CustomFormatResource.Delete
       (decoded (sample_custom_format 7))
       (fresh (Some (sample_custom_format 4294967303)))) tt).
Proof.
  pose proof (remote_identifier_is_32_bit (GM := sample_methods)
                unit (failing refused) tt) as H.
  do 15 apply proj2 in H. apply proj1 in H.
  exact (H (decoded (sample_custom_format 7)) (decoded (sample_custom_format 4294967303))
           (fresh (Some (sample_custom_format 4294967303))) eq_refl eq_refl eq_refl).
Defined.


(** X7 at a sample input: a listing the server refuses. *)
Lemma list_Read_failure_keeps_the_state_witness :
  call_failure_outcome "Unable to read notifications, got error: connection refused"
    [] (fresh None)
    (value_of (run (failing refused)
       (NotificationsDataSource.Read (GM := sample_methods)
          (decoded {| Notifications.Notifications := Null; Notifications.ID := Null |})
          (fresh None)) tt)).
Proof.
  exact (proj1 (list_Read_failure_keeps_the_state (GM := sample_methods)
                  unit (failing refused) tt refused
                  (decoded {| Notifications.Notifications := Null;
                              Notifications.ID := Null |})
                  (fresh None) eq_refl) eq_refl).
Defined.

(** X8 at a sample input: the second of three indexers has the requested
    name. *)
Lemma indexer_Read_outcomes_witness :
  State (value_of (run
    (listing_indexers [indexer_named 1 "Headphones"; indexer_named 2 "Filelist";
                       indexer_named 3 "Filelist"])
    (IndexerDataSource.Read (GM := sample_methods) (EX := sample_external)
       (decoded (Known "Filelist")) (fresh None)) tt))
  = Some (Known "Filelist").
Proof.
  destruct (indexer_Read_outcomes (GM := sample_methods) (EX := sample_external) unit
      (listing_indexers [indexer_named 1 "Headphones"; indexer_named 2 "Filelist";
                         indexer_named 3 "Filelist"]) tt
      (decoded (Known "Filelist")) (fresh None) eq_refl) as [_ [_ H]].
  refine (proj2 (H [indexer_named 1 "Headphones"] (indexer_named 2 "Filelist")
                   [indexer_named 3 "Filelist"] eq_refl _ eq_refl)).
  repeat constructor. discriminate.
Defined.

(** X10 at a sample input. *)
Lemma ImportState_reads_back_Itoa_witness :
  GetAttribute (Import_State (value_of (run (failing refused)
    (NotificationEmailResource.ImportState (EX := sample_external)
       (strconv.Itoa 42) empty_import) tt))) "id" = Some (DInt 42).
Proof.
  refine (proj1 (proj2 (ImportState_reads_back_Itoa (EX := sample_external)
                          unit (failing refused) tt 42 empty_import _))).
  unfold strconv.minInt, strconv.maxInt. lia.
Defined.

(** X11 at a sample input: a signed identifier. *)
Lemma ImportState_accepts_decimal_text_in_range_witness :
  HasError (Import_Diagnostics (value_of (run (failing refused)
    (NotificationEmailResource.ImportState (EX := sample_external)
       "+42" empty_import) tt))) = false
  <-> decimal_text "+42" = true
      /\ strconv.minInt <= decimal_value "+42" <= strconv.maxInt.
Proof.
  exact (proj1 (ImportState_accepts_decimal_text_in_range (EX := sample_external)
                  unit (failing refused) tt "+42" empty_import eq_refl)).
Defined.

(** X12 at a sample input: a configuration that declares no priority. *)
Lemma validators_reject_exactly_a_foreign_priority_witness :
  schema.ValidateInt64Attributes NotificationGotifyResource.Schema
    NotificationGotifyResource.Int64_attribute (sample_gotify Null) = [].
Proof.
  exact (proj2 (proj2 (proj2
           (validators_reject_exactly_a_foreign_priority (sample_gotify Null))))
           (or_introl eq_refl)).
Defined.

(** X13 at a sample input: a custom format with one condition, for the
    sample codec of conditions. *)
Lemma custom_format_round_trip_witness :
  CustomFormat.write (GM := sample_methods) CustomFormat.zero
    (CustomFormat.read (GM := sample_methods) (sample_custom_format 7))
  = sample_custom_format 7.
Proof.
  refine (custom_format_round_trip (GM := sample_methods) CustomFormat.zero
            "lossless" 7 false [CustomFormat.zero_condition] _ _).
  - cbn. lia.
  - repeat constructor.
Defined.

(** X14 at a sample input: both attributes null, both variables set. *)
Lemma provider_Configure_builds_the_client_witness :
  lidarrProvider.Configure new_provider sample_environment
    ({| lidarrProvider.APIKey := null_string; lidarrProvider.URL := null_string |}, []) []
  = ({| lidarrProvider.client :=
          Some (lidarr_New "http://localhost:8686" "key-from-environment");
        lidarrProvider.configured := true;
        lidarrProvider.version := "test" |}, []).
Proof.
  refine (provider_Configure_builds_the_client new_provider sample_environment
            {| lidarrProvider.APIKey := null_string; lidarrProvider.URL := null_string |}
            [] [] eq_refl eq_refl eq_refl _ _); discriminate.
Defined.

(** X16 at a sample input: both attributes set, two environments. *)
Lemma provider_reads_the_environment_for_null_attributes_only_witness :
  lidarrProvider.Configure new_provider sample_environment
    ({| lidarrProvider.APIKey := known_string "key";
        lidarrProvider.URL := known_string "http://lidarr:8686" |}, []) []
  = lidarrProvider.Configure new_provider no_environment
      ({| lidarrProvider.APIKey := known_string "key";
          lidarrProvider.URL := known_string "http://lidarr:8686" |}, []) [].
Proof.
  refine (provider_reads_the_environment_for_null_attributes_only new_provider
            sample_environment no_environment
            {| lidarrProvider.APIKey := known_string "key";
               lidarrProvider.URL := known_string "http://lidarr:8686" |} [] [] _ _);
    discriminate.
Defined.

(** X17 at a sample input: an unknown url and no key at all. *)
Lemma provider_checks_the_URL_first_witness :
  fst (lidarrProvider.Configure new_provider no_environment
         ({| lidarrProvider.APIKey := null_string;
             lidarrProvider.URL := unknown_string |}, []) []) = new_provider
  /\ lidarrProvider.HasError
       (snd (lidarrProvider.Configure new_provider no_environment
               ({| lidarrProvider.APIKey := null_string;
                   lidarrProvider.URL := unknown_string |}, []) [])) = false.
Proof.
  destruct (proj1 (provider_checks_the_URL_first new_provider no_environment
                     unknown_string [] [] eq_refl) eq_refl null_string)
    as [H1 [H2 _]].
  exact (conj H1 H2).
Defined.

(** X19 at a sample input: the priority of the gotify schema. *)
Lemma list_schema_covers_every_variant_witness :
  exists a', In ("priority", a') NotificationsDataSource.NestedAttributes
             /\ same_kind (schema.Int64Attribute [schema.OneOf [0; 2; 5; 8]] false)
                  (schema.Kind a') = true.
Proof.
  refine (proj1 list_schema_covers_every_variant NotificationGotifyResource.Schema _
            "priority"
            (NotificationGotifyResource.flag false true true false
               (schema.Int64Attribute [schema.OneOf [0; 2; 5; 8]] false)) _).
  - cbn [In]. right. left. reflexivity.
  - cbn [In NotificationGotifyResource.Schema]. do 14 right. left. reflexivity.
Defined.
